(** * CloudSync: the Google Drive save / list / load pipeline of excalidrive

    A shallow embedding of [excalidraw-app/data/googleCloud.ts] and of the
    [LoadFromCloud] component that calls it.  The module is a chain of
    asynchronous calls against the browser (the clock, [window.gapi], Google
    Identity Services, [fetch]); every [await] is a sequencing point, so one
    operation is a computation in a state and exception monad over the
    module's mutable state, and the environment's answers come from an
    [Env] record.  Console output is not modelled.  An operation runs from
    start to end before the next one starts; where two operations that
    overlap matter, the initialization of the client library is also given
    in the two turns of the event loop it takes.

    Part I holds the definitions: JavaScript values and [JSON.stringify],
    the environment, the monad, the module itself, the vocabulary of the
    statements, a model of the remote Drive service, the component, and
    concrete scenes.  Part II holds the lemmas, the theorems C1 to C10 and
    further properties of the module and of the component. *)

From Stdlib Require Import Ascii String.
From stdpp Require Import base list strings sorting pretty.

Local Open Scope string_scope.
Local Open Scope list_scope.

Set Warnings "-register-all".

(** * Part I: definitions *)

(** ** Characters that cannot be written inside a literal *)

Definition dquote : string := String "034"%char "".
Definition newline : string := String "010"%char "".

(** ** JavaScript values

    The data that crosses the module boundary is JSON-like: scene elements,
    binary files, HTTP response bodies, rejection payloads.  A finite number
    is identified with its canonical rendering ([Number::toString]); an
    object is the list of its own enumerable properties in enumeration
    order. *)

Inductive JsValue : Type :=
| JNull
| JBool (b : bool)
| JNum (repr : string)
| JStr (s : string)
| JArr (items : list JsValue)
| JObj (props : list (string * JsValue)).

(** [o[k]] for a plain object: [None] is [undefined]. *)
Fixpoint obj_get (k : string) (props : list (string * JsValue)) : option JsValue :=
  match props with
  | [] => None
  | (k', v) :: rest => if String.eqb k k' then Some v else obj_get k rest
  end.

(** ToBoolean. *)
Definition truthy (v : JsValue) : bool :=
  match v with
  | JNull => false
  | JBool b => b
  | JNum r => negb (String.eqb r "0")
  | JStr s => negb (String.eqb s "")
  | JArr _ | JObj _ => true
  end.

(** ToBoolean of a property that may be [undefined]. *)
Definition truthy_opt (o : option JsValue) : bool :=
  match o with
  | Some v => truthy v
  | None => false
  end.

(** [!x] for [x : string | null | undefined]. *)
Definition falsy_opt (o : option string) : bool :=
  match o with
  | Some s => String.eqb s ""
  | None => true
  end.

Fixpoint join (sep : string) (parts : list string) : string :=
  match parts with
  | [] => ""
  | [p] => p
  | p :: rest => p +:+ sep +:+ join sep rest
  end.

(** ToString, as a template literal applies it. *)
Fixpoint ToString (v : JsValue) : string :=
  match v with
  | JNull => "null"
  | JBool true => "true"
  | JBool false => "false"
  | JNum r => r
  | JStr s => s
  | JArr items =>
      join "," (List.map (fun x => match x with JNull => "" | _ => ToString x end) items)
  | JObj _ => "[object Object]"
  end.

Definition ToString_opt (o : option JsValue) : string :=
  match o with
  | Some v => ToString v
  | None => "undefined"
  end.

(** [`${x}`] for [x : string | undefined]. *)
Definition template_opt (o : option string) : string :=
  match o with
  | Some s => s
  | None => "undefined"
  end.

(** [v.k] for a value that is an object. *)
Definition field (k : string) (v : JsValue) : option JsValue :=
  match v with
  | JObj props => obj_get k props
  | _ => None
  end.

(** [s] between double quotes. *)
Definition quoted (s : string) : string := dquote +:+ s +:+ dquote.

(** ** JSON.stringify (ECMA-262, 25.5.2) on the values above *)

Module JSON.

Definition hex_digit (n : nat) : string :=
  String (nth n ["0"; "1"; "2"; "3"; "4"; "5"; "6"; "7"; "8"; "9";
                 "a"; "b"; "c"; "d"; "e"; "f"]%char "0"%char) "".

Definition quote_char (c : ascii) : string :=
  let n := nat_of_ascii c in
  if Nat.eqb n 8 then "\b"
  else if Nat.eqb n 9 then "\t"
  else if Nat.eqb n 10 then "\n"
  else if Nat.eqb n 12 then "\f"
  else if Nat.eqb n 13 then "\r"
  else if Nat.eqb n 34 then "\" +:+ dquote
  else if Nat.eqb n 92 then "\\"
  else if Nat.ltb n 32 then "\u00" +:+ hex_digit (n / 16) +:+ hex_digit (n mod 16)
  else String c "".

Fixpoint quote_chars (s : string) : string :=
  match s with
  | EmptyString => ""
  | String c rest => quote_char c +:+ quote_chars rest
  end.

(** QuoteJSONString *)
Definition quote (s : string) : string := dquote +:+ quote_chars s +:+ dquote.

(** The tail shared by SerializeJSONObject and SerializeJSONArray. *)
Definition wrap (opening closing gap stepback indent : string)
    (partial : list string) : string :=
  match partial with
  | [] => opening +:+ closing
  | _ =>
      if String.eqb gap ""
      then opening +:+ join "," partial +:+ closing
      else opening +:+ newline +:+ indent
             +:+ join ("," +:+ newline +:+ indent) partial
             +:+ newline +:+ stepback +:+ closing
  end.

(** SerializeJSONProperty *)
Fixpoint serialize (gap indent : string) (v : JsValue) : string :=
  match v with
  | JNull => "null"
  | JBool true => "true"
  | JBool false => "false"
  | JNum r => r
  | JStr s => quote s
  | JArr items =>
      let stepback := indent in
      let indent := indent +:+ gap in
      wrap "[" "]" gap stepback indent (List.map (serialize gap indent) items)
  | JObj props =>
      let stepback := indent in
      let indent := indent +:+ gap in
      wrap "{" "}" gap stepback indent
        (List.map (fun '(k, x) =>
                     quote k +:+ ":" +:+ (if String.eqb gap "" then "" else " ")
                       +:+ serialize gap indent x) props)
  end.

Fixpoint spaces (n : nat) : string :=
  match n with
  | O => ""
  | S n' => " " +:+ spaces n'
  end.

(** [JSON.stringify(value, null, space)]; [space = 0] is the call with no
    [space], [JSON.stringify(value)]. *)
Definition stringify (value : JsValue) (space : nat) : string :=
  serialize (spaces (Nat.min 10 space)) "" value.

End JSON.

(** ** Thrown values

    What a rejected promise or a [throw] carries.  [Error] instances (the
    module's own [new Error(...)], the engine's [TypeError]s), primitive
    strings and plain objects (a gapi rejection is the response object) are
    covered; a rejection with [null] or [undefined] is outside the model. *)

Inductive Thrown : Type :=
| TError (message : string)
| TString (s : string)
| TObject (props : list (string * JsValue)).

(** [error[k]] *)
Definition thrown_get (error : Thrown) (k : string) : option JsValue :=
  match error with
  | TError m => if String.eqb k "message" then Some (JStr m) else None
  | TString _ => None
  | TObject props => obj_get k props
  end.

(** [`${error}`] *)
Definition thrown_ToString (error : Thrown) : string :=
  match error with
  | TError m => if String.eqb m "" then "Error" else "Error: " +:+ m
  | TString s => s
  | TObject _ => "[object Object]"
  end.

(** [`${error.message || "Unknown error"}`] *)
Definition message_or_unknown (error : Thrown) : string :=
  if truthy_opt (thrown_get error "message")
  then ToString_opt (thrown_get error "message")
  else "Unknown error".

(** [`${error.message || error}`] *)
Definition message_or_self (error : Thrown) : string :=
  if truthy_opt (thrown_get error "message")
  then ToString_opt (thrown_get error "message")
  else thrown_ToString error.

(** How an awaited promise settles; [Pending] is a promise that never
    settles (a consent popup closed without a callback). *)
Inductive Outcome (A : Type) : Type :=
| Resolved (a : A)
| Rejected (e : Thrown)
| Pending.
Arguments Resolved {A} a.
Arguments Rejected {A} e.
Arguments Pending {A}.

(** ** Requests and responses of the remote calls *)

(** [gapi.client.drive.files.list] *)
Record ListRequest := {
  q : string;
  list_fields : string;
  spaces : option string;
  orderBy : option string;
  pageSize : option nat
}.

(** One entry of [response.result.files]; every projected field may be
    missing.  Times are instants (milliseconds), not their RFC 3339 text:
    the module never looks inside them. *)
Record FileEntry := {
  id : option string;
  name : option string;
  createdTime : option Z;
  modifiedTime : option Z
}.

Record ListResponse := { files : option (list FileEntry) }.

(** [gapi.client.drive.files.create] *)
Record CreateRequest := {
  resource_name : string;
  resource_mimeType : string;
  create_fields : string
}.

Record CreateResponse := { result_id : option string }.

Record Blob := { blob_text : string; blob_type : string }.

(** [fetch(url, { method, headers: { Authorization }, body })] *)
Record FetchRequest := {
  url : string;
  method : string;
  Authorization : string;
  body : option (list (string * Blob))
}.

Record Response := {
  ok : bool;
  status : nat;
  statusText : string;
  text : Outcome string;
  json : Outcome JsValue
}.

(** The argument of the token client's callback. *)
Record TokenResponse := {
  error : option string;
  error_description : option string;
  access_token : option string
}.

(** What Google Identity Services does with one token request. *)
Inductive TokenFlow : Type :=
| InitTokenClientThrows (e : Thrown)
| RequestAccessTokenThrows (e : Thrown)
| Callback (response : TokenResponse)
| NoCallback.

(** ** The environment of one operation *)

Record Env := {
  (** [new Date().toISOString()] *)
  now : string;
  (** [import.meta.env.VITE_APP_GOOGLE_API_KEY], [..._CLIENT_ID] *)
  VITE_APP_GOOGLE_API_KEY : option string;
  VITE_APP_GOOGLE_CLIENT_ID : option string;
  (** [window.google?.accounts?.oauth2] is there *)
  google_oauth2 : bool;
  (** how [gapi.client.init] settles *)
  gapi_client_init : Outcome unit;
  token_flow : TokenFlow;
  drive_files_list : ListRequest -> Outcome ListResponse;
  drive_files_create : CreateRequest -> Outcome CreateResponse;
  fetch : FetchRequest -> Outcome Response
}.

(** ** The state the module reads and writes *)

(** [window.gapi]: missing, or loaded with [gapi.client.drive] present or
    not. *)
Inductive GapiState : Type :=
| GapiMissing
| GapiLoaded (drive : bool).

(** Every call that leaves the page. *)
Inductive Event : Type :=
| EGapiInit (apiKey : option string) (discoveryDocs : list string)
| ERequestAccessToken (client_id : option string) (scope : string)
| EFilesList (req : ListRequest)
| EFilesCreate (req : CreateRequest)
| EFetch (req : FetchRequest).

Record World := {
  (** [let accessToken: string | null = null] *)
  accessToken : option string;
  gapi : GapiState;
  (** the remote calls made so far, oldest first *)
  trace : list Event
}.

Definition initial_World (g : GapiState) : World :=
  {| accessToken := None; gapi := g; trace := [] |}.

(** ** Promises in sequence: state and exceptions *)

Definition M (A : Type) : Type := World -> Outcome A * World.

Definition ret {A} (a : A) : M A := fun w => (Resolved a, w).

Definition throw {A} (e : Thrown) : M A := fun w => (Rejected e, w).

Definition bind {A B} (m : M A) (k : A -> M B) : M B :=
  fun w =>
    match m w with
    | (Resolved a, w') => k a w'
    | (Rejected e, w') => (Rejected e, w')
    | (Pending, w') => (Pending, w')
    end.

(** [try { body } catch (error) { handler }] *)
Definition try_catch {A} (body : M A) (handler : Thrown -> M A) : M A :=
  fun w =>
    match body w with
    | (Rejected e, w') => handler e w'
    | r => r
    end.

(** [await p] for a promise the environment settles. *)
Definition await {A} (p : Outcome A) : M A := fun w => (p, w).

Definition log (e : Event) : M unit :=
  fun w => (Resolved tt,
            {| accessToken := accessToken w; gapi := gapi w; trace := trace w ++ [e] |}).

Definition read_accessToken : M (option string) := fun w => (Resolved (accessToken w), w).

Definition write_accessToken (t : option string) : M unit :=
  fun w => (Resolved tt, {| accessToken := t; gapi := gapi w; trace := trace w |}).

Definition read_gapi : M GapiState := fun w => (Resolved (gapi w), w).

Definition write_gapi (g : GapiState) : M unit :=
  fun w => (Resolved tt, {| accessToken := accessToken w; gapi := g; trace := trace w |}).

Notation "'let*' x ':=' m 'in' k" := (bind m (fun x => k))
  (at level 10, x pattern, m at level 100, k at level 200, only parsing).
Notation "m ';;' k" := (bind m (fun _ => k))
  (at level 100, k at level 200, right associativity, only parsing).

(** ** googleCloud.ts *)

Module GOOGLE_CLOUD_CONFIG.
Definition folderName : string := "excalidraw".
End GOOGLE_CLOUD_CONFIG.

Record SaveToCloudResult := {
  success : bool;
  message : string;
  (** [uploadResult.name]: whatever the upload response holds there *)
  fileName : option JsValue
}.

(** [iso.replace(/[:.]/g, "-")] *)
Fixpoint timestamp (iso : string) : string :=
  match iso with
  | EmptyString => ""
  | String c rest =>
      String (if (Ascii.eqb c ":" || Ascii.eqb c ".")%bool then "-"%char else c)
             (timestamp rest)
  end.

(** [`excalidraw-${timestamp}.excalidraw`] *)
Definition fileName_of (iso : string) : string :=
  "excalidraw-" +:+ timestamp iso +:+ ".excalidraw".

(** The object [data] that [saveToGoogleCloud] serializes. *)
Definition data (elements : list JsValue) (files : list (string * JsValue)) : JsValue :=
  JObj [("type", JStr "excalidraw");
        ("version", JNum "2");
        ("source", JStr "https://excalidraw.com");
        ("elements", JArr elements);
        ("appState", JObj [("viewBackgroundColor", JStr "#ffffff")]);
        ("files", JObj files)].

Definition jsonString (elements : list JsValue) (files : list (string * JsValue)) : string :=
  JSON.stringify (data elements files) 2.

(** [value.name] for [value : any]: reading a property of [null] throws. *)
Definition get_name (value : JsValue) : M (option JsValue) :=
  match value with
  | JNull => throw (TError "Cannot read properties of null (reading 'name')")
  | JObj props => ret (obj_get "name" props)
  | _ => ret None
  end.

Section Operations.

Variable env : Env.

(** The message the catch block inside [loadGoogleDriveAPI] picks. *)
Definition errorMessage (error : Thrown) : string :=
  if truthy_opt (thrown_get error "details")
  then ToString_opt (thrown_get error "details")
  else if truthy_opt (thrown_get error "error")
  then match thrown_get error "error" with
       | Some (JStr s) => s
       | Some e => JSON.stringify e 0
       | None => "undefined"
       end
  else if truthy_opt (thrown_get error "message")
  then ToString_opt (thrown_get error "message")
  else match error with
       | TString s => s
       | _ => "Unknown error"
       end.

(** [await window.gapi.client.init({ apiKey, discoveryDocs })].  When the
    call resolves the discovery document has been loaded, which is what
    makes [gapi.client.drive] exist. *)
Definition gapi_client_init_call : M unit :=
  log (EGapiInit (VITE_APP_GOOGLE_API_KEY env)
         ["https://www.googleapis.com/discovery/v1/apis/drive/v3/rest"]);;
  await (gapi_client_init env);;
  write_gapi (GapiLoaded true).

Definition loadGoogleDriveAPI : M unit :=
  let* g := read_gapi in
  match g with
  | GapiLoaded true => ret tt
  | GapiLoaded false =>
      try_catch gapi_client_init_call
        (fun error =>
           throw (TError ("Google API initialization failed: " +:+ errorMessage error)))
  | GapiMissing =>
      (* [window.gapi.load] on [undefined], inside the promise executor *)
      throw (TError "Cannot read properties of undefined (reading 'load')")
  end.

(** [loadGoogleDriveAPI] in the two turns of the event loop it takes when
    the drive client is not there.  First turn: the check of
    [window.gapi?.client?.drive] and, when it fails, [window.gapi.load],
    whose callback calls [gapi.client.init]; the result tells whether the
    promise is already resolved.  Second turn: [gapi.client.init] has
    settled.  Another operation can run between the two. *)
Definition loadGoogleDriveAPI_started : M bool :=
  let* g := read_gapi in
  match g with
  | GapiLoaded true => ret true
  | GapiLoaded false =>
      log (EGapiInit (VITE_APP_GOOGLE_API_KEY env)
             ["https://www.googleapis.com/discovery/v1/apis/drive/v3/rest"]);;
      ret false
  | GapiMissing =>
      throw (TError "Cannot read properties of undefined (reading 'load')")
  end.

Definition loadGoogleDriveAPI_settled : M unit :=
  try_catch (await (gapi_client_init env);; write_gapi (GapiLoaded true))
    (fun error =>
       throw (TError ("Google API initialization failed: " +:+ errorMessage error))).

Definition authenticateGoogleUser : M (option string) :=
  if negb (google_oauth2 env)
  then throw (TError "Google Identity Services not loaded. Please refresh the page.")
  else
    match token_flow env with
    | InitTokenClientThrows error =>
        throw (TError ("Authentication failed: " +:+ message_or_unknown error))
    | RequestAccessTokenThrows error =>
        log (ERequestAccessToken (VITE_APP_GOOGLE_CLIENT_ID env)
               "https://www.googleapis.com/auth/drive.file");;
        throw (TError ("Authentication failed: " +:+ message_or_unknown error))
    | Callback response =>
        log (ERequestAccessToken (VITE_APP_GOOGLE_CLIENT_ID env)
               "https://www.googleapis.com/auth/drive.file");;
        if negb (falsy_opt (error response))
        then throw (TError ("Authentication failed: " +:+
               template_opt (if falsy_opt (error_description response)
                             then error response
                             else error_description response)))
        else ret (access_token response)
    | NoCallback =>
        log (ERequestAccessToken (VITE_APP_GOOGLE_CLIENT_ID env)
               "https://www.googleapis.com/auth/drive.file");;
        await Pending
    end.

Definition files_list (req : ListRequest) : M ListResponse :=
  log (EFilesList req);; await (drive_files_list env req).

Definition files_create (req : CreateRequest) : M CreateResponse :=
  log (EFilesCreate req);; await (drive_files_create env req).

Definition do_fetch (req : FetchRequest) : M Response :=
  log (EFetch req);; await (fetch env req).

(** The search [getOrCreateFolder] sends. *)
Definition folder_search_request (folderName : string) : ListRequest :=
  {| q := "name='" +:+ folderName +:+
          "' and mimeType='application/vnd.google-apps.folder' and trashed=false";
     list_fields := "files(id, name)";
     spaces := Some "drive";
     orderBy := None;
     pageSize := None |}.

(** [{ resource: folderMetadata, fields: "id" }] *)
Definition folder_create_request (folderName : string) : CreateRequest :=
  {| resource_name := folderName;
     resource_mimeType := "application/vnd.google-apps.folder";
     create_fields := "id" |}.

(** The [try] block of [getOrCreateFolder]. *)
Definition getOrCreateFolder_try (folderName : string) : M (option string) :=
  let* response := files_list (folder_search_request folderName) in
  match files response with
  | Some (first :: _) => ret (id first)
  | _ =>
      let* folder := files_create (folder_create_request folderName) in
      ret (result_id folder)
  end.

Definition getOrCreateFolder (folderName : string) : M (option string) :=
  try_catch (getOrCreateFolder_try folderName)
    (fun error => throw (TError ("Folder operation failed: " +:+ message_or_self error))).

(** [metadata] of [uploadToGoogleDrive]; an [undefined] array item is
    serialized as [null]. *)
Definition metadata (fileName : string) (folderId : option string) : JsValue :=
  JObj [("name", JStr fileName);
        ("mimeType", JStr "application/json");
        ("parents", JArr [match folderId with Some f => JStr f | None => JNull end])].

Definition upload_request (file : Blob) (fileName : string) (folderId : option string)
    (token : string) : FetchRequest :=
  {| url := "https://www.googleapis.com/upload/drive/v3/files?uploadType=multipart";
     method := "POST";
     Authorization := "Bearer " +:+ token;
     body := Some [("metadata",
                    {| blob_text := JSON.stringify (metadata fileName folderId) 0;
                       blob_type := "application/json" |});
                   ("file", file)] |}.

(** The [try] block of [uploadToGoogleDrive]. *)
Definition uploadToGoogleDrive_try (file : Blob) (fileName : string)
    (folderId : option string) : M JsValue :=
  let* token := read_accessToken in
  if falsy_opt token
  then throw (TError "No access token available")
  else
    let* response := do_fetch (upload_request file fileName folderId (template_opt token)) in
    if negb (ok response)
    then
      let* errorText := await (text response) in
      throw (TError ("Failed to upload file to Google Drive: " +:+
                     pretty (status response) +:+ " " +:+ statusText response))
    else
      let* result := await (json response) in
      ret result.

Definition uploadToGoogleDrive (file : Blob) (fileName : string)
    (folderId : option string) : M JsValue :=
  try_catch (uploadToGoogleDrive_try file fileName folderId)
    (fun error => throw (TError ("Upload failed: " +:+ message_or_self error))).

(** The [try] block of [saveToGoogleCloud]. *)
Definition saveToGoogleCloud_try (elements : list JsValue)
    (files : list (string * JsValue)) : M SaveToCloudResult :=
  let fileName := fileName_of (now env) in
  let jsonString := jsonString elements files in
  let* g := read_gapi in
  match g with
  | GapiMissing => throw (TError "Google API not loaded. Please refresh the page.")
  | GapiLoaded _ =>
      loadGoogleDriveAPI;;
      let* token := authenticateGoogleUser in
      if falsy_opt token
      then throw (TError "Google authentication failed or was cancelled.")
      else
        write_accessToken token;;
        let* folderId := getOrCreateFolder GOOGLE_CLOUD_CONFIG.folderName in
        let file := {| blob_text := jsonString; blob_type := "application/json" |} in
        let* uploadResult := uploadToGoogleDrive file fileName folderId in
        let* uploadResult_name := get_name uploadResult in
        ret {| success := true;
               message := "File saved successfully to Google Cloud!";
               fileName := uploadResult_name |}
  end.

Definition saveToGoogleCloud (elements : list JsValue)
    (files : list (string * JsValue)) : M SaveToCloudResult :=
  try_catch (saveToGoogleCloud_try elements files)
    (fun error =>
       ret {| success := false;
              message := "Failed to save: " +:+ message_or_unknown error;
              fileName := None |}).

Definition children_request (folderId : option string) : ListRequest :=
  {| q := "'" +:+ template_opt folderId +:+ "' in parents and trashed=false";
     list_fields := "files(id, name, createdTime, modifiedTime)";
     spaces := None;
     orderBy := Some "modifiedTime desc";
     pageSize := Some 100 |}.

(** The [try] block of [listFilesFromGoogleCloud]. *)
Definition listFilesFromGoogleCloud_try : M (list FileEntry) :=
  loadGoogleDriveAPI;;
  let* token := authenticateGoogleUser in
  if falsy_opt token
  then throw (TError "Google authentication failed or was cancelled.")
  else
    write_accessToken token;;
    let* folderId := getOrCreateFolder GOOGLE_CLOUD_CONFIG.folderName in
    let* response := files_list (children_request folderId) in
    ret (match files response with Some fs => fs | None => [] end).

Definition listFilesFromGoogleCloud : M (list FileEntry) :=
  try_catch listFilesFromGoogleCloud_try
    (fun error => throw (TError ("Failed to list files: " +:+ message_or_unknown error))).

Definition download_request (fileId token : string) : FetchRequest :=
  {| url := "https://www.googleapis.com/drive/v3/files/" +:+ fileId +:+ "?alt=media";
     method := "GET";
     Authorization := "Bearer " +:+ token;
     body := None |}.

(** The [try] block of [loadFromGoogleCloud]. *)
Definition loadFromGoogleCloud_try (fileId : string) : M JsValue :=
  let* token := read_accessToken in
  if falsy_opt token
  then throw (TError "Not authenticated. Please try again.")
  else
    let* response := do_fetch (download_request fileId (template_opt token)) in
    if negb (ok response)
    then
      let* errorText := await (text response) in
      throw (TError ("Failed to download file: " +:+ statusText response))
    else
      let* data := await (json response) in
      ret data.

Definition loadFromGoogleCloud (fileId : string) : M JsValue :=
  try_catch (loadFromGoogleCloud_try fileId)
    (fun error => throw (TError ("Failed to load file: " +:+ message_or_unknown error))).

End Operations.

(** The blob [saveToGoogleCloud] uploads. *)
Definition save_file (elements : list JsValue) (files : list (string * JsValue)) : Blob :=
  {| blob_text := jsonString elements files; blob_type := "application/json" |}.

(** The object a [SaveToCloudResult] is, property by property; a property
    that is [undefined] is left out. *)
Definition result_object (r : SaveToCloudResult) : JsValue :=
  JObj ([("success", JBool (success r)); ("message", JStr (message r))]
        ++ match fileName r with
           | Some v => [("fileName", v)]
           | None => []
           end).

(** ** Sessions: operations one after the other, each in its own
    environment *)

Inductive Op : Type :=
| Save (elements : list JsValue) (files : list (string * JsValue))
| List
| Load (fileId : string).

Definition run_op (env : Env) (op : Op) (w : World) : World :=
  match op with
  | Save elements files => (saveToGoogleCloud env elements files w).2
  | List => (listFilesFromGoogleCloud env w).2
  | Load fileId => (loadFromGoogleCloud env fileId w).2
  end.

Fixpoint run_session (ops : list (Env * Op)) (w : World) : World :=
  match ops with
  | [] => w
  | (env, op) :: rest => run_session rest (run_op env op w)
  end.

(** ** The vocabulary of the statements *)

Definition preserves {A} (R : relation World) (m : M A) : Prop :=
  forall w, R w (m w).2.

(** What a computation returns when it resolves. *)
Definition returns {A} (m : M A) (P : A -> Prop) : Prop :=
  forall w a w', m w = (Resolved a, w') -> P a.

(** The token slot is left as it was. *)
Definition same_token : relation World :=
  fun w w' => accessToken w' = accessToken w.

(** The new trace is the old one followed by events that satisfy [P]. *)
Definition appends (P : Event -> Prop) : relation World :=
  fun w w' => exists evs, trace w' = trace w ++ evs /\ Forall P evs.

(** [loadGoogleDriveAPI] resolves: the drive client is there, or it is not
    and [gapi.client.init] resolves. *)
Definition client_ready (env : Env) (w : World) : bool :=
  match gapi w with
  | GapiLoaded true => true
  | GapiLoaded false =>
      match gapi_client_init env with Resolved _ => true | _ => false end
  | GapiMissing => false
  end.

(** The token of a successful authentication: the callback was called
    with no error and with a non-empty [access_token]. *)
Definition granted_token (env : Env) : option string :=
  if google_oauth2 env
  then match token_flow env with
       | Callback response =>
           if falsy_opt (error response)
           then if falsy_opt (access_token response) then None
                else access_token response
           else None
       | _ => None
       end
  else None.

(** The token slot is as it was, or holds the token this environment
    grants. *)
Definition token_step (env : Env) : relation World :=
  fun w w' => accessToken w' = accessToken w
              \/ exists t, granted_token env = Some t /\ accessToken w' = Some t.

Definition is_fetch (ev : Event) : bool :=
  match ev with
  | EFetch _ => true
  | _ => false
  end.

Definition is_init (ev : Event) : bool :=
  match ev with
  | EGapiInit _ _ => true
  | _ => false
  end.

(** From a world where the drive client is there: it is still there
    afterwards, and no [gapi.client.init] call was made. *)
Definition no_reinit : relation World :=
  fun w w' =>
    gapi w = GapiLoaded true ->
    gapi w' = GapiLoaded true /\ appends (fun ev => is_init ev = false) w w'.

(** How the folder step settles, read off the environment: the search,
    and the create call when the search finds nothing. *)
Definition folder_outcome (env : Env) (folderName : string) : Outcome (option string) :=
  match drive_files_list env (folder_search_request folderName) with
  | Resolved response =>
      match files response with
      | Some (first :: _) => Resolved (id first)
      | _ =>
          match drive_files_create env (folder_create_request folderName) with
          | Resolved folder => Resolved (result_id folder)
          | Rejected e => Rejected e
          | Pending => Pending
          end
      end
  | Rejected e => Rejected e
  | Pending => Pending
  end.

(** An event that, if it is a [fetch], is the upload of [file] under
    [fileName]. *)
Definition is_upload_of (file : Blob) (fileName : string) (ev : Event) : Prop :=
  forall req, ev = EFetch req ->
    exists folderId token, req = upload_request file fileName folderId token.

(** ** The shape of [toISOString()] *)

Definition is_digit (c : ascii) : bool :=
  (Nat.leb 48 (nat_of_ascii c) && Nat.leb (nat_of_ascii c) 57)%bool.

(** [s] follows [pattern], where a ["0"] of the pattern stands for any
    digit and every other character for itself. *)
Fixpoint follows (pattern s : string) : bool :=
  match pattern, s with
  | EmptyString, EmptyString => true
  | String p pattern', String c s' =>
      ((if Ascii.eqb p "0" then is_digit c else Ascii.eqb c p) && follows pattern' s')%bool
  | _, _ => false
  end.

(** [YYYY-MM-DDTHH:mm:ss.sssZ], what [toISOString()] gives for the years 0
    to 9999. *)
Definition is_iso (s : string) : bool := follows "0000-00-00T00:00:00.000Z" s.

(** The text of the envelope, line by line, around the serialized
    elements and files. *)
Definition envelope_text (elements_text files_text : string) : string :=
  "{" +:+ newline
  +:+ "  " +:+ quoted "type" +:+ ": " +:+ quoted "excalidraw" +:+ "," +:+ newline
  +:+ "  " +:+ quoted "version" +:+ ": 2," +:+ newline
  +:+ "  " +:+ quoted "source" +:+ ": " +:+ quoted "https://excalidraw.com"
        +:+ "," +:+ newline
  +:+ "  " +:+ quoted "elements" +:+ ": " +:+ elements_text +:+ "," +:+ newline
  +:+ "  " +:+ quoted "appState" +:+ ": {" +:+ newline
  +:+ "    " +:+ quoted "viewBackgroundColor" +:+ ": " +:+ quoted "#ffffff" +:+ newline
  +:+ "  }," +:+ newline
  +:+ "  " +:+ quoted "files" +:+ ": " +:+ files_text +:+ newline
  +:+ "}".

(** ** The remote Drive service *)

(** A file or folder as the service holds it. *)
Record RemoteFile := {
  rf_id : string;
  rf_name : string;
  rf_mimeType : string;
  rf_parents : list string;
  rf_trashed : bool;
  rf_createdTime : Z;
  rf_modifiedTime : Z
}.

(** Modelled from the spec: the remote listing call, which is the Drive
    service and not code of the repository.  The spec describes it as a
    folder/file search-and-list call (query by name/parent/trashed-state,
    field projection) that lists non-trashed direct children ordered by
    last-modified time, descending, capped at a fixed page size.  Two query
    shapes are understood, the two the module sends: the children of a
    folder and the entries of a given name and MIME type, both among
    non-trashed entries. *)
Definition matches_q (query : string) (f : RemoteFile) : bool :=
  (negb (rf_trashed f)
   && (existsb (fun parent =>
                  String.eqb query ("'" +:+ parent +:+ "' in parents and trashed=false"))
               (rf_parents f)
       || String.eqb query ("name='" +:+ rf_name f +:+ "' and mimeType='"
                            +:+ rf_mimeType f +:+ "' and trashed=false")))%bool.

(** [a] was modified no earlier than [b]. *)
Definition newer (a b : RemoteFile) : Prop := (rf_modifiedTime b <= rf_modifiedTime a)%Z.

#[local] Instance newer_dec : RelDecision newer.
Proof. intros a b. unfold newer. apply _. Defined.

(** Modelled from the spec: the answer of the remote listing call (see
    [matches_q]): the matching entries, newest first when the request asks
    for [modifiedTime desc], cut at the page size (100 when the request
    names none). *)
Definition drive_list (store : list RemoteFile) (req : ListRequest) : list RemoteFile :=
  let hits := filter (fun f => matches_q (q req) f = true) store in
  let ordered :=
    if decide (orderBy req = Some "modifiedTime desc")
    then merge_sort newer hits
    else hits in
  take (match pageSize req with Some n => n | None => 100 end) ordered.



(** The folder the module works in: the first non-trashed folder named
    [excalidraw], or the one created when there is none. *)
Definition well_known_folder (store : list RemoteFile) (fresh_id : string) : string :=
  match drive_list store (folder_search_request GOOGLE_CLOUD_CONFIG.folderName) with
  | first :: _ => rf_id first
  | [] => fresh_id
  end.

(** A non-trashed direct child of [folder]. *)
Definition is_child_of (folder : string) (f : RemoteFile) : Prop :=
  rf_trashed f = false /\ folder ∈ rf_parents f.

#[local] Instance is_child_of_dec folder f : Decision (is_child_of folder f).
Proof. unfold is_child_of. apply _. Defined.

(** ** A concrete scene, concrete environments and a concrete store *)

(** One rectangle element. *)
Definition rectangle : JsValue :=
  JObj [("id", JStr "rect-1"); ("type", JStr "rectangle");
        ("x", JNum "10"); ("y", JNum "20.5");
        ("width", JNum "100"); ("height", JNum "50");
        ("isDeleted", JBool false); ("groupIds", JArr [])].

Definition mock_response : Response :=
  {| ok := true; status := 200; statusText := "OK"; text := Resolved "";
     json := Resolved
       (JObj [("kind", JStr "drive#file"); ("id", JStr "file-1");
              ("name", JStr "excalidraw-2025-01-02T03-04-05-678Z.excalidraw");
              ("mimeType", JStr "application/json")]) |}.

(** Every remote call succeeds: the client initializes, consent is given,
    no folder exists yet and one is created, and the upload answers with the
    new file's resource, reporting the name it was sent. *)
Definition mock_env : Env :=
  {| now := "2025-01-02T03:04:05.678Z";
     VITE_APP_GOOGLE_API_KEY := Some "api-key";
     VITE_APP_GOOGLE_CLIENT_ID := Some "client-id";
     google_oauth2 := true;
     gapi_client_init := Resolved tt;
     token_flow := Callback {| error := None; error_description := None;
                               access_token := Some "ya29.token" |};
     drive_files_list := fun _ => Resolved {| files := Some [] |};
     drive_files_create := fun _ => Resolved {| result_id := Some "folder-1" |};
     fetch := fun _ => Resolved mock_response |}.

(** As [mock_env], but the upload answers with a resource that carries the
    identifier only. *)
Definition bare_env : Env :=
  {| now := "2025-01-02T03:04:05.678Z";
     VITE_APP_GOOGLE_API_KEY := Some "api-key";
     VITE_APP_GOOGLE_CLIENT_ID := Some "client-id";
     google_oauth2 := true;
     gapi_client_init := Resolved tt;
     token_flow := Callback {| error := None; error_description := None;
                               access_token := Some "ya29.token" |};
     drive_files_list := fun _ => Resolved {| files := Some [] |};
     drive_files_create := fun _ => Resolved {| result_id := Some "folder-1" |};
     fetch := fun _ =>
       Resolved {| ok := true; status := 200; statusText := "OK";
                   text := Resolved "";
                   json := Resolved (JObj [("id", JStr "file-1")]) |} |}.

(** Consent is refused, and every Drive call would be rejected. *)
Definition denied_env : Env :=
  {| now := "2025-01-02T03:04:06.000Z";
     VITE_APP_GOOGLE_API_KEY := Some "api-key";
     VITE_APP_GOOGLE_CLIENT_ID := Some "client-id";
     google_oauth2 := true;
     gapi_client_init := Resolved tt;
     token_flow := Callback {| error := Some "access_denied";
                               error_description := None;
                               access_token := None |};
     drive_files_list := fun _ => Rejected (TObject [("status", JNum "403")]);
     drive_files_create := fun _ => Rejected (TObject [("status", JNum "403")]);
     fetch := fun _ => Rejected (TError "Failed to fetch") |}.

(** Consent is given, and the folder search is rejected by the service. *)
Definition no_folder_env : Env :=
  {| now := "2025-01-02T03:04:07.000Z";
     VITE_APP_GOOGLE_API_KEY := Some "api-key";
     VITE_APP_GOOGLE_CLIENT_ID := Some "client-id";
     google_oauth2 := true;
     gapi_client_init := Resolved tt;
     token_flow := Callback {| error := None; error_description := None;
                               access_token := Some "ya29.token" |};
     drive_files_list := fun _ => Rejected (TError "Insufficient Permission");
     drive_files_create := fun _ => Resolved {| result_id := Some "folder-1" |};
     fetch := fun _ => Resolved mock_response |}.

(** A store with [n] files in folder [folder-1], file [k] last modified at
    instant [k], next to the folder itself, a trashed file and a file that
    lives elsewhere. *)
Definition sample_store (n : nat) : list RemoteFile :=
  [ {| rf_id := "folder-1"; rf_name := "excalidraw";
       rf_mimeType := "application/vnd.google-apps.folder"; rf_parents := ["root"];
       rf_trashed := false; rf_createdTime := 0; rf_modifiedTime := 0 |};
    {| rf_id := "trashed"; rf_name := "old.excalidraw";
       rf_mimeType := "application/json"; rf_parents := ["folder-1"];
       rf_trashed := true; rf_createdTime := 5; rf_modifiedTime := 1000 |};
    {| rf_id := "elsewhere"; rf_name := "notes.txt";
       rf_mimeType := "text/plain"; rf_parents := ["root"];
       rf_trashed := false; rf_createdTime := 6; rf_modifiedTime := 2000 |} ]
  ++ List.map (fun k =>
                 {| rf_id := "file-" +:+ pretty k;
                    rf_name := "excalidraw-" +:+ pretty k +:+ ".excalidraw";
                    rf_mimeType := "application/json"; rf_parents := ["folder-1"];
                    rf_trashed := false; rf_createdTime := Z.of_nat k;
                    rf_modifiedTime := Z.of_nat k |})
              (seq 1 n).

(** ** More vocabulary: Drive calls, thrown values, prefixes *)

(** A call to the Drive service: a listing, a folder creation or a
    [fetch]. *)
Definition is_drive_call (ev : Event) : bool :=
  match ev with
  | EFilesList _ | EFilesCreate _ | EFetch _ => true
  | _ => false
  end.

Definition is_token_request (ev : Event) : bool :=
  match ev with
  | ERequestAccessToken _ _ => true
  | _ => false
  end.

(** What a computation throws when it rejects. *)
Definition throws {A} (m : M A) (P : Thrown -> Prop) : Prop :=
  forall w e w', m w = (Rejected e, w') -> P e.

(** [s.startsWith(p)] *)
Fixpoint starts_with (p s : string) {struct p} : bool :=
  match p with
  | EmptyString => true
  | String a p' =>
      match s with
      | EmptyString => false
      | String b s' => (Ascii.eqb a b && starts_with p' s')%bool
      end
  end.



(** The slot holds a token that [!accessToken] does not reject. *)
Definition has_token (w : World) : Prop := falsy_opt (accessToken w) = false.

(** No character of [s] is a colon or a dot. *)
Fixpoint no_colon_or_dot (s : string) : bool :=
  match s with
  | EmptyString => true
  | String c rest =>
      (negb (Ascii.eqb c ":" || Ascii.eqb c ".") && no_colon_or_dot rest)%bool
  end.

(** The value save returns from its [catch] block when the caught error
    has the message [m]. *)
Definition save_failure (m : string) : SaveToCloudResult :=
  {| success := false; message := "Failed to save: " +:+ m; fileName := None |}.

(** Save returns the failure value with [m], and list throws an Error
    that wraps [m]. *)
Definition save_and_list_fail_with (env : Env) (w : World) (m : string) : Prop :=
  (forall elements files,
     (saveToGoogleCloud env elements files w).1 = Resolved (save_failure m))
  /\ (listFilesFromGoogleCloud env w).1
     = Rejected (TError ("Failed to list files: " +:+ m)).

(** Consent is given and the folder exists, but the service rejects the
    listing of its children. *)
Definition listing_refused_env : Env :=
  {| now := "2025-01-02T03:04:12.000Z";
     VITE_APP_GOOGLE_API_KEY := Some "api-key";
     VITE_APP_GOOGLE_CLIENT_ID := Some "client-id";
     google_oauth2 := true;
     gapi_client_init := Resolved tt;
     token_flow := Callback {| error := None; error_description := None;
                               access_token := Some "ya29.token" |};
     drive_files_list := fun req =>
       if String.eqb (list_fields req) "files(id, name)"
       then Resolved {| files := Some [ {| id := Some "folder-1";
                                           name := Some "excalidraw";
                                           createdTime := None;
                                           modifiedTime := None |} ] |}
       else Rejected (TError "Rate Limit Exceeded");
     drive_files_create := fun _ => Rejected (TError "must not be called");
     fetch := fun _ => Rejected (TError "Failed to fetch") |}.

(** ** LoadFromCloud: the component that calls list and load

    The component's state is its three [useState] cells; the calls it makes
    to the callbacks it was given, [onLoadFile] and [onError], are recorded
    in order, whether the callback then returns or throws.  The callbacks
    are the parent's code: a call returns or throws, and it does not call
    the module. *)

Inductive CallbackCall : Type :=
| OnLoadFile (data : JsValue)
| OnError (message : string).

Record LoadFromCloud := {
  (** [const [files, setFiles] = useState<CloudFile[]>([])] *)
  cloud_files : list FileEntry;
  isLoading : bool;
  showFileList : bool;
  (** the callbacks called so far, oldest first *)
  calls : list CallbackCall
}.

Definition initial_LoadFromCloud : LoadFromCloud :=
  {| cloud_files := []; isLoading := false; showFileList := false; calls := [] |}.

Definition setFiles (fs : list FileEntry) (c : LoadFromCloud) : LoadFromCloud :=
  {| cloud_files := fs; isLoading := isLoading c; showFileList := showFileList c;
     calls := calls c |}.

Definition setIsLoading (b : bool) (c : LoadFromCloud) : LoadFromCloud :=
  {| cloud_files := cloud_files c; isLoading := b; showFileList := showFileList c;
     calls := calls c |}.

Definition setShowFileList (b : bool) (c : LoadFromCloud) : LoadFromCloud :=
  {| cloud_files := cloud_files c; isLoading := isLoading c; showFileList := b;
     calls := calls c |}.

Definition call (k : CallbackCall) (c : LoadFromCloud) : LoadFromCloud :=
  {| cloud_files := cloud_files c; isLoading := isLoading c;
     showFileList := showFileList c; calls := calls c ++ [k] |}.

(** [error.message || fallback], as the argument of [new Error(...)]. *)
Definition message_or (error : Thrown) (fallback : string) : string :=
  if truthy_opt (thrown_get error "message")
  then ToString_opt (thrown_get error "message")
  else fallback.

(** The props of the component: for each callback, what a call with the
    given argument throws, [None] when it returns. *)
Record Props := {
  onLoadFile : JsValue -> option Thrown;
  onError : string -> option Thrown
}.

(** How an [async] function whose last statement was a call of a callback
    settles. *)
Definition settled_by (thrown : option Thrown) : Outcome unit :=
  match thrown with
  | None => Resolved tt
  | Some e => Rejected e
  end.

(** The [catch] block of both handlers, followed by their [finally] block:
    [onError(new Error(error.message || fallback))], then
    [setIsLoading(false)], which runs also when [onError] throws. *)
Definition catch_finally (props : Props) (fallback : string) (error : Thrown)
    (c : LoadFromCloud) : Outcome unit * LoadFromCloud :=
  (settled_by (onError props (message_or error fallback)),
   setIsLoading false (call (OnError (message_or error fallback)) c)).

(** [handleListFiles]: how the handler's promise settles, the component
    and the module state afterwards.  The [finally] block runs only when the
    awaited call settles. *)
Definition handleListFiles (env : Env) (props : Props) (c : LoadFromCloud) (w : World)
    : Outcome unit * LoadFromCloud * World :=
  let c := setIsLoading true c in
  match listFilesFromGoogleCloud env w with
  | (Resolved fileList, w') =>
      (Resolved tt, setIsLoading false (setShowFileList true (setFiles fileList c)), w')
  | (Rejected error, w') => (catch_finally props "Failed to list files" error c, w')
  | (Pending, w') => (Pending, c, w')
  end.

(** [handleLoadFile]: [onLoadFile(data)] is called inside the [try] block,
    so what it throws is caught like a failure of the load. *)
Definition handleLoadFile (env : Env) (props : Props) (fileId : string)
    (c : LoadFromCloud) (w : World) : Outcome unit * LoadFromCloud * World :=
  let c := setIsLoading true c in
  match loadFromGoogleCloud env fileId w with
  | (Resolved data, w') =>
      match onLoadFile props data with
      | None => (Resolved tt, setIsLoading false (call (OnLoadFile data) c), w')
      | Some error =>
          (catch_finally props "Failed to load file" error (call (OnLoadFile data) c), w')
      end
  | (Rejected error, w') => (catch_finally props "Failed to load file" error c, w')
  | (Pending, w') => (Pending, c, w')
  end.

(** What the component renders: the file list (empty or not) or the card
    with its button. *)
Inductive Rendered : Type :=
| NoFilesFound
| FileList (items : list FileEntry)
| LoadButton (disabled : bool) (label : string).

Definition render (c : LoadFromCloud) : Rendered :=
  if showFileList c
  then match cloud_files c with
       | [] => NoFilesFound
       | fs => FileList fs
       end
  else LoadButton (isLoading c) (if isLoading c then "Loading..." else "Load from Cloud").

(** Consent is given and the folder exists, but the upload is refused by
    the service. *)
Definition forbidden_env : Env :=
  {| now := "2025-01-02T03:04:08.000Z";
     VITE_APP_GOOGLE_API_KEY := Some "api-key";
     VITE_APP_GOOGLE_CLIENT_ID := Some "client-id";
     google_oauth2 := true;
     gapi_client_init := Rejected (TObject [("error",
                            JObj [("code", JNum "400");
                                  ("message", JStr "API key not valid.")])]);
     token_flow := Callback {| error := None; error_description := None;
                               access_token := Some "ya29.fresh" |};
     drive_files_list := fun _ =>
       Resolved {| files := Some [ {| id := Some "folder-7"; name := Some "excalidraw";
                                      createdTime := None; modifiedTime := None |};
                                   {| id := Some "folder-8"; name := Some "excalidraw";
                                      createdTime := None; modifiedTime := None |} ] |};
     drive_files_create := fun _ => Rejected (TError "must not be called");
     fetch := fun _ =>
       Resolved {| ok := false; status := 403; statusText := "Forbidden";
                   text := Resolved "quota"; json := Rejected (TError "no body") |} |}.

(** The consent callback arrives with neither an error nor a token. *)
Definition empty_token_env : Env :=
  {| now := "2025-01-02T03:04:09.000Z";
     VITE_APP_GOOGLE_API_KEY := Some "api-key";
     VITE_APP_GOOGLE_CLIENT_ID := Some "client-id";
     google_oauth2 := true;
     gapi_client_init := Resolved tt;
     token_flow := Callback {| error := None; error_description := None;
                               access_token := None |};
     drive_files_list := fun _ => Resolved {| files := Some [] |};
     drive_files_create := fun _ => Resolved {| result_id := Some "folder-1" |};
     fetch := fun _ => Resolved mock_response |}.

(** Google Identity Services did not load. *)
Definition no_gis_env : Env :=
  {| now := "2025-01-02T03:04:10.000Z";
     VITE_APP_GOOGLE_API_KEY := Some "api-key";
     VITE_APP_GOOGLE_CLIENT_ID := Some "client-id";
     google_oauth2 := false;
     gapi_client_init := Resolved tt;
     token_flow := Callback {| error := None; error_description := None;
                               access_token := Some "ya29.token" |};
     drive_files_list := fun _ => Resolved {| files := Some [] |};
     drive_files_create := fun _ => Resolved {| result_id := Some "folder-1" |};
     fetch := fun _ => Resolved mock_response |}.

(** The Drive service answers every listing with the same two entries,
    in this order. *)
Definition two_entries : list FileEntry :=
  [ {| id := Some "a"; name := Some "older"; createdTime := Some 1%Z;
       modifiedTime := Some 1%Z |};
    {| id := Some "b"; name := Some "newer"; createdTime := Some 2%Z;
       modifiedTime := Some 2%Z |} ].

Definition fixed_listing_env : Env :=
  {| now := "2025-01-02T03:04:11.000Z";
     VITE_APP_GOOGLE_API_KEY := Some "api-key";
     VITE_APP_GOOGLE_CLIENT_ID := Some "client-id";
     google_oauth2 := true;
     gapi_client_init := Resolved tt;
     token_flow := Callback {| error := None; error_description := None;
                               access_token := Some "ya29.token" |};
     drive_files_list := fun _ => Resolved {| files := Some two_entries |};
     drive_files_create := fun _ => Rejected (TError "must not be called");
     fetch := fun _ =>
       Resolved {| ok := false; status := 404; statusText := "Not Found";
                   text := Resolved ""; json := Rejected (TError "no body") |} |}.

(** ** The user at the component

    What the rendered view offers: the button of the card (unless it is
    disabled), an item of the list that is shown, and the Back button of
    the list.  A click the view does not offer changes nothing. *)

Inductive Click : Type :=
| ClickLoadFromCloud
| ClickFile (index : nat)
| ClickBack.

Definition click (env : Env) (props : Props) (k : Click) (c : LoadFromCloud) (w : World)
    : LoadFromCloud * World :=
  match k, render c with
  | ClickLoadFromCloud, LoadButton false _ =>
      ((handleListFiles env props c w).1.2, (handleListFiles env props c w).2)
  | ClickFile index, FileList items =>
      match items !! index with
      | Some file =>
          ((handleLoadFile env props (template_opt (id file)) c w).1.2,
           (handleLoadFile env props (template_opt (id file)) c w).2)
      | None => (c, w)
      end
  | ClickBack, (NoFilesFound | FileList _) => (setShowFileList false c, w)
  | _, _ => (c, w)
  end.

(** A step of the page: a click on the component, or an operation of the
    module started elsewhere on the page. *)
Inductive PageStep : Type :=
| UserClick (k : Click)
| ModuleCall (op : Op).

Definition page_step (env : Env) (props : Props) (s : PageStep) (c : LoadFromCloud)
    (w : World) : LoadFromCloud * World :=
  match s with
  | UserClick k => click env props k c w
  | ModuleCall op => (c, run_op env op w)
  end.

(** A session of the page: each step in the environment and with the
    props of its moment. *)
Fixpoint run_page (steps : list (Env * Props * PageStep)) (c : LoadFromCloud) (w : World)
    : LoadFromCloud * World :=
  match steps with
  | [] => (c, w)
  | (env, props, s) :: rest =>
      run_page rest (page_step env props s c w).1 (page_step env props s c w).2
  end.

(** Callbacks that return. *)
Definition quiet_props : Props :=
  {| onLoadFile := fun _ => None; onError := fun _ => None |}.

(** A parent whose [onLoadFile] rejects every document, with an Error
    that has no message, and whose [onError] throws in turn. *)
Definition throwing_props : Props :=
  {| onLoadFile := fun _ => Some (TError "");
     onError := fun _ => Some (TError "cannot show the error") |}.

(** The messages the component passes to [onError] start with the text of
    the operation that failed. *)
Definition names_the_operation (k : CallbackCall) : bool :=
  match k with
  | OnLoadFile _ => true
  | OnError m =>
      (starts_with "Failed to list files: " m || starts_with "Failed to load file: " m)%bool
  end.

(** * Part II: lemmas and theorems *)

(** ** Strings *)

Lemma string_app_assoc (s1 s2 s3 : string) :
  (s1 +:+ s2) +:+ s3 = s1 +:+ (s2 +:+ s3).
Proof.
  induction s1 as [| c s1 IH]; [reflexivity |].
  change (String c ((s1 +:+ s2) +:+ s3) = String c (s1 +:+ (s2 +:+ s3))).
  by rewrite IH.
Qed.


Lemma append_inv_tail_same_length tail :
  forall s1 s2,
    String.length s1 = String.length s2 -> s1 +:+ tail = s2 +:+ tail -> s1 = s2.
Proof.
  induction s1 as [| c1 s1 IH]; intros [| c2 s2]; simpl; try discriminate;
    [reflexivity |].
  intros Hlen Heq. injection Hlen as Hlen. injection Heq as -> Heq.
  f_equal. by apply IH.
Qed.


(** ** Running a sequence, one settled step at a time *)

Lemma bind_resolved {A B} (m : M A) (k : A -> M B) w a w' :
  m w = (Resolved a, w') -> bind m k w = k a w'.
Proof. intros H. unfold bind. by rewrite H. Qed.

Lemma bind_rejected {A B} (m : M A) (k : A -> M B) w e w' :
  m w = (Rejected e, w') -> bind m k w = (Rejected e, w').
Proof. intros H. unfold bind. by rewrite H. Qed.

Lemma bind_pending {A B} (m : M A) (k : A -> M B) w w' :
  m w = (Pending, w') -> bind m k w = (Pending, w').
Proof. intros H. unfold bind. by rewrite H. Qed.

Lemma try_catch_resolved {A} (m : M A) h w a w' :
  m w = (Resolved a, w') -> try_catch m h w = (Resolved a, w').
Proof. intros H. unfold try_catch. by rewrite H. Qed.

Lemma try_catch_rejected {A} (m : M A) h w e w' :
  m w = (Rejected e, w') -> try_catch m h w = h e w'.
Proof. intros H. unfold try_catch. by rewrite H. Qed.

Lemma try_catch_pending {A} (m : M A) h w w' :
  m w = (Pending, w') -> try_catch m h w = (Pending, w').
Proof. intros H. unfold try_catch. by rewrite H. Qed.

(** ** Relations every step of a computation keeps *)

Section Preserves.

Context (R : relation World) `{!PreOrder R}.

Lemma preserves_ret {A} (a : A) : preserves R (ret a).
Proof. intros w. reflexivity. Qed.

Lemma preserves_throw {A} e : preserves R (@throw A e).
Proof. intros w. reflexivity. Qed.

Lemma preserves_await {A} (p : Outcome A) : preserves R (await p).
Proof. intros w. reflexivity. Qed.

Lemma preserves_read_gapi : preserves R read_gapi.
Proof. intros w. reflexivity. Qed.

Lemma preserves_read_accessToken : preserves R read_accessToken.
Proof. intros w. reflexivity. Qed.

Lemma preserves_bind {A B} (m : M A) (k : A -> M B) :
  preserves R m -> (forall a, preserves R (k a)) -> preserves R (bind m k).
Proof.
  intros Hm Hk w. unfold bind. specialize (Hm w).
  destruct (m w) as [[a | e |] w1]; simpl in *; trivial.
  transitivity w1; [assumption | apply Hk].
Qed.

Lemma preserves_try_catch {A} (m : M A) (h : Thrown -> M A) :
  preserves R m -> (forall e, preserves R (h e)) -> preserves R (try_catch m h).
Proof.
  intros Hm Hh w. unfold try_catch. specialize (Hm w).
  destruct (m w) as [[a | e |] w1]; simpl in *; trivial.
  transitivity w1; [assumption | apply Hh].
Qed.

End Preserves.

Lemma preserves_bind_returns {A B} (R : relation World) `{!PreOrder R}
    (P : A -> Prop) (m : M A) (k : A -> M B) :
  returns m P -> preserves R m -> (forall a, P a -> preserves R (k a)) ->
  preserves R (bind m k).
Proof.
  intros Hr Hm Hk w. unfold bind. specialize (Hm w). specialize (Hr w).
  destruct (m w) as [[a | e |] w1]; simpl in *; trivial.
  transitivity w1; [assumption | eapply Hk, Hr; reflexivity].
Qed.

Lemma preserves_weaken {A} (R R' : relation World) (m : M A) :
  (forall w w', R w w' -> R' w w') -> preserves R m -> preserves R' m.
Proof. intros Himp Hm w. apply Himp, Hm. Qed.

#[local] Instance same_token_preorder : PreOrder same_token.
Proof.
  split; [intros w; reflexivity |].
  intros w1 w2 w3 H12 H23. unfold same_token in *. congruence.
Qed.

#[local] Instance appends_preorder P : PreOrder (appends P).
Proof.
  split.
  - intros w. exists []. split; [by rewrite app_nil_r | constructor].
  - intros w1 w2 w3 (e1 & H1 & F1) (e2 & H2 & F2). exists (e1 ++ e2).
    split; [by rewrite H2, H1, app_assoc | by apply Forall_app].
Qed.

#[local] Instance token_step_preorder env : PreOrder (token_step env).
Proof.
  split; [intros w; by left |].
  intros w1 w2 w3 [H12 | (t & Hg & H12)] [H23 | (t' & Hg' & H23)]; unfold token_step.
  - left. congruence.
  - right. eauto.
  - right. exists t. split; [assumption | congruence].
  - right. eauto.
Qed.

#[local] Instance no_reinit_preorder : PreOrder no_reinit.
Proof.
  split.
  - intros w Hw. split; [assumption | reflexivity].
  - intros w1 w2 w3 H12 H23 Hw. destruct (H12 Hw) as [Hw2 A12].
    destruct (H23 Hw2) as [Hw3 A23]. split; [assumption | by transitivity w2].
Qed.

#[local] Instance newer_transitive : Transitive newer.
Proof. intros a b c. unfold newer. lia. Qed.

#[local] Instance newer_total : Total newer.
Proof. intros a b. unfold newer. lia. Qed.

Lemma same_token_log e : preserves same_token (log e).
Proof. intros w. reflexivity. Qed.

Lemma same_token_write_gapi g : preserves same_token (write_gapi g).
Proof. intros w. reflexivity. Qed.

Lemma appends_log (P : Event -> Prop) e : P e -> preserves (appends P) (log e).
Proof. intros He w. exists [e]. split; [reflexivity | by constructor]. Qed.

Lemma appends_write_gapi P g : preserves (appends P) (write_gapi g).
Proof. intros w. exists []. split; [simpl; by rewrite app_nil_r | constructor]. Qed.

Lemma appends_write_accessToken P t : preserves (appends P) (write_accessToken t).
Proof. intros w. exists []. split; [simpl; by rewrite app_nil_r | constructor]. Qed.

Lemma appends_weaken (P Q : Event -> Prop) w w' :
  (forall ev, P ev -> Q ev) -> appends P w w' -> appends Q w w'.
Proof.
  intros HPQ (evs & Ht & HF). exists evs. split; [assumption |].
  eapply Forall_impl; eauto.
Qed.

Lemma no_reinit_log ev : is_init ev = false -> preserves no_reinit (log ev).
Proof.
  intros Hev w Hw. split; [assumption |].
  exists [ev]. split; [reflexivity | by constructor].
Qed.

Lemma no_reinit_write_gapi : preserves no_reinit (write_gapi (GapiLoaded true)).
Proof. intros w Hw. split; [reflexivity | apply appends_write_gapi]. Qed.

Lemma no_reinit_write_accessToken t : preserves no_reinit (write_accessToken t).
Proof. intros w Hw. split; [assumption | apply appends_write_accessToken]. Qed.

Create HintDb frame.
#[local] Hint Resolve same_token_log same_token_write_gapi appends_write_gapi
  appends_write_accessToken no_reinit_write_gapi no_reinit_write_accessToken : frame.
#[local] Hint Extern 1 (preserves (appends _) (log _)) =>
  apply appends_log;
  first [ reflexivity
        | intros ? ?; discriminate
        | intros ? [= <-]; eauto ] : frame.
#[local] Hint Extern 1 (preserves no_reinit (log _)) =>
  apply no_reinit_log; reflexivity : frame.

(** Walks down a computation, one combinator at a time. *)
Ltac frame_step :=
  first
    [ apply preserves_ret; solve [typeclasses eauto]
    | apply preserves_throw; solve [typeclasses eauto]
    | apply preserves_await; solve [typeclasses eauto]
    | apply preserves_read_gapi; solve [typeclasses eauto]
    | apply preserves_read_accessToken; solve [typeclasses eauto]
    | solve [eauto with frame]
    | apply preserves_bind; [typeclasses eauto | | intros ?]
    | apply preserves_try_catch; [typeclasses eauto | | intros ?]
    | match goal with
      | |- preserves _ (match ?x with _ => _ end) => destruct x
      | |- preserves _ (if ?b then _ else _) => destruct b
      end ].

Ltac frame := repeat frame_step.

Section Frames.

Variable env : Env.

Lemma loadGoogleDriveAPI_same_token : preserves same_token (loadGoogleDriveAPI env).
Proof. unfold loadGoogleDriveAPI, gapi_client_init_call. frame. Qed.

Lemma authenticateGoogleUser_same_token :
  preserves same_token (authenticateGoogleUser env).
Proof. unfold authenticateGoogleUser. frame. Qed.

Lemma getOrCreateFolder_same_token folderName :
  preserves same_token (getOrCreateFolder env folderName).
Proof. unfold getOrCreateFolder, getOrCreateFolder_try, files_list, files_create. frame. Qed.

Lemma uploadToGoogleDrive_same_token file fileName folderId :
  preserves same_token (uploadToGoogleDrive env file fileName folderId).
Proof. unfold uploadToGoogleDrive, uploadToGoogleDrive_try, do_fetch. frame. Qed.

Lemma loadFromGoogleCloud_same_token fileId :
  preserves same_token (loadFromGoogleCloud env fileId).
Proof. unfold loadFromGoogleCloud, loadFromGoogleCloud_try, do_fetch. frame. Qed.

Lemma get_name_same_token v : preserves same_token (get_name v).
Proof. unfold get_name. frame. Qed.

End Frames.

(** ** The token slot *)

Lemma token_step_of_same_token {A} env (m : M A) :
  preserves same_token m -> preserves (token_step env) m.
Proof. apply preserves_weaken. intros w w' H. by left. Qed.

Lemma token_step_write_granted env t :
  granted_token env = t -> falsy_opt t = false ->
  preserves (token_step env) (write_accessToken t).
Proof.
  intros Hg Hf w. destruct t as [s |]; [| discriminate].
  right. exists s. split; [assumption | reflexivity].
Qed.

Lemma authenticateGoogleUser_returns env :
  returns (authenticateGoogleUser env)
          (fun token => falsy_opt token = false -> granted_token env = token).
Proof.
  intros w token w' Hrun Hf.
  unfold authenticateGoogleUser, granted_token in *.
  destruct (google_oauth2 env); [| discriminate].
  destruct (token_flow env) as [e | e | response |]; try discriminate.
  simpl in Hrun. unfold bind, log in Hrun. simpl in Hrun.
  destruct (falsy_opt (error response)); [| discriminate].
  simpl in Hrun. inversion Hrun; subst. by rewrite Hf.
Qed.

Lemma granted_token_nonempty env t : granted_token env = Some t -> t <> "".
Proof.
  unfold granted_token.
  destruct (google_oauth2 env); [| discriminate].
  destruct (token_flow env) as [e | e | response |]; try discriminate.
  destruct (falsy_opt (error response)); [| discriminate].
  destruct (falsy_opt (access_token response)) eqn:Hf; [discriminate |].
  intros Ht Hempty. rewrite Ht in Hf. subst t. discriminate.
Qed.

#[local] Hint Resolve token_step_of_same_token loadGoogleDriveAPI_same_token
  authenticateGoogleUser_same_token getOrCreateFolder_same_token
  uploadToGoogleDrive_same_token loadFromGoogleCloud_same_token
  get_name_same_token : frame.

Lemma saveToGoogleCloud_token_step env elements files :
  preserves (token_step env) (saveToGoogleCloud env elements files).
Proof.
  unfold saveToGoogleCloud, saveToGoogleCloud_try.
  apply preserves_try_catch; [typeclasses eauto | | frame].
  apply preserves_bind; [typeclasses eauto | frame | intros g].
  destruct g; [frame |].
  apply preserves_bind; [typeclasses eauto | eauto with frame | intros _].
  apply (preserves_bind_returns _ _ _ _ (authenticateGoogleUser_returns env));
    [eauto with frame |].
  intros token Hgrant. destruct (falsy_opt token) eqn:Hf; [frame |].
  apply preserves_bind; [typeclasses eauto | | intros _].
  - apply token_step_write_granted; auto.
  - frame.
Qed.

Lemma listFilesFromGoogleCloud_token_step env :
  preserves (token_step env) (listFilesFromGoogleCloud env).
Proof.
  unfold listFilesFromGoogleCloud, listFilesFromGoogleCloud_try.
  apply preserves_try_catch; [typeclasses eauto | | frame].
  apply preserves_bind; [typeclasses eauto | eauto with frame | intros _].
  apply (preserves_bind_returns _ _ _ _ (authenticateGoogleUser_returns env));
    [eauto with frame |].
  intros token Hgrant. destruct (falsy_opt token) eqn:Hf; [frame |].
  apply preserves_bind; [typeclasses eauto | | intros _].
  - apply token_step_write_granted; auto.
  - unfold files_list. frame.
Qed.

Lemma run_op_token_step env op w : token_step env w (run_op env op w).
Proof.
  destruct op as [elements files | | fileId]; simpl.
  - apply saveToGoogleCloud_token_step.
  - apply listFilesFromGoogleCloud_token_step.
  - left. apply loadFromGoogleCloud_same_token.
Qed.

Lemma run_session_token_stays ops :
  forall w, accessToken w <> None -> accessToken (run_session ops w) <> None.
Proof.
  induction ops as [| [env op] rest IH]; intros w Hw; simpl; [assumption |].
  apply IH. destruct (run_op_token_step env op w) as [Hsame | (t & _ & Hset)].
  - by rewrite Hsame.
  - by rewrite Hset.
Qed.

(** ** What each step does when the environment lets it through *)

(** Closes [exists w1, run = (o, w1) /\ gapi .. /\ accessToken .. /\ appends ..]
    once the run has been computed. *)
Ltac settle :=
  eexists; split; [reflexivity |]; split; [reflexivity |]; split; [reflexivity |];
  eexists; split;
  [simpl; rewrite <- ?app_assoc; first [reflexivity | symmetry; apply app_nil_r]
  | by repeat constructor].

Section Steps.

Variable env : Env.

Lemma loadGoogleDriveAPI_ready w :
  client_ready env w = true ->
  exists w1, loadGoogleDriveAPI env w = (Resolved tt, w1)
             /\ gapi w1 = GapiLoaded true
             /\ accessToken w1 = accessToken w
             /\ appends (fun ev => is_fetch ev = false) w w1.
Proof.
  unfold client_ready, loadGoogleDriveAPI, gapi_client_init_call,
    try_catch, bind, read_gapi, log, await, write_gapi, ret.
  intros Hready. simpl. destruct (gapi w) as [| [|]] eqn:Hg; try discriminate.
  - exists w. repeat split; try assumption. reflexivity.
  - simpl. destruct (gapi_client_init env) as [[] | |]; try discriminate. settle.
Qed.

Lemma authenticateGoogleUser_granted t w :
  granted_token env = Some t ->
  exists w1, authenticateGoogleUser env w = (Resolved (Some t), w1)
             /\ gapi w1 = gapi w
             /\ accessToken w1 = accessToken w
             /\ appends (fun ev => is_fetch ev = false) w w1.
Proof.
  unfold granted_token, authenticateGoogleUser, bind, log, ret.
  destruct (google_oauth2 env); [| discriminate].
  destruct (token_flow env) as [e | e | response |]; try discriminate.
  destruct (falsy_opt (error response)); [| discriminate].
  destruct (falsy_opt (access_token response)); [discriminate |].
  intros ->. simpl. settle.
Qed.

Lemma getOrCreateFolder_settles folderName w :
  exists w1,
    getOrCreateFolder env folderName w
    = (match folder_outcome env folderName with
       | Rejected e => Rejected (TError ("Folder operation failed: " +:+ message_or_self e))
       | o => o
       end, w1)
    /\ gapi w1 = gapi w
    /\ accessToken w1 = accessToken w
    /\ appends (fun ev => is_fetch ev = false) w w1.
Proof.
  unfold folder_outcome, getOrCreateFolder, getOrCreateFolder_try, files_list,
    files_create, try_catch, bind, log, await, ret, throw. simpl.
  destruct (drive_files_list env _) as [response | e |]; simpl; [| settle | settle].
  destruct (files response) as [[| first rest] |]; simpl;
    try destruct (drive_files_create env _) as [folder | e |]; simpl; settle.
Qed.

End Steps.

Lemma client_ready_loaded env w :
  client_ready env w = true -> exists d, gapi w = GapiLoaded d.
Proof. unfold client_ready. destruct (gapi w); [discriminate | eauto]. Qed.

(** When the consent popup never calls back, save neither returns nor
    throws. *)
Lemma saveToGoogleCloud_pending_without_callback env elements files w :
  client_ready env w = true ->
  google_oauth2 env = true ->
  token_flow env = NoCallback ->
  (saveToGoogleCloud env elements files w).1 = Pending.
Proof.
  intros Hready Hgis Hflow.
  destruct (client_ready_loaded _ _ Hready) as [d Hd].
  destruct (loadGoogleDriveAPI_ready env w Hready) as (w1 & E1 & _ & _ & _).
  unfold saveToGoogleCloud.
  erewrite try_catch_pending; [reflexivity |].
  unfold saveToGoogleCloud_try.
  erewrite bind_resolved by reflexivity. rewrite Hd.
  erewrite bind_resolved by exact E1.
  erewrite bind_pending; [reflexivity |].
  unfold authenticateGoogleUser. rewrite Hgis, Hflow. reflexivity.
Qed.

(** ** What a run sends *)

Section Traces.

Variable env : Env.

Lemma loadGoogleDriveAPI_no_fetch :
  preserves (appends (fun ev => is_fetch ev = false)) (loadGoogleDriveAPI env).
Proof. unfold loadGoogleDriveAPI, gapi_client_init_call. frame. Qed.

Lemma authenticateGoogleUser_no_fetch :
  preserves (appends (fun ev => is_fetch ev = false)) (authenticateGoogleUser env).
Proof. unfold authenticateGoogleUser. frame. Qed.

Lemma getOrCreateFolder_no_fetch folderName :
  preserves (appends (fun ev => is_fetch ev = false)) (getOrCreateFolder env folderName).
Proof. unfold getOrCreateFolder, getOrCreateFolder_try, files_list, files_create. frame. Qed.

Lemma get_name_no_fetch v :
  preserves (appends (fun ev => is_fetch ev = false)) (get_name v).
Proof. unfold get_name. frame. Qed.

Lemma uploadToGoogleDrive_uploads file fileName folderId :
  preserves (appends (is_upload_of file fileName))
            (uploadToGoogleDrive env file fileName folderId).
Proof. unfold uploadToGoogleDrive, uploadToGoogleDrive_try, do_fetch. frame. Qed.

Lemma no_fetch_is_upload {A} (m : M A) file fileName :
  preserves (appends (fun ev => is_fetch ev = false)) m ->
  preserves (appends (is_upload_of file fileName)) m.
Proof.
  apply preserves_weaken. intros w w'. apply appends_weaken.
  intros ev Hev req ->. discriminate.
Qed.

Lemma saveToGoogleCloud_uploads elements files :
  preserves (appends (is_upload_of (save_file elements files) (fileName_of (now env))))
            (saveToGoogleCloud env elements files).
Proof.
  pose proof loadGoogleDriveAPI_no_fetch. pose proof authenticateGoogleUser_no_fetch.
  pose proof getOrCreateFolder_no_fetch. pose proof get_name_no_fetch.
  pose proof uploadToGoogleDrive_uploads.
  unfold saveToGoogleCloud, saveToGoogleCloud_try.
  repeat first [ frame_step | apply no_fetch_is_upload; solve [auto] | solve [auto] ].
Qed.

(** A resolved upload has sent exactly one request, with the token in the
    slot. *)
Lemma uploadToGoogleDrive_resolved file fileName folderId w result w' :
  uploadToGoogleDrive env file fileName folderId w = (Resolved result, w') ->
  exists token,
    accessToken w = Some token
    /\ trace w' = trace w ++ [EFetch (upload_request file fileName folderId token)].
Proof.
  unfold uploadToGoogleDrive, uploadToGoogleDrive_try, do_fetch, try_catch, bind,
    read_accessToken, log, await, ret, throw. simpl.
  destruct (accessToken w) as [token |] eqn:Ht; simpl; [| discriminate].
  destruct (String.eqb token ""); simpl; [discriminate |].
  destruct (fetch env _) as [response | e |]; simpl; try discriminate.
  destruct (ok response); simpl.
  - destruct (json response); simpl; try discriminate.
    intros [= <- <-]. simpl. eauto.
  - destruct (text response); simpl; discriminate.
Qed.

End Traces.

Lemma get_name_world v w : (get_name v w).2 = w.
Proof. by destruct v. Qed.

Lemma uploadToGoogleDrive_ok env file fileName folderId w t response result :
  accessToken w = Some t -> t <> "" ->
  fetch env (upload_request file fileName folderId t) = Resolved response ->
  ok response = true ->
  json response = Resolved result ->
  exists w', uploadToGoogleDrive env file fileName folderId w = (Resolved result, w')
             /\ accessToken w' = Some t
             /\ trace w' = trace w ++ [EFetch (upload_request file fileName folderId t)].
Proof.
  intros Ht Hne Hfetch Hok Hjson.
  unfold uploadToGoogleDrive, uploadToGoogleDrive_try, do_fetch, try_catch, bind,
    read_accessToken, log, await, ret, throw. simpl.
  rewrite Ht. simpl.
  destruct (String.eqb_spec t ""); [contradiction |]. simpl.
  rewrite Hfetch. simpl. rewrite Hok. simpl. rewrite Hjson. simpl.
  eexists. split; [reflexivity |]. split; [assumption | reflexivity].
Qed.

(** A save that reports success ended with the upload of the serialized
    scene under the name made from the clock. *)
Lemma saveToGoogleCloud_success_uploaded env elements files w r w' :
  saveToGoogleCloud env elements files w = (Resolved r, w') ->
  success r = true ->
  exists folderId token evs,
    trace w' = trace w ++ evs ++
      [EFetch (upload_request (save_file elements files) (fileName_of (now env))
                 folderId token)].
Proof.
  unfold saveToGoogleCloud, try_catch.
  destruct (saveToGoogleCloud_try env elements files w) as [[r0 | e |] w0] eqn:E;
    intros H Hs; inversion H; subst; try discriminate.
  unfold saveToGoogleCloud_try, bind in E. simpl in E.
  destruct (gapi w); [discriminate |].
  pose proof (loadGoogleDriveAPI_no_fetch env w) as (ev1 & T1 & _).
  destruct (loadGoogleDriveAPI env w) as [[[] | ? |] w1]; try discriminate.
  pose proof (authenticateGoogleUser_no_fetch env w1) as (ev2 & T2 & _).
  destruct (authenticateGoogleUser env w1) as [[token | ? |] w2]; try discriminate.
  destruct (falsy_opt token); [discriminate |]. simpl in E.
  match type of E with
  | context [getOrCreateFolder env ?n ?w3] =>
      pose proof (getOrCreateFolder_no_fetch env n w3) as (ev3 & T3 & _);
      destruct (getOrCreateFolder env n w3) as [[folderId | ? |] w4]; try discriminate
  end.
  destruct (uploadToGoogleDrive env _ _ folderId w4) as [[result | ? |] w5] eqn:E5;
    try discriminate.
  apply uploadToGoogleDrive_resolved in E5 as (tok & _ & T5).
  pose proof (get_name_world result w5) as Hw.
  destruct (get_name result w5) as [[n | ? |] w6]; try discriminate.
  simpl in Hw. inversion E; subst. simpl in *.
  exists folderId, tok, (ev1 ++ ev2 ++ ev3).
  rewrite T5, T3. simpl. rewrite T2, T1. by rewrite <- !app_assoc.
Qed.

(** ** Initialization happens once *)

Lemma loadGoogleDriveAPI_loaded env w :
  gapi w = GapiLoaded true -> loadGoogleDriveAPI env w = (Resolved tt, w).
Proof.
  intros Hw. unfold loadGoogleDriveAPI, bind, read_gapi. simpl. by rewrite Hw.
Qed.

Lemma loadGoogleDriveAPI_resolved env w w' :
  loadGoogleDriveAPI env w = (Resolved tt, w') -> gapi w' = GapiLoaded true.
Proof.
  unfold loadGoogleDriveAPI, gapi_client_init_call, try_catch, bind, read_gapi,
    log, await, write_gapi, ret, throw. simpl.
  destruct (gapi w) as [| [|]] eqn:Hw; simpl; try discriminate.
  - by intros [= <-].
  - destruct (gapi_client_init env) as [[] | e |]; simpl; try discriminate.
    by intros [= <-].
Qed.

Lemma loadGoogleDriveAPI_no_reinit env : preserves no_reinit (loadGoogleDriveAPI env).
Proof.
  intros w Hw. rewrite (loadGoogleDriveAPI_loaded env w Hw). simpl.
  split; [assumption | reflexivity].
Qed.

#[local] Hint Resolve loadGoogleDriveAPI_no_reinit : frame.

Lemma run_op_no_reinit env op w : no_reinit w (run_op env op w).
Proof.
  destruct op as [elements files | | fileId]; simpl.
  - revert w. change (preserves no_reinit (saveToGoogleCloud env elements files)).
    unfold saveToGoogleCloud, saveToGoogleCloud_try, authenticateGoogleUser,
      getOrCreateFolder, getOrCreateFolder_try, uploadToGoogleDrive,
      uploadToGoogleDrive_try, get_name, files_list, files_create, do_fetch.
    frame.
  - revert w. change (preserves no_reinit (listFilesFromGoogleCloud env)).
    unfold listFilesFromGoogleCloud, listFilesFromGoogleCloud_try,
      authenticateGoogleUser, getOrCreateFolder, getOrCreateFolder_try,
      files_list, files_create.
    frame.
  - revert w. change (preserves no_reinit (loadFromGoogleCloud env fileId)).
    unfold loadFromGoogleCloud, loadFromGoogleCloud_try, do_fetch. frame.
Qed.

Lemma run_session_no_reinit ops : forall w, no_reinit w (run_session ops w).
Proof.
  induction ops as [| [env op] rest IH]; intros w; simpl; [reflexivity |].
  transitivity (run_op env op w); [apply run_op_no_reinit | apply IH].
Qed.


(** ** The name made from the clock *)

Lemma is_digit_kept c :
  is_digit c = true -> (Ascii.eqb c ":" || Ascii.eqb c ".")%bool = false.
Proof.
  destruct c as [[] [] [] [] [] [] [] []]; vm_compute; congruence.
Qed.

Lemma timestamp_inj_on pattern :
  forall s1 s2,
    follows pattern s1 = true -> follows pattern s2 = true ->
    timestamp s1 = timestamp s2 -> s1 = s2.
Proof.
  induction pattern as [| p pattern IH]; intros [| c1 s1] [| c2 s2]; simpl;
    try discriminate; [reflexivity |].
  intros H1 H2 Heq.
  apply andb_true_iff in H1 as [Hc1 Hs1]. apply andb_true_iff in H2 as [Hc2 Hs2].
  injection Heq as Hc Hs. f_equal; [| by apply IH].
  destruct (Ascii.eqb p "0").
  - by rewrite (is_digit_kept _ Hc1), (is_digit_kept _ Hc2) in Hc.
  - apply Ascii.eqb_eq in Hc1, Hc2. congruence.
Qed.

Lemma timestamp_length s : String.length (timestamp s) = String.length s.
Proof. induction s as [| c s IH]; simpl; [reflexivity | by rewrite IH]. Qed.

Lemma follows_length pattern :
  forall s, follows pattern s = true -> String.length s = String.length pattern.
Proof.
  induction pattern as [| p pattern IH]; intros [| c s]; simpl; try discriminate;
    [reflexivity |].
  intros H. apply andb_true_iff in H as [_ H]. by rewrite (IH _ H).
Qed.

Lemma fileName_of_inj iso1 iso2 :
  is_iso iso1 = true -> is_iso iso2 = true ->
  fileName_of iso1 = fileName_of iso2 -> iso1 = iso2.
Proof.
  unfold is_iso, fileName_of. intros H1 H2 Heq.
  apply (timestamp_inj_on _ _ _ H1 H2).
  apply (inj (String.app "excalidraw-")) in Heq.
  apply append_inv_tail_same_length in Heq; [assumption |].
  by rewrite !timestamp_length, (follows_length _ _ H1), (follows_length _ _ H2).
Qed.

(** ** The text of the envelope *)

Lemma jsonString_layout elements files :
  jsonString elements files
  = envelope_text (JSON.serialize "  " "  " (JArr elements))
                  (JSON.serialize "  " "  " (JObj files)).
Proof.
  change (jsonString elements files) with
    (JSON.wrap "{" "}" "  " "" "  "
       [JSON.quote "type" +:+ ": " +:+ JSON.quote "excalidraw";
        JSON.quote "version" +:+ ": " +:+ "2";
        JSON.quote "source" +:+ ": " +:+ JSON.quote "https://excalidraw.com";
        JSON.quote "elements" +:+ ": " +:+ JSON.serialize "  " "  " (JArr elements);
        JSON.quote "appState" +:+ ": "
          +:+ JSON.serialize "  " "  " (JObj [("viewBackgroundColor", JStr "#ffffff")]);
        JSON.quote "files" +:+ ": " +:+ JSON.serialize "  " "  " (JObj files)]).
  generalize (JSON.serialize "  " "  " (JArr elements)) as e.
  generalize (JSON.serialize "  " "  " (JObj files)) as f. intros f e.
  unfold JSON.wrap, join, envelope_text. cbn [String.eqb Ascii.eqb Bool.eqb].
  rewrite !string_app_assoc. reflexivity.
Qed.

(** The text save uploads for the one-rectangle scene. *)
Example jsonString_one_rectangle :
  jsonString [rectangle] []
  = join newline
      ["{";
       "  " +:+ quoted "type" +:+ ": " +:+ quoted "excalidraw" +:+ ",";
       "  " +:+ quoted "version" +:+ ": 2,";
       "  " +:+ quoted "source" +:+ ": " +:+ quoted "https://excalidraw.com" +:+ ",";
       "  " +:+ quoted "elements" +:+ ": [";
       "    {";
       "      " +:+ quoted "id" +:+ ": " +:+ quoted "rect-1" +:+ ",";
       "      " +:+ quoted "type" +:+ ": " +:+ quoted "rectangle" +:+ ",";
       "      " +:+ quoted "x" +:+ ": 10,";
       "      " +:+ quoted "y" +:+ ": 20.5,";
       "      " +:+ quoted "width" +:+ ": 100,";
       "      " +:+ quoted "height" +:+ ": 50,";
       "      " +:+ quoted "isDeleted" +:+ ": false,";
       "      " +:+ quoted "groupIds" +:+ ": []";
       "    }";
       "  ],";
       "  " +:+ quoted "appState" +:+ ": {";
       "    " +:+ quoted "viewBackgroundColor" +:+ ": " +:+ quoted "#ffffff";
       "  },";
       "  " +:+ quoted "files" +:+ ": {}";
       "}"].
Proof. vm_compute. reflexivity. Qed.

(** ** The Drive service *)






Example sample_store_listing :
  well_known_folder (sample_store 103) "folder-2" = "folder-1"
  /\ length (filter (is_child_of "folder-1") (sample_store 103)) = 103
  /\ rf_id <$> take 3 (drive_list (sample_store 103) (children_request (Some "folder-1")))
     = ["file-103"; "file-102"; "file-101"]
  /\ length (drive_list (sample_store 103) (children_request (Some "folder-1"))) = 100.
Proof. vm_compute. auto. Qed.

(** ** Where save and list stand after the consent *)

Lemma try_catch_world {A} (m : M A) (h : Thrown -> M A) w :
  (forall e w1, (h e w1).2 = w1) -> (try_catch m h w).2 = (m w).2.
Proof.
  intros Hh. unfold try_catch. destruct (m w) as [[a | e |] w1]; simpl; auto.
Qed.

Lemma bind_world {A B} (m : M A) (k : A -> M B) w :
  (forall a w1, (k a w1).2 = w1) -> (bind m k w).2 = (m w).2.
Proof.
  intros Hk. unfold bind. destruct (m w) as [[a | e |] w1]; simpl; auto.
Qed.

Lemma saveToGoogleCloud_world env elements files w :
  (saveToGoogleCloud env elements files w).2
  = (saveToGoogleCloud_try env elements files w).2.
Proof. unfold saveToGoogleCloud. by apply try_catch_world. Qed.

Lemma listFilesFromGoogleCloud_world env w :
  (listFilesFromGoogleCloud env w).2 = (listFilesFromGoogleCloud_try env w).2.
Proof. unfold listFilesFromGoogleCloud. by apply try_catch_world. Qed.

Lemma falsy_opt_granted env t : granted_token env = Some t -> falsy_opt (Some t) = false.
Proof.
  intros Hg. pose proof (granted_token_nonempty _ _ Hg) as Hne.
  simpl. by destruct (String.eqb_spec t "").
Qed.

(** Up to the assignment of the token, save and list run the same three
    steps; this is where they stand afterwards. *)
Lemma saveToGoogleCloud_try_after_grant env elements files w t :
  client_ready env w = true ->
  granted_token env = Some t ->
  exists w3,
    accessToken w3 = Some t
    /\ appends (fun ev => is_drive_call ev = false) w w3
    /\ saveToGoogleCloud_try env elements files w
       = bind (getOrCreateFolder env GOOGLE_CLOUD_CONFIG.folderName)
           (fun folderId =>
              bind (uploadToGoogleDrive env (save_file elements files)
                      (fileName_of (now env)) folderId)
                (fun uploadResult =>
                   bind (get_name uploadResult)
                     (fun uploadResult_name =>
                        ret {| success := true;
                               message := "File saved successfully to Google Cloud!";
                               fileName := uploadResult_name |}))) w3.
Proof.
  intros Hready Htoken.
  destruct (client_ready_loaded _ _ Hready) as [d Hd].
  assert (preserves (appends (fun ev => is_drive_call ev = false)) (loadGoogleDriveAPI env))
    as F1 by (unfold loadGoogleDriveAPI, gapi_client_init_call; frame).
  assert (preserves (appends (fun ev => is_drive_call ev = false))
            (authenticateGoogleUser env))
    as F2 by (unfold authenticateGoogleUser; frame).
  destruct (loadGoogleDriveAPI_ready env w Hready) as (w1 & E1 & _ & _ & _).
  destruct (authenticateGoogleUser_granted env t w1 Htoken) as (w2 & E2 & _ & _ & _).
  specialize (F1 w). specialize (F2 w1). rewrite E1 in F1. rewrite E2 in F2.
  exists (write_accessToken (Some t) w2).2. split; [reflexivity |]. split.
  - transitivity w1; [assumption |]. transitivity w2; [assumption |].
    apply appends_write_accessToken.
  - unfold saveToGoogleCloud_try.
    erewrite bind_resolved by reflexivity. rewrite Hd.
    erewrite bind_resolved by exact E1.
    erewrite bind_resolved by exact E2.
    rewrite (falsy_opt_granted _ _ Htoken).
    erewrite bind_resolved by reflexivity. reflexivity.
Qed.

Lemma listFilesFromGoogleCloud_try_after_grant env w t :
  client_ready env w = true ->
  granted_token env = Some t ->
  exists w3,
    accessToken w3 = Some t
    /\ appends (fun ev => is_drive_call ev = false) w w3
    /\ listFilesFromGoogleCloud_try env w
       = bind (getOrCreateFolder env GOOGLE_CLOUD_CONFIG.folderName)
           (fun folderId =>
              bind (files_list env (children_request folderId))
                (fun response =>
                   ret (match files response with Some fs => fs | None => [] end))) w3.
Proof.
  intros Hready Htoken.
  assert (preserves (appends (fun ev => is_drive_call ev = false)) (loadGoogleDriveAPI env))
    as F1 by (unfold loadGoogleDriveAPI, gapi_client_init_call; frame).
  assert (preserves (appends (fun ev => is_drive_call ev = false))
            (authenticateGoogleUser env))
    as F2 by (unfold authenticateGoogleUser; frame).
  destruct (loadGoogleDriveAPI_ready env w Hready) as (w1 & E1 & _ & _ & _).
  destruct (authenticateGoogleUser_granted env t w1 Htoken) as (w2 & E2 & _ & _ & _).
  specialize (F1 w). specialize (F2 w1). rewrite E1 in F1. rewrite E2 in F2.
  exists (write_accessToken (Some t) w2).2. split; [reflexivity |]. split.
  - transitivity w1; [assumption |]. transitivity w2; [assumption |].
    apply appends_write_accessToken.
  - unfold listFilesFromGoogleCloud_try.
    erewrite bind_resolved by exact E1.
    erewrite bind_resolved by exact E2.
    rewrite (falsy_opt_granted _ _ Htoken).
    erewrite bind_resolved by reflexivity. reflexivity.
Qed.

Lemma uploadToGoogleDrive_trace env file fileName folderId w t :
  accessToken w = Some t -> t <> "" ->
  trace (uploadToGoogleDrive env file fileName folderId w).2
  = trace w ++ [EFetch (upload_request file fileName folderId t)].
Proof.
  intros Ht Hne.
  unfold uploadToGoogleDrive, uploadToGoogleDrive_try, do_fetch, try_catch, bind,
    read_accessToken, log, await, ret, throw. simpl.
  rewrite Ht. simpl. destruct (String.eqb_spec t ""); [contradiction |]. simpl.
  destruct (fetch env _) as [response | e |]; simpl; try reflexivity.
  destruct (ok response); simpl.
  - by destruct (json response).
  - by destruct (text response).
Qed.

Lemma not_drive_call_not_fetch ev : is_drive_call ev = false -> is_fetch ev = false.
Proof. by destruct ev. Qed.

(** ** How each step's failure reaches the caller *)

Lemma message_or_unknown_TError m : m <> "" -> message_or_unknown (TError m) = m.
Proof.
  intros Hm. unfold message_or_unknown. simpl. by destruct (String.eqb_spec m "").
Qed.

Lemma message_or_self_TError m : m <> "" -> message_or_self (TError m) = m.
Proof.
  intros Hm. unfold message_or_self. simpl. by destruct (String.eqb_spec m "").
Qed.

(** What save and list make of a rejection of their first two steps. *)
Lemma fail_at_consent env w m w1 :
  gapi w <> GapiMissing ->
  bind (loadGoogleDriveAPI env) (fun _ => authenticateGoogleUser env) w
  = (Rejected (TError m), w1) ->
  m <> "" ->
  save_and_list_fail_with env w m.
Proof.
  intros Hgapi Hhead Hm. unfold bind in Hhead. split.
  - intros elements files.
    unfold saveToGoogleCloud, saveToGoogleCloud_try, try_catch, bind, read_gapi. simpl.
    destruct (gapi w) as [| d]; [done |].
    destruct (loadGoogleDriveAPI env w) as [[[] | e |] w0].
    + rewrite Hhead. simpl. unfold save_failure.
      by rewrite (message_or_unknown_TError m Hm).
    + injection Hhead as -> ->. simpl. unfold save_failure.
      by rewrite (message_or_unknown_TError m Hm).
    + discriminate.
  - unfold listFilesFromGoogleCloud, listFilesFromGoogleCloud_try, try_catch, bind.
    destruct (loadGoogleDriveAPI env w) as [[[] | e |] w0].
    + rewrite Hhead. simpl. by rewrite (message_or_unknown_TError m Hm).
    + injection Hhead as -> ->. simpl. by rewrite (message_or_unknown_TError m Hm).
    + discriminate.
Qed.

Lemma client_ready_not_missing env w : client_ready env w = true -> gapi w <> GapiMissing.
Proof. unfold client_ready. by destruct (gapi w). Qed.

(** With the client ready, a rejection of the consent step. *)
Lemma fail_at_authentication env w m :
  client_ready env w = true ->
  (forall w1, exists w2, authenticateGoogleUser env w1 = (Rejected (TError m), w2)) ->
  m <> "" ->
  save_and_list_fail_with env w m.
Proof.
  intros Hready Hauth Hm.
  destruct (loadGoogleDriveAPI_ready env w Hready) as (w1 & E1 & _).
  destruct (Hauth w1) as [w2 E2].
  apply (fail_at_consent env w m w2);
    [by apply (client_ready_not_missing env) | | assumption].
  unfold bind. by rewrite E1, E2.
Qed.

(** The consent step resolves with a token that [!token] rejects. *)
Lemma fail_for_want_of_token env w token :
  client_ready env w = true ->
  (forall w1, exists w2, authenticateGoogleUser env w1 = (Resolved token, w2)) ->
  falsy_opt token = true ->
  save_and_list_fail_with env w "Google authentication failed or was cancelled.".
Proof.
  intros Hready Hauth Hfalsy.
  destruct (client_ready_loaded _ _ Hready) as [d Hd].
  destruct (loadGoogleDriveAPI_ready env w Hready) as (w1 & E1 & _).
  destruct (Hauth w1) as [w2 E2]. split.
  - intros elements files.
    unfold saveToGoogleCloud, saveToGoogleCloud_try, try_catch, bind, read_gapi. simpl.
    rewrite Hd, E1, E2, Hfalsy. reflexivity.
  - unfold listFilesFromGoogleCloud, listFilesFromGoogleCloud_try, try_catch, bind.
    rewrite E1, E2, Hfalsy. reflexivity.
Qed.

(** How the upload step settles, read off the service's answer. *)
Lemma uploadToGoogleDrive_outcome env file fileName folderId w t :
  accessToken w = Some t -> t <> "" ->
  (uploadToGoogleDrive env file fileName folderId w).1
  = match fetch env (upload_request file fileName folderId t) with
    | Resolved response =>
        if ok response
        then match json response with
             | Resolved result => Resolved result
             | Rejected e => Rejected (TError ("Upload failed: " +:+ message_or_self e))
             | Pending => Pending
             end
        else match text response with
             | Resolved _ =>
                 Rejected (TError ("Upload failed: " +:+
                                   ("Failed to upload file to Google Drive: " +:+
                                    pretty (status response) +:+ " " +:+
                                    statusText response)))
             | Rejected e => Rejected (TError ("Upload failed: " +:+ message_or_self e))
             | Pending => Pending
             end
    | Rejected e => Rejected (TError ("Upload failed: " +:+ message_or_self e))
    | Pending => Pending
    end.
Proof.
  intros Ht Hne.
  unfold uploadToGoogleDrive, uploadToGoogleDrive_try, do_fetch, try_catch, bind,
    read_accessToken, log, await, ret, throw. simpl.
  rewrite Ht. simpl. destruct (String.eqb_spec t ""); [contradiction |]. simpl.
  destruct (fetch env _) as [response | e |]; simpl; try reflexivity.
  destruct (ok response); simpl.
  - by destruct (json response).
  - by destruct (text response).
Qed.

(** Where save stands when the folder step has resolved: the token is in
    the slot, no request has been fetched yet, and what is left is the
    upload. *)
Lemma saveToGoogleCloud_try_after_folder env elements files w t folderId :
  client_ready env w = true ->
  granted_token env = Some t ->
  folder_outcome env GOOGLE_CLOUD_CONFIG.folderName = Resolved folderId ->
  exists w4,
    accessToken w4 = Some t
    /\ appends (fun ev => is_fetch ev = false) w w4
    /\ saveToGoogleCloud_try env elements files w
       = bind (uploadToGoogleDrive env (save_file elements files)
                 (fileName_of (now env)) folderId)
           (fun uploadResult =>
              bind (get_name uploadResult)
                (fun uploadResult_name =>
                   ret {| success := true;
                          message := "File saved successfully to Google Cloud!";
                          fileName := uploadResult_name |})) w4.
Proof.
  intros Hready Htoken Hfolder.
  destruct (saveToGoogleCloud_try_after_grant env elements files w t Hready Htoken)
    as (w3 & Ht3 & Happ3 & Hsave).
  destruct (getOrCreateFolder_settles env GOOGLE_CLOUD_CONFIG.folderName w3)
    as (w4 & E4 & _ & Ht4 & Happ4).
  rewrite Hfolder in E4.
  exists w4. split; [congruence |]. split.
  - transitivity w3; [| assumption].
    destruct Happ3 as (evs & Htr & HF). exists evs. split; [assumption |].
    apply (Forall_impl _ _ _ HF). intros ev. apply not_drive_call_not_fetch.
  - rewrite Hsave. by erewrite bind_resolved by exact E4.
Qed.

(** A rejection of the upload step becomes save's failure value. *)
Lemma saveToGoogleCloud_upload_rejected env elements files w t folderId m :
  client_ready env w = true ->
  granted_token env = Some t ->
  folder_outcome env GOOGLE_CLOUD_CONFIG.folderName = Resolved folderId ->
  match fetch env (upload_request (save_file elements files) (fileName_of (now env))
                     folderId t) with
  | Resolved response =>
      if ok response
      then match json response with
           | Rejected e => m = "Upload failed: " +:+ message_or_self e
           | _ => False
           end
      else match text response with
           | Resolved _ =>
               m = "Upload failed: " +:+
                   ("Failed to upload file to Google Drive: " +:+
                    pretty (status response) +:+ " " +:+ statusText response)
           | Rejected e => m = "Upload failed: " +:+ message_or_self e
           | Pending => False
           end
  | Rejected e => m = "Upload failed: " +:+ message_or_self e
  | Pending => False
  end ->
  (saveToGoogleCloud env elements files w).1 = Resolved (save_failure m).
Proof.
  intros Hready Htoken Hfolder Hupload.
  destruct (saveToGoogleCloud_try_after_folder env elements files w t folderId
              Hready Htoken Hfolder) as (w4 & Ht4 & _ & Hsave).
  pose proof (uploadToGoogleDrive_outcome env (save_file elements files)
                (fileName_of (now env)) folderId w4 t Ht4
                (granted_token_nonempty env t Htoken)) as Hout.
  assert ((uploadToGoogleDrive env (save_file elements files) (fileName_of (now env))
             folderId w4).1 = Rejected (TError m)) as Hrej.
  { rewrite Hout.
    destruct (fetch env _) as [response | e |]; [| by subst | done].
    destruct (ok response).
    - destruct (json response); [done | by subst | done].
    - destruct (text response); [by subst | by subst | done]. }
  assert (m <> "") as Hm.
  { destruct (fetch env _) as [response | e |]; [| by subst | done].
    destruct (ok response).
    - destruct (json response); [done | by subst | done].
    - destruct (text response); [by subst | by subst | done]. }
  unfold saveToGoogleCloud, try_catch. rewrite Hsave. unfold bind at 1.
  destruct (uploadToGoogleDrive env _ _ _ w4) as [o w5]. simpl in Hrej. subst o.
  simpl. unfold save_failure. by rewrite (message_or_unknown_TError m Hm).
Qed.

(** An upload that never settles leaves save pending. *)
Lemma saveToGoogleCloud_upload_pending env elements files w t folderId :
  client_ready env w = true ->
  granted_token env = Some t ->
  folder_outcome env GOOGLE_CLOUD_CONFIG.folderName = Resolved folderId ->
  match fetch env (upload_request (save_file elements files) (fileName_of (now env))
                     folderId t) with
  | Resolved response =>
      if ok response then json response = Pending else text response = Pending
  | Rejected _ => False
  | Pending => True
  end ->
  (saveToGoogleCloud env elements files w).1 = Pending.
Proof.
  intros Hready Htoken Hfolder Hupload.
  destruct (saveToGoogleCloud_try_after_folder env elements files w t folderId
              Hready Htoken Hfolder) as (w4 & Ht4 & _ & Hsave).
  pose proof (uploadToGoogleDrive_outcome env (save_file elements files)
                (fileName_of (now env)) folderId w4 t Ht4
                (granted_token_nonempty env t Htoken)) as Hout.
  assert ((uploadToGoogleDrive env (save_file elements files) (fileName_of (now env))
             folderId w4).1 = Pending) as Hpending.
  { rewrite Hout.
    destruct (fetch env _) as [response | e |]; [| done | done].
    destruct (ok response); by rewrite Hupload. }
  unfold saveToGoogleCloud, try_catch. rewrite Hsave. unfold bind at 1.
  destruct (uploadToGoogleDrive env _ _ _ w4) as [o w5]. simpl in Hpending. by subst o.
Qed.


(** How list settles once the folder step has resolved. *)
Lemma listFilesFromGoogleCloud_after_folder env w t folderId :
  client_ready env w = true ->
  granted_token env = Some t ->
  folder_outcome env GOOGLE_CLOUD_CONFIG.folderName = Resolved folderId ->
  (listFilesFromGoogleCloud env w).1
  = match drive_files_list env (children_request folderId) with
    | Resolved response =>
        Resolved (match files response with Some fs => fs | None => [] end)
    | Rejected e =>
        Rejected (TError ("Failed to list files: " +:+ message_or_unknown e))
    | Pending => Pending
    end.
Proof.
  intros Hready Htoken Hfolder.
  destruct (listFilesFromGoogleCloud_try_after_grant env w t Hready Htoken)
    as (w3 & _ & _ & Hlist).
  destruct (getOrCreateFolder_settles env GOOGLE_CLOUD_CONFIG.folderName w3)
    as (w4 & E4 & _).
  rewrite Hfolder in E4.
  unfold listFilesFromGoogleCloud, try_catch. rewrite Hlist.
  erewrite bind_resolved by exact E4.
  unfold files_list, bind, log, await, ret. simpl.
  by destruct (drive_files_list env (children_request folderId)).
Qed.

(** A rejection of the folder step. *)
Lemma fail_at_folder env w t e :
  client_ready env w = true ->
  granted_token env = Some t ->
  folder_outcome env GOOGLE_CLOUD_CONFIG.folderName = Rejected e ->
  save_and_list_fail_with env w ("Folder operation failed: " +:+ message_or_self e).
Proof.
  intros Hready Htoken Hfolder. split.
  - intros elements files.
    destruct (saveToGoogleCloud_try_after_grant env elements files w t Hready Htoken)
      as (w3 & _ & _ & Hsave).
    destruct (getOrCreateFolder_settles env GOOGLE_CLOUD_CONFIG.folderName w3)
      as (w4 & E4 & _).
    rewrite Hfolder in E4.
    unfold saveToGoogleCloud, try_catch. rewrite Hsave.
    by erewrite bind_rejected by exact E4.
  - destruct (listFilesFromGoogleCloud_try_after_grant env w t Hready Htoken)
      as (w3 & _ & _ & Hlist).
    destruct (getOrCreateFolder_settles env GOOGLE_CLOUD_CONFIG.folderName w3)
      as (w4 & E4 & _).
    rewrite Hfolder in E4.
    unfold listFilesFromGoogleCloud, try_catch. rewrite Hlist.
    by erewrite bind_rejected by exact E4.
Qed.

(** How load settles when the slot holds a token, read off the service's
    answer. *)
Lemma loadFromGoogleCloud_outcome env fileId w t :
  accessToken w = Some t -> t <> "" ->
  (loadFromGoogleCloud env fileId w).1
  = match fetch env (download_request fileId t) with
    | Resolved response =>
        if ok response
        then match json response with
             | Resolved data => Resolved data
             | Rejected e =>
                 Rejected (TError ("Failed to load file: " +:+ message_or_unknown e))
             | Pending => Pending
             end
        else match text response with
             | Resolved _ =>
                 Rejected (TError ("Failed to load file: " +:+
                                   ("Failed to download file: " +:+ statusText response)))
             | Rejected e =>
                 Rejected (TError ("Failed to load file: " +:+ message_or_unknown e))
             | Pending => Pending
             end
    | Rejected e => Rejected (TError ("Failed to load file: " +:+ message_or_unknown e))
    | Pending => Pending
    end.
Proof.
  intros Ht Hne.
  unfold loadFromGoogleCloud, loadFromGoogleCloud_try, do_fetch, try_catch, bind,
    read_accessToken, log, await, ret, throw. simpl.
  rewrite Ht. simpl. destruct (String.eqb_spec t ""); [contradiction |]. simpl.
  destruct (fetch env _) as [response | e |]; simpl; try reflexivity.
  destruct (ok response); simpl.
  - by destruct (json response).
  - by destruct (text response).
Qed.

(** Once the folder step has resolved, save sends the upload of the text
    it serialized, as its only fetch. *)
Lemma saveToGoogleCloud_sends_upload env elements files w t folderId :
  client_ready env w = true ->
  granted_token env = Some t ->
  folder_outcome env GOOGLE_CLOUD_CONFIG.folderName = Resolved folderId ->
  exists evs,
    trace (saveToGoogleCloud env elements files w).2
    = trace w ++ evs ++
        [EFetch (upload_request (save_file elements files) (fileName_of (now env))
                   folderId t)]
    /\ Forall (fun ev => is_fetch ev = false) evs.
Proof.
  intros Hready Htoken Hfolder.
  rewrite saveToGoogleCloud_world.
  destruct (saveToGoogleCloud_try_after_folder env elements files w t folderId
              Hready Htoken Hfolder) as (w4 & Ht4 & (evs & Tr & HF) & ->).
  rewrite bind_world by (intros v w1; by destruct v).
  rewrite (uploadToGoogleDrive_trace env _ _ _ w4 t Ht4
             (granted_token_nonempty env t Htoken)).
  exists evs. split; [by rewrite Tr, <- app_assoc | assumption].
Qed.

(** The two turns of [loadGoogleDriveAPI], one after the other, are the
    whole call. *)
Lemma loadGoogleDriveAPI_in_two_turns env w :
  loadGoogleDriveAPI env w
  = bind (loadGoogleDriveAPI_started env)
      (fun resolved => if resolved then ret tt else loadGoogleDriveAPI_settled env) w.
Proof.
  unfold loadGoogleDriveAPI, loadGoogleDriveAPI_started, loadGoogleDriveAPI_settled,
    gapi_client_init_call, try_catch, bind, read_gapi, log, await, write_gapi, ret, throw.
  simpl. destruct (gapi w) as [| [|]]; simpl; try reflexivity;
    by destruct (gapi_client_init env).
Qed.

(** ** The claims *)

(** C1 (as amended): when the client is ready, consent is granted, the
    folder step resolves and the upload answers with an object, save returns
    success with its fixed message and, as fileName, the name property of
    the upload response; the upload it sent is the last remote call and
    names the file excalidraw-<timestamp>.excalidraw. *)
Theorem save_success_value env elements files w t folderId response props :
  client_ready env w = true ->
  granted_token env = Some t ->
  folder_outcome env GOOGLE_CLOUD_CONFIG.folderName = Resolved folderId ->
  fetch env (upload_request (save_file elements files) (fileName_of (now env)) folderId t)
  = Resolved response ->
  ok response = true ->
  json response = Resolved (JObj props) ->
  exists w',
    saveToGoogleCloud env elements files w
    = (Resolved {| success := true;
                   message := "File saved successfully to Google Cloud!";
                   fileName := obj_get "name" props |}, w')
    /\ last (trace w')
       = Some (EFetch (upload_request (save_file elements files)
                         ("excalidraw-" +:+ timestamp (now env) +:+ ".excalidraw")
                         folderId t)).
Proof.
  intros Hready Htoken Hfolder Hfetch Hok Hjson.
  destruct (client_ready_loaded _ _ Hready) as [d Hd].
  destruct (loadGoogleDriveAPI_ready env w Hready) as (w1 & E1 & _ & _ & _).
  destruct (authenticateGoogleUser_granted env t w1 Htoken) as (w2 & E2 & _ & _ & _).
  pose (w3 := (write_accessToken (Some t) w2).2).
  destruct (getOrCreateFolder_settles env GOOGLE_CLOUD_CONFIG.folderName w3)
    as (w4 & E4 & _ & T4 & _).
  rewrite Hfolder in E4.
  pose proof (granted_token_nonempty _ _ Htoken) as Hne.
  destruct (uploadToGoogleDrive_ok env _ _ _ w4 t response _ T4 Hne Hfetch Hok Hjson)
    as (w5 & E5 & _ & T5).
  exists w5. split; [| rewrite T5; apply last_snoc].
  unfold saveToGoogleCloud.
  erewrite try_catch_resolved; [reflexivity |].
  unfold saveToGoogleCloud_try.
  erewrite bind_resolved by reflexivity. rewrite Hd.
  erewrite bind_resolved by exact E1.
  erewrite bind_resolved by exact E2.
  assert (falsy_opt (Some t) = false) as -> by (by destruct t).
  erewrite bind_resolved by reflexivity.
  erewrite bind_resolved by exact E4.
  erewrite bind_resolved by exact E5.
  reflexivity.
Qed.

(** C1, at the one-rectangle scene in [mock_env], from a page where the drive
    client is not loaded yet. *)
Lemma save_success_value_witness :
  exists w',
    saveToGoogleCloud mock_env [rectangle] [] (initial_World (GapiLoaded false))
    = (Resolved {| success := true;
                   message := "File saved successfully to Google Cloud!";
                   fileName := Some (JStr "excalidraw-2025-01-02T03-04-05-678Z.excalidraw") |},
       w')
    /\ last (trace w')
       = Some (EFetch (upload_request (save_file [rectangle] [])
                         "excalidraw-2025-01-02T03-04-05-678Z.excalidraw"
                         (Some "folder-1") "ya29.token")).
Proof.
  apply (save_success_value mock_env [rectangle] [] (initial_World (GapiLoaded false))
           "ya29.token" (Some "folder-1") mock_response
           [("kind", JStr "drive#file"); ("id", JStr "file-1");
            ("name", JStr "excalidraw-2025-01-02T03-04-05-678Z.excalidraw");
            ("mimeType", JStr "application/json")]);
    reflexivity.
Defined.

(** C1 (as stated) fails.  With every remote call succeeding and the
    service reporting the name it was sent, the returned object has three
    properties, the message among them, not the two of the claim.  And the
    fileName is read from the upload response, not taken from the generated
    name: when the response carries no name, a successful save has none. *)
Lemma save_success_value_counterexample :
  (exists r w',
     saveToGoogleCloud mock_env [rectangle] [] (initial_World (GapiLoaded false))
     = (Resolved r, w')
     /\ result_object r
        = JObj [("success", JBool true);
                ("message", JStr "File saved successfully to Google Cloud!");
                ("fileName", JStr "excalidraw-2025-01-02T03-04-05-678Z.excalidraw")]
     /\ result_object r
        <> JObj [("success", JBool true);
                 ("fileName", JStr (fileName_of (now mock_env)))])
  /\ (exists r w',
        saveToGoogleCloud bare_env [rectangle] [] (initial_World (GapiLoaded false))
        = (Resolved r, w')
        /\ success r = true
        /\ fileName r = None
        /\ fileName r <> Some (JStr (fileName_of (now bare_env)))).
Proof.
  split.
  - eexists _, _. split; [vm_compute; reflexivity |].
    split; [reflexivity | discriminate].
  - eexists _, _. split; [vm_compute; reflexivity |].
    split; [reflexivity |]. split; [reflexivity | discriminate].
Qed.

(** C2: with no token in the slot, load fails at once with the
    not-authenticated error; the world is untouched, so no remote call was
    made and no authentication was attempted. *)
Theorem load_without_token env fileId w :
  accessToken w = None ->
  loadFromGoogleCloud env fileId w
  = (Rejected (TError "Failed to load file: Not authenticated. Please try again."), w).
Proof.
  intros Hnone.
  unfold loadFromGoogleCloud, loadFromGoogleCloud_try, try_catch, bind,
    read_accessToken, throw.
  simpl. rewrite Hnone. reflexivity.
Qed.

(** C2, at a fresh page. *)
Lemma load_without_token_witness :
  loadFromGoogleCloud mock_env "file-1" (initial_World (GapiLoaded true))
  = (Rejected (TError "Failed to load file: Not authenticated. Please try again."),
     initial_World (GapiLoaded true)).
Proof. apply (load_without_token mock_env "file-1" (initial_World (GapiLoaded true))). reflexivity. Defined.

(** C3: save never rejects, and when a step fails it resolves with the
    failure value whose message names the failure, where list and load
    reject with an Error that wraps it.  Step by step, from what the page
    and the services do: the client library is missing or its
    initialization is rejected; the identity library is missing, the token
    client throws, consent is refused, or no token comes back; the folder
    search or creation is rejected; the listing is rejected; the upload or
    the download cannot be sent, is answered with a status that is not a
    success, or its body cannot be read. *)
Theorem save_returns_failure_list_load_rethrow env w :
  (forall elements files e, (saveToGoogleCloud env elements files w).1 <> Rejected e)
  /\ (gapi w = GapiMissing ->
      (forall elements files,
         (saveToGoogleCloud env elements files w).1
         = Resolved (save_failure "Google API not loaded. Please refresh the page."))
      /\ exists m,
           (listFilesFromGoogleCloud env w).1
           = Rejected (TError ("Failed to list files: " +:+ m)))
  /\ (forall e,
        gapi w = GapiLoaded false -> gapi_client_init env = Rejected e ->
        save_and_list_fail_with env w
          ("Google API initialization failed: " +:+ errorMessage e))
  /\ (client_ready env w = true ->
      (google_oauth2 env = false ->
       save_and_list_fail_with env w
         "Google Identity Services not loaded. Please refresh the page.")
      /\ (google_oauth2 env = true ->
          (forall e,
             token_flow env = InitTokenClientThrows e
             \/ token_flow env = RequestAccessTokenThrows e ->
             save_and_list_fail_with env w
               ("Authentication failed: " +:+ message_or_unknown e))
          /\ (forall response,
                token_flow env = Callback response ->
                (falsy_opt (error response) = false ->
                 save_and_list_fail_with env w
                   ("Authentication failed: " +:+
                    template_opt (if falsy_opt (error_description response)
                                  then error response
                                  else error_description response)))
                /\ (falsy_opt (error response) = true ->
                    falsy_opt (access_token response) = true ->
                    save_and_list_fail_with env w
                      "Google authentication failed or was cancelled.")))
      /\ (forall t,
            granted_token env = Some t ->
            (forall e,
               folder_outcome env GOOGLE_CLOUD_CONFIG.folderName = Rejected e ->
               save_and_list_fail_with env w
                 ("Folder operation failed: " +:+ message_or_self e))
            /\ (forall folderId,
                  folder_outcome env GOOGLE_CLOUD_CONFIG.folderName = Resolved folderId ->
                  (forall e,
                     drive_files_list env (children_request folderId) = Rejected e ->
                     (listFilesFromGoogleCloud env w).1
                     = Rejected (TError ("Failed to list files: " +:+
                                         message_or_unknown e)))
                  /\ (forall elements files,
                        (forall e,
                           fetch env (upload_request (save_file elements files)
                                        (fileName_of (now env)) folderId t)
                           = Rejected e ->
                           (saveToGoogleCloud env elements files w).1
                           = Resolved (save_failure
                                         ("Upload failed: " +:+ message_or_self e)))
                        /\ (forall response,
                              fetch env (upload_request (save_file elements files)
                                           (fileName_of (now env)) folderId t)
                              = Resolved response ->
                              (ok response = false ->
                               (forall errorText,
                                  text response = Resolved errorText ->
                                  (saveToGoogleCloud env elements files w).1
                                  = Resolved
                                      (save_failure
                                         ("Upload failed: " +:+
                                          ("Failed to upload file to Google Drive: " +:+
                                           pretty (status response) +:+ " " +:+
                                           statusText response))))
                               /\ (forall e,
                                     text response = Rejected e ->
                                     (saveToGoogleCloud env elements files w).1
                                     = Resolved (save_failure
                                                   ("Upload failed: " +:+
                                                    message_or_self e))))
                              /\ (ok response = true ->
                                  forall e,
                                    json response = Rejected e ->
                                    (saveToGoogleCloud env elements files w).1
                                    = Resolved (save_failure
                                                  ("Upload failed: " +:+
                                                   message_or_self e))))))))
  /\ (forall fileId,
        (falsy_opt (accessToken w) = true ->
         (loadFromGoogleCloud env fileId w).1
         = Rejected (TError "Failed to load file: Not authenticated. Please try again."))
        /\ (forall t,
              accessToken w = Some t -> t <> "" ->
              (forall e,
                 fetch env (download_request fileId t) = Rejected e ->
                 (loadFromGoogleCloud env fileId w).1
                 = Rejected (TError ("Failed to load file: " +:+ message_or_unknown e)))
              /\ (forall response,
                    fetch env (download_request fileId t) = Resolved response ->
                    (ok response = false ->
                     (forall errorText,
                        text response = Resolved errorText ->
                        (loadFromGoogleCloud env fileId w).1
                        = Rejected (TError ("Failed to load file: " +:+
                                            ("Failed to download file: " +:+
                                             statusText response))))
                     /\ (forall e,
                           text response = Rejected e ->
                           (loadFromGoogleCloud env fileId w).1
                           = Rejected (TError ("Failed to load file: " +:+
                                               message_or_unknown e))))
                    /\ (ok response = true ->
                        forall e,
                          json response = Rejected e ->
                          (loadFromGoogleCloud env fileId w).1
                          = Rejected (TError ("Failed to load file: " +:+
                                              message_or_unknown e)))))).
Proof.
  split; [| split; [| split; [| split]]].
  - intros elements files e. unfold saveToGoogleCloud, try_catch.
    destruct (saveToGoogleCloud_try env elements files w) as [[r | e' |] w1];
      simpl; discriminate.
  - intros Hw. split.
    + intros elements files.
      unfold saveToGoogleCloud, saveToGoogleCloud_try, try_catch, bind, read_gapi. simpl.
      by rewrite Hw.
    + eexists.
      unfold listFilesFromGoogleCloud, listFilesFromGoogleCloud_try, loadGoogleDriveAPI,
        try_catch, bind, read_gapi, throw. simpl.
      rewrite Hw. reflexivity.
  - intros e Hw Hinit.
    eapply (fail_at_consent env w ("Google API initialization failed: " +:+ errorMessage e));
      [by rewrite Hw | | done].
    unfold bind, loadGoogleDriveAPI, gapi_client_init_call, try_catch, bind, read_gapi,
      log, await, throw. simpl. rewrite Hw. simpl. rewrite Hinit. simpl. reflexivity.
  - intros Hready. split; [| split].
    + intros Hgis. apply fail_at_authentication; [assumption | | done].
      intros w1. exists w1. unfold authenticateGoogleUser. by rewrite Hgis.
    + intros Hgis. split.
      * intros e Hflow. apply fail_at_authentication; [assumption | | done].
        intros w1. unfold authenticateGoogleUser, bind, log, throw. rewrite Hgis. simpl.
        destruct Hflow as [-> | ->]; simpl; eauto.
      * intros response Hflow. split.
        -- intros Herr. apply fail_at_authentication; [assumption | | done].
           intros w1. unfold authenticateGoogleUser, bind, log, throw.
           rewrite Hgis, Hflow. simpl. rewrite Herr. simpl. eauto.
        -- intros Herr Htok.
           apply (fail_for_want_of_token env w (access_token response));
             [assumption | | assumption].
           intros w1. unfold authenticateGoogleUser, bind, log, ret.
           rewrite Hgis, Hflow. simpl. rewrite Herr. simpl. eauto.
    + intros t Htoken. split.
      * intros e Hfolder. by apply (fail_at_folder env w t).
      * intros folderId Hfolder. split.
        -- intros e Hlist.
           rewrite (listFilesFromGoogleCloud_after_folder env w t folderId)
             by assumption.
           by rewrite Hlist.
        -- intros elements files. split.
           ++ intros e Hfetch.
              apply (saveToGoogleCloud_upload_rejected env elements files w t folderId);
                [assumption | assumption | assumption |].
              by rewrite Hfetch.
           ++ intros response Hfetch. split.
              ** intros Hok. split.
                 --- intros errorText Htext.
                     apply (saveToGoogleCloud_upload_rejected env elements files w t
                              folderId); [assumption | assumption | assumption |].
                     by rewrite Hfetch, Hok, Htext.
                 --- intros e Htext.
                     apply (saveToGoogleCloud_upload_rejected env elements files w t
                              folderId); [assumption | assumption | assumption |].
                     by rewrite Hfetch, Hok, Htext.
              ** intros Hok e Hjson.
                 apply (saveToGoogleCloud_upload_rejected env elements files w t
                          folderId); [assumption | assumption | assumption |].
                 by rewrite Hfetch, Hok, Hjson.
  - intros fileId. split.
    + intros Hfalsy.
      unfold loadFromGoogleCloud, loadFromGoogleCloud_try, try_catch, bind,
        read_accessToken. simpl. by rewrite Hfalsy.
    + intros t Ht Hne. rewrite (loadFromGoogleCloud_outcome env fileId w t Ht Hne).
      split.
      * intros e ->. reflexivity.
      * intros response ->. split.
        -- intros ->. split; [by intros errorText -> | by intros e ->].
        -- intros -> e ->. reflexivity.
Qed.

(** C3, where the upload is answered 403 (save), where the listing of the
    folder is rejected (list) and where the download is answered 404
    (load). *)
Lemma save_returns_failure_list_load_rethrow_witness :
  (saveToGoogleCloud forbidden_env [rectangle] [] (initial_World (GapiLoaded true))).1
  = Resolved {| success := false;
                message := "Failed to save: Upload failed: "
                           +:+ "Failed to upload file to Google Drive: 403 Forbidden";
                fileName := None |}
  /\ (listFilesFromGoogleCloud listing_refused_env (initial_World (GapiLoaded true))).1
     = Rejected (TError "Failed to list files: Rate Limit Exceeded")
  /\ (loadFromGoogleCloud fixed_listing_env "file-1"
        {| accessToken := Some "ya29.token"; gapi := GapiLoaded true; trace := [] |}).1
     = Rejected (TError "Failed to load file: Failed to download file: Not Found").
Proof.
  split; [| split].
  - destruct (save_returns_failure_list_load_rethrow forbidden_env
                (initial_World (GapiLoaded true))) as (_ & _ & _ & Hsteps & _).
    destruct (Hsteps eq_refl) as (_ & _ & Hgranted).
    destruct (Hgranted "ya29.fresh" eq_refl) as (_ & Hfolder).
    destruct (Hfolder (Some "folder-7") eq_refl) as (_ & Hsave).
    destruct (Hsave [rectangle] []) as (_ & Hanswer).
    destruct (Hanswer {| ok := false; status := 403; statusText := "Forbidden";
                         text := Resolved "quota"; json := Rejected (TError "no body") |}
                eq_refl) as (Hrefused & _).
    exact (proj1 (Hrefused eq_refl) "quota" eq_refl).
  - destruct (save_returns_failure_list_load_rethrow listing_refused_env
                (initial_World (GapiLoaded true))) as (_ & _ & _ & Hsteps & _).
    destruct (Hsteps eq_refl) as (_ & _ & Hgranted).
    destruct (Hgranted "ya29.token" eq_refl) as (_ & Hfolder).
    destruct (Hfolder (Some "folder-1") eq_refl) as (Hlist & _).
    exact (Hlist (TError "Rate Limit Exceeded") eq_refl).
  - destruct (save_returns_failure_list_load_rethrow fixed_listing_env
                {| accessToken := Some "ya29.token"; gapi := GapiLoaded true;
                   trace := [] |}) as (_ & _ & _ & _ & Hload).
    destruct (Hload "file-1") as (_ & Htoken).
    destruct (Htoken "ya29.token" eq_refl ltac:(discriminate)) as (_ & Hanswer).
    destruct (Hanswer {| ok := false; status := 404; statusText := "Not Found";
                         text := Resolved ""; json := Rejected (TError "no body") |}
                eq_refl) as (Hrefused & _).
    exact (proj1 (Hrefused eq_refl) "" eq_refl).
Defined.

(** C4: when the client is ready and consent is granted, a rejection of
    the folder step, be it of the search or of the creation, makes save
    resolve with the failure "Failed to save: Folder operation failed: ..."
    and no request has been fetched: nothing is uploaded. *)
Theorem save_folder_failure env elements files w t e :
  client_ready env w = true ->
  granted_token env = Some t ->
  folder_outcome env GOOGLE_CLOUD_CONFIG.folderName = Rejected e ->
  exists w',
    saveToGoogleCloud env elements files w
    = (Resolved {| success := false;
                   message := "Failed to save: Folder operation failed: "
                              +:+ message_or_self e;
                   fileName := None |}, w')
    /\ appends (fun ev => is_fetch ev = false) w w'.
Proof.
  intros Hready Htoken Hfolder.
  destruct (client_ready_loaded _ _ Hready) as [d Hd].
  destruct (loadGoogleDriveAPI_ready env w Hready) as (w1 & E1 & _ & _ & A1).
  destruct (authenticateGoogleUser_granted env t w1 Htoken) as (w2 & E2 & _ & _ & A2).
  pose (w3 := (write_accessToken (Some t) w2).2).
  destruct (getOrCreateFolder_settles env GOOGLE_CLOUD_CONFIG.folderName w3)
    as (w4 & E4 & _ & _ & A4).
  rewrite Hfolder in E4.
  exists w4. split.
  - assert (saveToGoogleCloud_try env elements files w
            = (Rejected (TError ("Folder operation failed: " +:+ message_or_self e)), w4))
      as Hbody.
    { unfold saveToGoogleCloud_try.
      erewrite bind_resolved by reflexivity. rewrite Hd.
      erewrite bind_resolved by exact E1.
      erewrite bind_resolved by exact E2.
      pose proof (granted_token_nonempty _ _ Htoken) as Hne.
      assert (falsy_opt (Some t) = false) as -> by (by destruct t).
      erewrite bind_resolved by reflexivity.
      erewrite bind_rejected by exact E4. reflexivity. }
    unfold saveToGoogleCloud. rewrite (try_catch_rejected _ _ _ _ _ Hbody).
    reflexivity.
  - transitivity w1; [assumption |]. transitivity w2; [assumption |].
    transitivity w3; [| assumption]. apply appends_write_accessToken.
Qed.

(** C4, where the folder search is rejected. *)
Lemma save_folder_failure_witness :
  exists w',
    saveToGoogleCloud no_folder_env [rectangle] [] (initial_World (GapiLoaded false))
    = (Resolved {| success := false;
                   message := "Failed to save: Folder operation failed: "
                              +:+ message_or_self (TError "Insufficient Permission");
                   fileName := None |}, w')
    /\ appends (fun ev => is_fetch ev = false) (initial_World (GapiLoaded false)) w'.
Proof.
  apply (save_folder_failure no_folder_env [rectangle] []
           (initial_World (GapiLoaded false)) "ya29.token"
           (TError "Insufficient Permission"));
    reflexivity.
Defined.

(** C5 (as amended): a save that reports success has uploaded under
    excalidraw-<timestamp>.excalidraw, the timestamp being the clock's ISO
    text with every colon and dot replaced by a dash; two saves get the same
    name exactly when their clocks read the same millisecond. *)
Theorem save_name_from_clock :
  (forall env elements files w r w',
     saveToGoogleCloud env elements files w = (Resolved r, w') ->
     success r = true ->
     exists folderId token evs,
       trace w' = trace w ++ evs ++
         [EFetch (upload_request (save_file elements files)
                    ("excalidraw-" +:+ timestamp (now env) +:+ ".excalidraw")
                    folderId token)])
  /\ (forall iso1 iso2,
        is_iso iso1 = true -> is_iso iso2 = true ->
        (fileName_of iso1 = fileName_of iso2 <-> iso1 = iso2)).
Proof.
  split.
  - apply saveToGoogleCloud_success_uploaded.
  - intros iso1 iso2 H1 H2. split; [by apply fileName_of_inj | by intros ->].
Qed.

(** C5, at a successful save and at two clock readings one millisecond
    apart. *)
Lemma save_name_from_clock_witness :
  (exists folderId token evs,
     trace (saveToGoogleCloud mock_env [rectangle] [] (initial_World (GapiLoaded false))).2
     = trace (initial_World (GapiLoaded false)) ++ evs ++
         [EFetch (upload_request (save_file [rectangle] [])
                    ("excalidraw-" +:+ timestamp (now mock_env) +:+ ".excalidraw")
                    folderId token)])
  /\ (fileName_of "2025-01-02T03:04:05.678Z" = fileName_of "2025-01-02T03:04:05.679Z"
      <-> "2025-01-02T03:04:05.678Z" = "2025-01-02T03:04:05.679Z").
Proof.
  split.
  - apply (proj1 save_name_from_clock mock_env [rectangle] []
             (initial_World (GapiLoaded false))
             {| success := true;
                message := "File saved successfully to Google Cloud!";
                fileName := Some (JStr "excalidraw-2025-01-02T03-04-05-678Z.excalidraw") |});
      [vm_compute; reflexivity | reflexivity].
  - apply (proj2 save_name_from_clock); reflexivity.
Defined.

(** C5 (as stated) fails: two saves of one scene whose clocks read the same
    millisecond both succeed and both upload under the same name. *)
Lemma two_saves_same_name_counterexample :
  exists r1 w1 r2 w2,
    saveToGoogleCloud mock_env [rectangle] [] (initial_World (GapiLoaded false))
    = (Resolved r1, w1)
    /\ saveToGoogleCloud mock_env [rectangle] [] w1 = (Resolved r2, w2)
    /\ success r1 = true /\ success r2 = true
    /\ filter (fun ev => is_fetch ev = true) (trace w2)
       = [EFetch (upload_request (save_file [rectangle] [])
                    "excalidraw-2025-01-02T03-04-05-678Z.excalidraw"
                    (Some "folder-1") "ya29.token");
          EFetch (upload_request (save_file [rectangle] [])
                    "excalidraw-2025-01-02T03-04-05-678Z.excalidraw"
                    (Some "folder-1") "ya29.token")].
Proof.
  eexists _, _, _, _.
  split; [vm_compute; reflexivity |].
  split; [vm_compute; reflexivity |].
  split; [reflexivity |]. split; [reflexivity |].
  vm_compute. reflexivity.
Qed.



(** C7: what save serializes is the envelope object, as JSON with an
    indentation of two spaces: one property per line, in the order type,
    version, source, elements, appState, files.  Every upload save makes
    carries that text as its file part, and once the folder step has
    resolved save does make that upload: the last request it sends has the
    envelope text as the content of its file part. *)
Theorem save_payload_is_envelope elements files :
  jsonString elements files
  = JSON.stringify
      (JObj [("type", JStr "excalidraw");
             ("version", JNum "2");
             ("source", JStr "https://excalidraw.com");
             ("elements", JArr elements);
             ("appState", JObj [("viewBackgroundColor", JStr "#ffffff")]);
             ("files", JObj files)]) 2
  /\ jsonString elements files
     = envelope_text (JSON.serialize "  " "  " (JArr elements))
                     (JSON.serialize "  " "  " (JObj files))
  /\ (forall env w,
        appends (is_upload_of {| blob_text := jsonString elements files;
                                 blob_type := "application/json" |}
                              (fileName_of (now env)))
                w (saveToGoogleCloud env elements files w).2)
  /\ (forall env w t folderId,
        client_ready env w = true ->
        granted_token env = Some t ->
        folder_outcome env GOOGLE_CLOUD_CONFIG.folderName = Resolved folderId ->
        exists evs req metadata_part,
          trace (saveToGoogleCloud env elements files w).2
          = trace w ++ evs ++ [EFetch req]
          /\ Forall (fun ev => is_fetch ev = false) evs
          /\ body req
             = Some [("metadata", metadata_part);
                     ("file",
                      {| blob_text :=
                           envelope_text (JSON.serialize "  " "  " (JArr elements))
                                         (JSON.serialize "  " "  " (JObj files));
                         blob_type := "application/json" |})]).
Proof.
  split; [reflexivity |]. split; [apply jsonString_layout |].
  split; [intros env w; apply saveToGoogleCloud_uploads |].
  intros env w t folderId Hready Htoken Hfolder.
  destruct (saveToGoogleCloud_sends_upload env elements files w t folderId
              Hready Htoken Hfolder) as (evs & Htrace & Hevs).
  eexists evs, _, _. split; [exact Htrace |]. split; [assumption |].
  unfold save_file. by rewrite jsonString_layout.
Qed.

(** C7, at the one-rectangle scene: the text of the file part, line by
    line. *)
Lemma save_payload_is_envelope_witness :
  exists evs req metadata_part,
    trace (saveToGoogleCloud mock_env [rectangle] [] (initial_World (GapiLoaded false))).2
    = trace (initial_World (GapiLoaded false)) ++ evs ++ [EFetch req]
    /\ Forall (fun ev => is_fetch ev = false) evs
    /\ body req
       = Some [("metadata", metadata_part);
               ("file",
                {| blob_text :=
                     join newline
                       ["{";
                        "  " +:+ quoted "type" +:+ ": " +:+ quoted "excalidraw" +:+ ",";
                        "  " +:+ quoted "version" +:+ ": 2,";
                        "  " +:+ quoted "source" +:+ ": "
                          +:+ quoted "https://excalidraw.com" +:+ ",";
                        "  " +:+ quoted "elements" +:+ ": [";
                        "    {";
                        "      " +:+ quoted "id" +:+ ": " +:+ quoted "rect-1" +:+ ",";
                        "      " +:+ quoted "type" +:+ ": " +:+ quoted "rectangle" +:+ ",";
                        "      " +:+ quoted "x" +:+ ": 10,";
                        "      " +:+ quoted "y" +:+ ": 20.5,";
                        "      " +:+ quoted "width" +:+ ": 100,";
                        "      " +:+ quoted "height" +:+ ": 50,";
                        "      " +:+ quoted "isDeleted" +:+ ": false,";
                        "      " +:+ quoted "groupIds" +:+ ": []";
                        "    }";
                        "  ],";
                        "  " +:+ quoted "appState" +:+ ": {";
                        "    " +:+ quoted "viewBackgroundColor" +:+ ": "
                          +:+ quoted "#ffffff";
                        "  },";
                        "  " +:+ quoted "files" +:+ ": {}";
                        "}"];
                   blob_type := "application/json" |})].
Proof.
  destruct (proj2 (proj2 (proj2 (save_payload_is_envelope [rectangle] [])))
              mock_env (initial_World (GapiLoaded false)) "ya29.token" (Some "folder-1")
              eq_refl eq_refl eq_refl)
    as (evs & req & metadata_part & Htrace & Hevs & Hbody).
  exists evs, req, metadata_part.
  split; [exact Htrace |]. split; [exact Hevs |]. exact Hbody.
Defined.

(** C8 (as amended): with the drive client there, loadGoogleDriveAPI
    resolves at once and changes nothing; a call made after one that
    resolved is such a call; and from then on no operation that starts
    after the one before it has settled calls gapi.client.init again.  There
    is no guard for an initialization that is under way: a call that starts
    before the initialization of an earlier call has settled finds no drive
    client and calls gapi.client.init too. *)
Theorem loadGoogleDriveAPI_idempotent :
  (forall env w,
     gapi w = GapiLoaded true -> loadGoogleDriveAPI env w = (Resolved tt, w))
  /\ (forall env env' w w',
        loadGoogleDriveAPI env w = (Resolved tt, w') ->
        loadGoogleDriveAPI env' w' = (Resolved tt, w'))
  /\ (forall ops w,
        gapi w = GapiLoaded true ->
        gapi (run_session ops w) = GapiLoaded true
        /\ exists evs, trace (run_session ops w) = trace w ++ evs
                       /\ Forall (fun ev => is_init ev = false) evs)
  /\ (forall env w,
        loadGoogleDriveAPI env w
        = bind (loadGoogleDriveAPI_started env)
            (fun resolved =>
               if resolved then ret tt else loadGoogleDriveAPI_settled env) w)
  /\ (forall env env' w,
        gapi w = GapiLoaded false ->
        exists w1 w2,
          loadGoogleDriveAPI_started env w = (Resolved false, w1)
          /\ loadGoogleDriveAPI_started env' w1 = (Resolved false, w2)
          /\ trace w2
             = trace w
               ++ [EGapiInit (VITE_APP_GOOGLE_API_KEY env)
                     ["https://www.googleapis.com/discovery/v1/apis/drive/v3/rest"];
                   EGapiInit (VITE_APP_GOOGLE_API_KEY env')
                     ["https://www.googleapis.com/discovery/v1/apis/drive/v3/rest"]]).
Proof.
  split; [apply loadGoogleDriveAPI_loaded |]. split; [| split; [| split]].
  - intros env env' w w' Hfirst.
    apply loadGoogleDriveAPI_loaded. by apply (loadGoogleDriveAPI_resolved env w).
  - intros ops w Hw. by apply (run_session_no_reinit ops w).
  - apply loadGoogleDriveAPI_in_two_turns.
  - intros env env' w Hw.
    unfold loadGoogleDriveAPI_started, bind, read_gapi, log, ret. simpl.
    rewrite Hw. simpl. eexists _, _. split; [reflexivity |].
    rewrite Hw. simpl. split; [reflexivity |]. by rewrite <- app_assoc.
Qed.

(** C8, at a loaded page, after a first call, and over a session. *)
Lemma loadGoogleDriveAPI_idempotent_witness :
  loadGoogleDriveAPI mock_env (initial_World (GapiLoaded true))
  = (Resolved tt, initial_World (GapiLoaded true))
  /\ loadGoogleDriveAPI mock_env
       (loadGoogleDriveAPI mock_env (initial_World (GapiLoaded false))).2
     = (Resolved tt, (loadGoogleDriveAPI mock_env (initial_World (GapiLoaded false))).2)
  /\ gapi (run_session [(mock_env, Save [rectangle] []); (mock_env, List)]
             (initial_World (GapiLoaded true))) = GapiLoaded true.
Proof.
  split; [| split].
  - apply (proj1 loadGoogleDriveAPI_idempotent). reflexivity.
  - apply (proj1 (proj2 loadGoogleDriveAPI_idempotent) mock_env mock_env
             (initial_World (GapiLoaded false))).
    reflexivity.
  - apply (proj1 (proj2 (proj2 loadGoogleDriveAPI_idempotent))). reflexivity.
Defined.

(** C8 (as stated) fails: the library is not initialized at most once per
    process.  Two operations start one after the other on a page whose
    drive client is not there yet, the second before the initialization of
    the first has settled; both call gapi.client.init, and both
    initializations resolve. *)
Lemma two_calls_before_init_settles_counterexample :
  exists w1 w2 w3 w4,
    loadGoogleDriveAPI_started mock_env (initial_World (GapiLoaded false))
    = (Resolved false, w1)
    /\ loadGoogleDriveAPI_started mock_env w1 = (Resolved false, w2)
    /\ loadGoogleDriveAPI_settled mock_env w2 = (Resolved tt, w3)
    /\ loadGoogleDriveAPI_settled mock_env w3 = (Resolved tt, w4)
    /\ trace w4
       = [EGapiInit (Some "api-key")
            ["https://www.googleapis.com/discovery/v1/apis/drive/v3/rest"];
          EGapiInit (Some "api-key")
            ["https://www.googleapis.com/discovery/v1/apis/drive/v3/rest"]]
    /\ ~ (length (List.filter is_init (trace w4)) <= 1).
Proof.
  eexists _, _, _, _.
  split; [reflexivity |]. split; [reflexivity |]. split; [reflexivity |].
  split; [reflexivity |]. split; [reflexivity |]. simpl. lia.
Qed.

(** C9: whatever the elements and files, the appState of the object save
    serializes is the constant with the white background, and the text it
    uploads is the serialization of that object.  Once the folder step has
    resolved save does upload it: the file part of the request it sends is
    the envelope text, in which the appState property stands between the
    elements and the files as that constant, whatever the elements and the
    files contain. *)
Theorem save_appState_is_constant elements files :
  field "appState" (data elements files)
  = Some (JObj [("viewBackgroundColor", JStr "#ffffff")])
  /\ (forall elements' files',
        field "appState" (data elements' files')
        = field "appState" (data elements files))
  /\ (forall env w,
        appends (is_upload_of {| blob_text := JSON.stringify (data elements files) 2;
                                 blob_type := "application/json" |}
                              (fileName_of (now env)))
                w (saveToGoogleCloud env elements files w).2)
  /\ (forall env w t folderId,
        client_ready env w = true ->
        granted_token env = Some t ->
        folder_outcome env GOOGLE_CLOUD_CONFIG.folderName = Resolved folderId ->
        exists evs req metadata_part,
          trace (saveToGoogleCloud env elements files w).2
          = trace w ++ evs ++ [EFetch req]
          /\ body req
             = Some [("metadata", metadata_part);
                     ("file",
                      {| blob_text :=
                           "{" +:+ newline
                           +:+ "  " +:+ quoted "type" +:+ ": " +:+ quoted "excalidraw"
                           +:+ "," +:+ newline
                           +:+ "  " +:+ quoted "version" +:+ ": 2," +:+ newline
                           +:+ "  " +:+ quoted "source" +:+ ": "
                           +:+ quoted "https://excalidraw.com" +:+ "," +:+ newline
                           +:+ "  " +:+ quoted "elements" +:+ ": "
                           +:+ JSON.serialize "  " "  " (JArr elements)
                           +:+ "," +:+ newline
                           +:+ "  " +:+ quoted "appState" +:+ ": {" +:+ newline
                           +:+ "    " +:+ quoted "viewBackgroundColor" +:+ ": "
                           +:+ quoted "#ffffff" +:+ newline
                           +:+ "  }," +:+ newline
                           +:+ "  " +:+ quoted "files" +:+ ": "
                           +:+ JSON.serialize "  " "  " (JObj files) +:+ newline
                           +:+ "}";
                         blob_type := "application/json" |})]).
Proof.
  split; [reflexivity |]. split; [reflexivity |].
  split; [intros env w; apply saveToGoogleCloud_uploads |].
  intros env w t folderId Hready Htoken Hfolder.
  destruct (saveToGoogleCloud_sends_upload env elements files w t folderId
              Hready Htoken Hfolder) as (evs & Htrace & Hevs).
  eexists evs, _, _. split; [exact Htrace |].
  unfold save_file. by rewrite jsonString_layout.
Qed.

(** C9, at a scene whose element and whose files both carry an appState
    of their own with a black background: the appState of the envelope is
    the white constant all the same. *)
Lemma save_appState_is_constant_witness :
  exists evs req metadata_part,
    trace (saveToGoogleCloud mock_env
             [JObj [("appState", JObj [("viewBackgroundColor", JStr "#000000")])]]
             [("appState", JObj [("viewBackgroundColor", JStr "#000000")])]
             (initial_World (GapiLoaded true))).2
    = trace (initial_World (GapiLoaded true)) ++ evs ++ [EFetch req]
    /\ body req
       = Some [("metadata", metadata_part);
               ("file",
                {| blob_text :=
                     join newline
                       ["{";
                        "  " +:+ quoted "type" +:+ ": " +:+ quoted "excalidraw" +:+ ",";
                        "  " +:+ quoted "version" +:+ ": 2,";
                        "  " +:+ quoted "source" +:+ ": "
                          +:+ quoted "https://excalidraw.com" +:+ ",";
                        "  " +:+ quoted "elements" +:+ ": [";
                        "    {";
                        "      " +:+ quoted "appState" +:+ ": {";
                        "        " +:+ quoted "viewBackgroundColor" +:+ ": "
                          +:+ quoted "#000000";
                        "      }";
                        "    }";
                        "  ],";
                        "  " +:+ quoted "appState" +:+ ": {";
                        "    " +:+ quoted "viewBackgroundColor" +:+ ": "
                          +:+ quoted "#ffffff";
                        "  },";
                        "  " +:+ quoted "files" +:+ ": {";
                        "    " +:+ quoted "appState" +:+ ": {";
                        "      " +:+ quoted "viewBackgroundColor" +:+ ": "
                          +:+ quoted "#000000";
                        "    }";
                        "  }";
                        "}"];
                   blob_type := "application/json" |})].
Proof.
  destruct (proj2 (proj2 (proj2 (save_appState_is_constant
              [JObj [("appState", JObj [("viewBackgroundColor", JStr "#000000")])]]
              [("appState", JObj [("viewBackgroundColor", JStr "#000000")])])))
              mock_env (initial_World (GapiLoaded true)) "ya29.token" (Some "folder-1")
              eq_refl eq_refl eq_refl)
    as (evs & req & metadata_part & Htrace & Hbody).
  exists evs, req, metadata_part.
  split; [exact Htrace |]. exact Hbody.
Defined.

(** C10: no step of the pipeline touches the token slot; an operation
    leaves it as it was or, in save and list, stores the non-empty token of
    a successful authentication; when authentication does not succeed the
    slot is unchanged; and a slot that holds a token holds one for the rest
    of the session. *)
Theorem accessToken_set_on_grant_never_cleared :
  (forall env w,
     accessToken (loadGoogleDriveAPI env w).2 = accessToken w
     /\ accessToken (authenticateGoogleUser env w).2 = accessToken w
     /\ (forall folderName,
           accessToken (getOrCreateFolder env folderName w).2 = accessToken w)
     /\ (forall file fileName folderId,
           accessToken (uploadToGoogleDrive env file fileName folderId w).2
           = accessToken w)
     /\ (forall fileId,
           accessToken (loadFromGoogleCloud env fileId w).2 = accessToken w))
  /\ (forall env op w,
        accessToken (run_op env op w) = accessToken w
        \/ exists t, granted_token env = Some t /\ t <> ""
                     /\ accessToken (run_op env op w) = Some t)
  /\ (forall env op w,
        granted_token env = None -> accessToken (run_op env op w) = accessToken w)
  /\ (forall ops w,
        accessToken w <> None -> accessToken (run_session ops w) <> None).
Proof.
  split; [| split; [| split]].
  - intros env w. repeat split; intros.
    + apply loadGoogleDriveAPI_same_token.
    + apply authenticateGoogleUser_same_token.
    + apply getOrCreateFolder_same_token.
    + apply uploadToGoogleDrive_same_token.
    + apply loadFromGoogleCloud_same_token.
  - intros env op w.
    destruct (run_op_token_step env op w) as [Hsame | (t & Hg & Hset)]; [by left |].
    right. exists t. split; [assumption |].
    split; [by apply (granted_token_nonempty env) | assumption].
  - intros env op w Hnone.
    destruct (run_op_token_step env op w) as [Hsame | (t & Hg & _)]; [assumption |].
    congruence.
  - apply run_session_token_stays.
Qed.

(** C10, after a list that stored a token: a save whose consent is refused
    leaves it, and it is still there after three failing operations. *)
Lemma accessToken_set_on_grant_never_cleared_witness :
  accessToken (run_op denied_env (Save [rectangle] [])
                 (run_op mock_env List (initial_World (GapiLoaded false))))
  = accessToken (run_op mock_env List (initial_World (GapiLoaded false)))
  /\ accessToken
       (run_session [(denied_env, Save [rectangle] []); (no_folder_env, List);
                     (denied_env, Load "file-1")]
          (run_op mock_env List (initial_World (GapiLoaded false))))
     <> None.
Proof.
  split.
  - apply (proj1 (proj2 (proj2 accessToken_set_on_grant_never_cleared))).
    reflexivity.
  - apply (proj2 (proj2 (proj2 accessToken_set_on_grant_never_cleared))).
    discriminate.
Defined.

(** ** Further properties of the module and of its caller *)

(** *** The token and the consent *)

(** X1: once the client is ready and consent is granted, save and list
    store the granted token, whatever the token was before and whatever
    happens to the folder, upload and listing steps that follow. *)
Theorem token_stored_whatever_follows env w t :
  client_ready env w = true ->
  granted_token env = Some t ->
  (forall elements files,
     accessToken (saveToGoogleCloud env elements files w).2 = Some t)
  /\ accessToken (listFilesFromGoogleCloud env w).2 = Some t.
Proof.
  intros Hready Htoken. split.
  - intros elements files. rewrite saveToGoogleCloud_world.
    destruct (saveToGoogleCloud_try_after_grant env elements files w t Hready Htoken)
      as (w3 & Ht & _ & ->).
    rewrite <- Ht.
    assert (preserves same_token
              (bind (getOrCreateFolder env GOOGLE_CLOUD_CONFIG.folderName)
                 (fun folderId =>
                    bind (uploadToGoogleDrive env (save_file elements files)
                            (fileName_of (now env)) folderId)
                      (fun uploadResult =>
                         bind (get_name uploadResult)
                           (fun uploadResult_name =>
                              ret {| success := true;
                                     message := "File saved successfully to Google Cloud!";
                                     fileName := uploadResult_name |})))))
      as Hrest by frame.
    apply Hrest.
  - rewrite listFilesFromGoogleCloud_world.
    destruct (listFilesFromGoogleCloud_try_after_grant env w t Hready Htoken)
      as (w3 & Ht & _ & ->).
    rewrite <- Ht.
    assert (preserves same_token
              (bind (getOrCreateFolder env GOOGLE_CLOUD_CONFIG.folderName)
                 (fun folderId =>
                    bind (files_list env (children_request folderId))
                      (fun response =>
                         ret (match files response with Some fs => fs | None => [] end)))))
      as Hrest by (unfold files_list; frame).
    apply Hrest.
Qed.

(** X1, where the folder search is rejected after consent was given, from
    a page that held an older token. *)
Lemma token_stored_whatever_follows_witness :
  (forall elements files,
     accessToken (saveToGoogleCloud no_folder_env elements files
                    {| accessToken := Some "ya29.old"; gapi := GapiLoaded true;
                       trace := [] |}).2
     = Some "ya29.token")
  /\ accessToken (listFilesFromGoogleCloud no_folder_env
                    {| accessToken := Some "ya29.old"; gapi := GapiLoaded true;
                       trace := [] |}).2
     = Some "ya29.token".
Proof.
  apply (token_stored_whatever_follows no_folder_env
           {| accessToken := Some "ya29.old"; gapi := GapiLoaded true; trace := [] |}
           "ya29.token"); reflexivity.
Defined.

Lemma falsy_without_grant env :
  granted_token env = None ->
  returns (authenticateGoogleUser env) (fun token => falsy_opt token = true).
Proof.
  intros Hnone w token w' Hrun.
  destruct (falsy_opt token) eqn:Hf; [reflexivity |].
  pose proof (authenticateGoogleUser_returns env w token w' Hrun Hf) as Hg.
  rewrite Hnone in Hg. subst token. discriminate.
Qed.

(** X2: without a successful authentication save and list make no call to
    the Drive service: no listing, no folder creation, no fetch. *)
Theorem no_drive_call_without_consent env w :
  granted_token env = None ->
  (forall elements files,
     exists evs,
       trace (saveToGoogleCloud env elements files w).2 = trace w ++ evs
       /\ Forall (fun ev => is_drive_call ev = false) evs)
  /\ exists evs,
       trace (listFilesFromGoogleCloud env w).2 = trace w ++ evs
       /\ Forall (fun ev => is_drive_call ev = false) evs.
Proof.
  intros Hnone.
  assert (preserves (appends (fun ev => is_drive_call ev = false)) (loadGoogleDriveAPI env))
    as F1 by (unfold loadGoogleDriveAPI, gapi_client_init_call; frame).
  assert (preserves (appends (fun ev => is_drive_call ev = false))
            (authenticateGoogleUser env))
    as F2 by (unfold authenticateGoogleUser; frame).
  split.
  - intros elements files.
    change (appends (fun ev => is_drive_call ev = false) w
              (saveToGoogleCloud env elements files w).2).
    revert w. change (preserves (appends (fun ev => is_drive_call ev = false))
                        (saveToGoogleCloud env elements files)).
    unfold saveToGoogleCloud, saveToGoogleCloud_try.
    apply preserves_try_catch; [typeclasses eauto | | frame].
    apply preserves_bind; [typeclasses eauto | frame | intros g].
    destruct g; [frame |].
    apply preserves_bind; [typeclasses eauto | exact F1 | intros _].
    apply (preserves_bind_returns _ _ _ _ (falsy_without_grant env Hnone));
      [exact F2 |].
    intros token ->. frame.
  - change (appends (fun ev => is_drive_call ev = false) w
              (listFilesFromGoogleCloud env w).2).
    revert w. change (preserves (appends (fun ev => is_drive_call ev = false))
                        (listFilesFromGoogleCloud env)).
    unfold listFilesFromGoogleCloud, listFilesFromGoogleCloud_try.
    apply preserves_try_catch; [typeclasses eauto | | frame].
    apply preserves_bind; [typeclasses eauto | exact F1 | intros _].
    apply (preserves_bind_returns _ _ _ _ (falsy_without_grant env Hnone));
      [exact F2 |].
    intros token ->. frame.
Qed.

(** X2, where consent is refused. *)
Lemma no_drive_call_without_consent_witness :
  (forall elements files,
     exists evs,
       trace (saveToGoogleCloud denied_env elements files
                (initial_World (GapiLoaded false))).2
       = trace (initial_World (GapiLoaded false)) ++ evs
       /\ Forall (fun ev => is_drive_call ev = false) evs)
  /\ exists evs,
       trace (listFilesFromGoogleCloud denied_env (initial_World (GapiLoaded false))).2
       = trace (initial_World (GapiLoaded false)) ++ evs
       /\ Forall (fun ev => is_drive_call ev = false) evs.
Proof.
  apply (no_drive_call_without_consent denied_env (initial_World (GapiLoaded false))).
  reflexivity.
Defined.

(** *** The upload step *)

Lemma get_name_then_ret_world (uploadResult : JsValue) w1 :
  (bind (get_name uploadResult)
     (fun uploadResult_name =>
        ret {| success := true;
               message := "File saved successfully to Google Cloud!";
               fileName := uploadResult_name |}) w1).2 = w1.
Proof. by destruct uploadResult. Qed.

(** X3: in a save that runs with no other operation between its steps,
    once the folder step has resolved the upload is sent exactly once, as
    the last remote call, under the name made from the clock, into the
    resolved folder and with the token just granted as bearer; this holds
    whether the upload then succeeds or not (there is no retry).  The
    upload step itself takes the bearer from the module's token slot as it
    stands when the step runs, not from the token save was given: whatever
    non-empty token the slot holds then is the one that is sent. *)
Theorem save_uploads_once_with_granted_token env elements files w t folderId :
  client_ready env w = true ->
  granted_token env = Some t ->
  folder_outcome env GOOGLE_CLOUD_CONFIG.folderName = Resolved folderId ->
  (exists evs,
     trace (saveToGoogleCloud env elements files w).2
     = trace w ++ evs ++
         [EFetch (upload_request (save_file elements files) (fileName_of (now env))
                    folderId t)]
     /\ Forall (fun ev => is_fetch ev = false) evs)
  /\ (forall w' t',
        accessToken w' = Some t' -> t' <> "" ->
        trace (uploadToGoogleDrive env (save_file elements files)
                 (fileName_of (now env)) folderId w').2
        = trace w' ++
            [EFetch (upload_request (save_file elements files) (fileName_of (now env))
                       folderId t')]).
Proof.
  intros Hready Htoken Hfolder. split.
  - by apply saveToGoogleCloud_sends_upload.
  - intros w' t' Ht' Hne. by apply uploadToGoogleDrive_trace.
Qed.

(** X3, where the folder exists and the service refuses the upload; and
    the upload step alone, started with another token in the slot. *)
Lemma save_uploads_once_with_granted_token_witness :
  (exists evs,
     trace (saveToGoogleCloud forbidden_env [rectangle] []
              {| accessToken := Some "ya29.old"; gapi := GapiLoaded true; trace := [] |}).2
     = trace {| accessToken := Some "ya29.old"; gapi := GapiLoaded true; trace := [] |}
         ++ evs ++
         [EFetch (upload_request (save_file [rectangle] [])
                    (fileName_of (now forbidden_env)) (Some "folder-7") "ya29.fresh")]
     /\ Forall (fun ev => is_fetch ev = false) evs)
  /\ trace (uploadToGoogleDrive forbidden_env (save_file [rectangle] [])
              (fileName_of (now forbidden_env)) (Some "folder-7")
              {| accessToken := Some "ya29.other"; gapi := GapiLoaded true;
                 trace := [] |}).2
     = [] ++ [EFetch (upload_request (save_file [rectangle] [])
                        (fileName_of (now forbidden_env)) (Some "folder-7")
                        "ya29.other")].
Proof.
  destruct (save_uploads_once_with_granted_token forbidden_env [rectangle] []
              {| accessToken := Some "ya29.old"; gapi := GapiLoaded true; trace := [] |}
              "ya29.fresh" (Some "folder-7") eq_refl eq_refl eq_refl) as [Hsave Hstep].
  split; [exact Hsave |].
  apply (Hstep {| accessToken := Some "ya29.other"; gapi := GapiLoaded true;
                  trace := [] |} "ya29.other"); [reflexivity | discriminate].
Defined.

(** X4: when the service answers the upload with a status that is not a
    success, save reads the text of the answer and then reports the status
    code and the status text, wrapped by the upload step and by save; when
    reading the text fails it reports that failure instead, without the
    status; and while the text is not read save does not return. *)
Theorem save_reports_upload_status env elements files w t folderId response :
  client_ready env w = true ->
  granted_token env = Some t ->
  folder_outcome env GOOGLE_CLOUD_CONFIG.folderName = Resolved folderId ->
  fetch env (upload_request (save_file elements files) (fileName_of (now env)) folderId t)
  = Resolved response ->
  ok response = false ->
  (saveToGoogleCloud env elements files w).1
  = match text response with
    | Resolved _ =>
        Resolved {| success := false;
                    message := "Failed to save: Upload failed: "
                               +:+ "Failed to upload file to Google Drive: "
                               +:+ pretty (status response) +:+ " "
                               +:+ statusText response;
                    fileName := None |}
    | Rejected e =>
        Resolved {| success := false;
                    message := "Failed to save: Upload failed: " +:+ message_or_self e;
                    fileName := None |}
    | Pending => Pending
    end.
Proof.
  intros Hready Htoken Hfolder Hfetch Hok.
  destruct (text response) as [errorText | e |] eqn:Htext.
  - rewrite (saveToGoogleCloud_upload_rejected env elements files w t folderId
               ("Upload failed: " +:+
                ("Failed to upload file to Google Drive: " +:+
                 pretty (status response) +:+ " " +:+ statusText response)));
      [reflexivity | assumption | assumption | assumption |].
    by rewrite Hfetch, Hok, Htext.
  - rewrite (saveToGoogleCloud_upload_rejected env elements files w t folderId
               ("Upload failed: " +:+ message_or_self e));
      [reflexivity | assumption | assumption | assumption |].
    by rewrite Hfetch, Hok, Htext.
  - apply (saveToGoogleCloud_upload_pending env elements files w t folderId);
      [assumption | assumption | assumption |].
    by rewrite Hfetch, Hok.
Qed.

(** X4, at an upload answered 403 Forbidden. *)
Lemma save_reports_upload_status_witness :
  (saveToGoogleCloud forbidden_env [rectangle] [] (initial_World (GapiLoaded true))).1
  = Resolved {| success := false;
                message := "Failed to save: Upload failed: "
                           +:+ "Failed to upload file to Google Drive: 403 Forbidden";
                fileName := None |}.
Proof.
  apply (save_reports_upload_status forbidden_env [rectangle] []
           (initial_World (GapiLoaded true)) "ya29.fresh" (Some "folder-7")
           {| ok := false; status := 403; statusText := "Forbidden";
              text := Resolved "quota"; json := Rejected (TError "no body") |});
    reflexivity.
Defined.

(** *** The folder step *)

(** X5: getOrCreateFolder always searches first and creates a folder only
    when the search resolved without a single entry.  When the search finds
    entries it returns the identifier of the first one and makes no other
    call; when the search does not resolve, nothing is created. *)
Theorem getOrCreateFolder_creates_only_when_none env folderName w :
  (forall response first rest,
     drive_files_list env (folder_search_request folderName) = Resolved response ->
     files response = Some (first :: rest) ->
     (getOrCreateFolder env folderName w).1 = Resolved (id first)
     /\ trace (getOrCreateFolder env folderName w).2
        = trace w ++ [EFilesList (folder_search_request folderName)])
  /\ (forall response,
        drive_files_list env (folder_search_request folderName) = Resolved response ->
        files response = None \/ files response = Some [] ->
        trace (getOrCreateFolder env folderName w).2
        = trace w ++ [EFilesList (folder_search_request folderName);
                      EFilesCreate (folder_create_request folderName)])
  /\ ((forall response,
         drive_files_list env (folder_search_request folderName) <> Resolved response) ->
      trace (getOrCreateFolder env folderName w).2
      = trace w ++ [EFilesList (folder_search_request folderName)]).
Proof.
  unfold getOrCreateFolder, getOrCreateFolder_try, files_list, files_create,
    try_catch, bind, log, await, ret, throw. simpl.
  split; [| split].
  - intros response first rest -> Hfiles. simpl. rewrite Hfiles. simpl. auto.
  - intros response -> [Hfiles | Hfiles]; simpl; rewrite Hfiles; simpl;
      destruct (drive_files_create env _); simpl; by rewrite <- app_assoc.
  - intros Hnot. destruct (drive_files_list env _) as [response | e |]; simpl;
      [by destruct (Hnot response) | reflexivity | reflexivity].
Qed.

(** X5, where the search finds two folders of the name, where it finds
    none, and where it is rejected. *)
Lemma getOrCreateFolder_creates_only_when_none_witness :
  ((getOrCreateFolder forbidden_env "excalidraw" (initial_World (GapiLoaded true))).1
   = Resolved (Some "folder-7")
   /\ trace (getOrCreateFolder forbidden_env "excalidraw"
               (initial_World (GapiLoaded true))).2
      = [] ++ [EFilesList (folder_search_request "excalidraw")])
  /\ trace (getOrCreateFolder mock_env "excalidraw" (initial_World (GapiLoaded true))).2
     = [] ++ [EFilesList (folder_search_request "excalidraw");
              EFilesCreate (folder_create_request "excalidraw")]
  /\ trace (getOrCreateFolder no_folder_env "excalidraw"
              (initial_World (GapiLoaded true))).2
     = [] ++ [EFilesList (folder_search_request "excalidraw")].
Proof.
  split; [| split].
  - apply (proj1 (getOrCreateFolder_creates_only_when_none forbidden_env "excalidraw"
                    (initial_World (GapiLoaded true)))
             {| files := Some [ {| id := Some "folder-7"; name := Some "excalidraw";
                                   createdTime := None; modifiedTime := None |};
                                {| id := Some "folder-8"; name := Some "excalidraw";
                                   createdTime := None; modifiedTime := None |} ] |}
             {| id := Some "folder-7"; name := Some "excalidraw";
                createdTime := None; modifiedTime := None |}
             [ {| id := Some "folder-8"; name := Some "excalidraw";
                  createdTime := None; modifiedTime := None |} ]);
      reflexivity.
  - apply (proj1 (proj2 (getOrCreateFolder_creates_only_when_none mock_env "excalidraw"
                           (initial_World (GapiLoaded true))))
             {| files := Some [] |}); [reflexivity | by right].
  - apply (proj2 (proj2 (getOrCreateFolder_creates_only_when_none no_folder_env
                           "excalidraw" (initial_World (GapiLoaded true))))).
    intros response. discriminate.
Defined.

(** *** Listing *)

(** X6: list applies no cap, filter or order of its own: once the folder
    step has resolved it returns the entries of the service's answer as
    they are, the empty list when the answer has no files property, and a
    rejection of the listing call is rethrown wrapped. *)
Theorem list_returns_the_answer_as_is env w t folderId :
  client_ready env w = true ->
  granted_token env = Some t ->
  folder_outcome env GOOGLE_CLOUD_CONFIG.folderName = Resolved folderId ->
  (listFilesFromGoogleCloud env w).1
  = match drive_files_list env (children_request folderId) with
    | Resolved response =>
        Resolved (match files response with Some fs => fs | None => [] end)
    | Rejected e =>
        Rejected (TError ("Failed to list files: " +:+ message_or_unknown e))
    | Pending => Pending
    end.
Proof.
  intros Hready Htoken Hfolder.
  destruct (listFilesFromGoogleCloud_try_after_grant env w t Hready Htoken)
    as (w3 & _ & _ & Hrun).
  destruct (getOrCreateFolder_settles env GOOGLE_CLOUD_CONFIG.folderName w3)
    as (w4 & E4 & _ & _ & _).
  rewrite Hfolder in E4.
  unfold listFilesFromGoogleCloud, try_catch. rewrite Hrun.
  erewrite bind_resolved by exact E4.
  unfold files_list, bind, log, await, ret, throw. simpl.
  by destruct (drive_files_list env (children_request folderId)).
Qed.

(** X6, where the service answers with two entries, older first. *)
Lemma list_returns_the_answer_as_is_witness :
  (listFilesFromGoogleCloud fixed_listing_env (initial_World (GapiLoaded true))).1
  = match drive_files_list fixed_listing_env (children_request (Some "a")) with
    | Resolved response =>
        Resolved (match files response with Some fs => fs | None => [] end)
    | Rejected e =>
        Rejected (TError ("Failed to list files: " +:+ message_or_unknown e))
    | Pending => Pending
    end.
Proof.
  apply (list_returns_the_answer_as_is fixed_listing_env
           (initial_World (GapiLoaded true)) "ya29.token" (Some "a")); reflexivity.
Defined.

(** *** Loading *)

(** X7: with a token in the slot, load sends one GET for the file's media,
    authorized by that token, and leaves the token slot as it was,
    whatever the answer.  An answer with a success status is returned as
    its body parsed, whatever value that is, and a body that cannot be
    parsed is rethrown wrapped; an answer with another status is rethrown
    with its status text once its text has been read, and when reading the
    text fails that failure is rethrown instead; a request that cannot be
    sent is rethrown wrapped; and while the request, the text or the body
    has not settled load does not settle. *)
Theorem load_returns_body_or_status env fileId w t :
  accessToken w = Some t -> t <> "" ->
  trace (loadFromGoogleCloud env fileId w).2
  = trace w ++ [EFetch (download_request fileId t)]
  /\ accessToken (loadFromGoogleCloud env fileId w).2 = Some t
  /\ (loadFromGoogleCloud env fileId w).1
     = match fetch env (download_request fileId t) with
       | Resolved response =>
           if ok response
           then match json response with
                | Resolved data => Resolved data
                | Rejected e =>
                    Rejected (TError ("Failed to load file: " +:+ message_or_unknown e))
                | Pending => Pending
                end
           else match text response with
                | Resolved _ =>
                    Rejected (TError ("Failed to load file: Failed to download file: "
                                      +:+ statusText response))
                | Rejected e =>
                    Rejected (TError ("Failed to load file: " +:+ message_or_unknown e))
                | Pending => Pending
                end
       | Rejected e =>
           Rejected (TError ("Failed to load file: " +:+ message_or_unknown e))
       | Pending => Pending
       end.
Proof.
  intros Ht Hne.
  unfold loadFromGoogleCloud, loadFromGoogleCloud_try, do_fetch, try_catch, bind,
    read_accessToken, log, await, ret, throw. simpl.
  rewrite Ht. simpl. destruct (String.eqb_spec t ""); [contradiction |]. simpl.
  destruct (fetch env (download_request fileId t)) as [response | e |]; simpl;
    [| by repeat split | by repeat split].
  destruct (ok response); simpl.
  - by destruct (json response).
  - by destruct (text response).
Qed.

(** X7, at a download answered 404 Not Found. *)
Lemma load_returns_body_or_status_witness :
  trace (loadFromGoogleCloud fixed_listing_env "file-1"
           {| accessToken := Some "ya29.token"; gapi := GapiLoaded true; trace := [] |}).2
  = [] ++ [EFetch (download_request "file-1" "ya29.token")]
  /\ accessToken (loadFromGoogleCloud fixed_listing_env "file-1"
                    {| accessToken := Some "ya29.token"; gapi := GapiLoaded true;
                       trace := [] |}).2
     = Some "ya29.token"
  /\ (loadFromGoogleCloud fixed_listing_env "file-1"
        {| accessToken := Some "ya29.token"; gapi := GapiLoaded true; trace := [] |}).1
     = Rejected (TError ("Failed to load file: Failed to download file: " +:+ "Not Found")).
Proof.
  apply (load_returns_body_or_status fixed_listing_env "file-1"
           {| accessToken := Some "ya29.token"; gapi := GapiLoaded true; trace := [] |}
           "ya29.token"); [reflexivity | discriminate].
Defined.

(** X8: load never asks for consent, never initializes the client library
    and never lists: every call it makes is the GET of the file's media,
    and it leaves the token slot and [window.gapi] as they were. *)
Theorem load_only_downloads env fileId w :
  (exists evs,
     trace (loadFromGoogleCloud env fileId w).2 = trace w ++ evs
     /\ Forall (fun ev => exists token, ev = EFetch (download_request fileId token)) evs)
  /\ accessToken (loadFromGoogleCloud env fileId w).2 = accessToken w
  /\ gapi (loadFromGoogleCloud env fileId w).2 = gapi w.
Proof.
  unfold loadFromGoogleCloud, loadFromGoogleCloud_try, do_fetch, try_catch, bind,
    read_accessToken, log, await, ret, throw. simpl.
  destruct (falsy_opt (accessToken w)); simpl.
  - split; [| auto]. exists []. split; [by rewrite app_nil_r | constructor].
  - destruct (fetch env _) as [response | e |]; simpl;
      try (split; [| auto]; eexists; split; [reflexivity |];
           constructor; [eauto | constructor]).
    destruct (ok response); simpl;
      [destruct (json response) | destruct (text response)]; simpl;
      (split; [| auto]; eexists; split; [reflexivity |];
       constructor; [eauto | constructor]).
Qed.

(** *** From listing to loading *)

Lemma has_token_Some w : has_token w -> exists t, accessToken w = Some t /\ t <> "".
Proof.
  unfold has_token. destruct (accessToken w) as [t |]; simpl; [| discriminate].
  intros Hf. exists t. split; [reflexivity |]. intros ->. discriminate.
Qed.

Lemma run_op_has_token env op w : has_token w -> has_token (run_op env op w).
Proof.
  intros Hw. destruct (run_op_token_step env op w) as [Hsame | (t & Hg & Hset)];
    unfold has_token.
  - by rewrite Hsame.
  - rewrite Hset. by apply (falsy_opt_granted env).
Qed.

Lemma run_session_has_token ops : forall w, has_token w -> has_token (run_session ops w).
Proof.
  induction ops as [| [env op] rest IH]; intros w Hw; simpl; [assumption |].
  by apply IH, run_op_has_token.
Qed.

(** A list that resolved has stored a token. *)
Lemma listFilesFromGoogleCloud_resolved_has_token env w fs w' :
  listFilesFromGoogleCloud env w = (Resolved fs, w') -> has_token w'.
Proof.
  unfold listFilesFromGoogleCloud, try_catch.
  destruct (listFilesFromGoogleCloud_try env w) as [[r | e |] w0] eqn:E;
    intros H; inversion H; subst.
  unfold listFilesFromGoogleCloud_try, bind in E.
  destruct (loadGoogleDriveAPI env w) as [[[] | ? |] w1]; try discriminate.
  destruct (authenticateGoogleUser env w1) as [[token | ? |] w2]; try discriminate.
  destruct (falsy_opt token) eqn:Hf; [discriminate |]. simpl in E.
  match type of E with
  | context [getOrCreateFolder env ?n ?w3] =>
      pose proof (getOrCreateFolder_same_token env n w3) as T3;
      destruct (getOrCreateFolder env n w3) as [[folderId | ? |] w4]; try discriminate
  end.
  unfold files_list, bind, log, await, ret in E. simpl in E.
  destruct (drive_files_list env _); try discriminate.
  inversion E; subst. unfold has_token. simpl.
  unfold same_token in T3. simpl in T3. by rewrite T3.
Qed.

(** A save that reports success has stored a token. *)
Lemma saveToGoogleCloud_success_has_token env elements files w r w' :
  saveToGoogleCloud env elements files w = (Resolved r, w') ->
  success r = true -> has_token w'.
Proof.
  unfold saveToGoogleCloud, try_catch.
  destruct (saveToGoogleCloud_try env elements files w) as [[r0 | e |] w0] eqn:E;
    intros H Hs; inversion H; subst; try discriminate.
  unfold saveToGoogleCloud_try, bind in E. simpl in E.
  destruct (gapi w); [discriminate |].
  destruct (loadGoogleDriveAPI env w) as [[[] | ? |] w1]; try discriminate.
  destruct (authenticateGoogleUser env w1) as [[token | ? |] w2]; try discriminate.
  destruct (falsy_opt token) eqn:Hf; [discriminate |]. simpl in E.
  match type of E with
  | context [getOrCreateFolder env ?n ?w3] =>
      pose proof (getOrCreateFolder_same_token env n w3) as T3;
      destruct (getOrCreateFolder env n w3) as [[folderId | ? |] w4]; try discriminate
  end.
  pose proof (uploadToGoogleDrive_same_token env (save_file elements files)
                (fileName_of (now env)) folderId w4) as T4.
  destruct (uploadToGoogleDrive env _ _ folderId w4) as [[result | ? |] w5];
    try discriminate.
  pose proof (get_name_world result w5) as Hw.
  destruct (get_name result w5) as [[n | ? |] w6]; try discriminate.
  simpl in Hw. inversion E; subst. unfold has_token.
  unfold same_token in *. simpl in *. by rewrite T4, T3.
Qed.

(** X9: after a list that resolved, or a save that reported success, every
    later load of the session is sent to the service with a stored token,
    whatever operations, failing or not, ran in between: it never fails for
    want of authentication. *)
Theorem load_after_list_or_save_is_sent :
  (forall env w fs w1 ops env' fileId,
     listFilesFromGoogleCloud env w = (Resolved fs, w1) ->
     exists t,
       accessToken (run_session ops w1) = Some t
       /\ trace (loadFromGoogleCloud env' fileId (run_session ops w1)).2
          = trace (run_session ops w1) ++ [EFetch (download_request fileId t)])
  /\ (forall env elements files w r w1 ops env' fileId,
        saveToGoogleCloud env elements files w = (Resolved r, w1) ->
        success r = true ->
        exists t,
          accessToken (run_session ops w1) = Some t
          /\ trace (loadFromGoogleCloud env' fileId (run_session ops w1)).2
             = trace (run_session ops w1) ++ [EFetch (download_request fileId t)]).
Proof.
  assert (forall w ops env' fileId,
            has_token w ->
            exists t,
              accessToken (run_session ops w) = Some t
              /\ trace (loadFromGoogleCloud env' fileId (run_session ops w)).2
                 = trace (run_session ops w) ++ [EFetch (download_request fileId t)])
    as Hsent.
  { intros w ops env' fileId Hw.
    destruct (has_token_Some _ (run_session_has_token ops w Hw)) as (t & Ht & Hne).
    exists t. split; [assumption |].
    unfold loadFromGoogleCloud, loadFromGoogleCloud_try, do_fetch, try_catch, bind,
      read_accessToken, log, await, ret, throw. simpl.
    rewrite Ht. simpl. destruct (String.eqb_spec t ""); [contradiction |]. simpl.
    destruct (fetch env' _) as [response | e |]; simpl; try reflexivity.
    destruct (ok response); simpl;
      [by destruct (json response) | by destruct (text response)]. }
  split.
  - intros env w fs w1 ops env' fileId Hlist. apply Hsent.
    by apply (listFilesFromGoogleCloud_resolved_has_token env w fs).
  - intros env elements files w r w1 ops env' fileId Hsave Hs. apply Hsent.
    by apply (saveToGoogleCloud_success_has_token env elements files w r).
Qed.

(** X9, at a list followed by a save whose consent is refused and by a list
    whose folder search is rejected. *)
Lemma load_after_list_or_save_is_sent_witness :
  exists t,
    accessToken (run_session [(denied_env, Save [rectangle] []); (no_folder_env, List)]
                   (listFilesFromGoogleCloud mock_env (initial_World (GapiLoaded false))).2)
    = Some t
    /\ trace (loadFromGoogleCloud denied_env "file-1"
                (run_session [(denied_env, Save [rectangle] []); (no_folder_env, List)]
                   (listFilesFromGoogleCloud mock_env
                      (initial_World (GapiLoaded false))).2)).2
       = trace (run_session [(denied_env, Save [rectangle] []); (no_folder_env, List)]
                  (listFilesFromGoogleCloud mock_env
                     (initial_World (GapiLoaded false))).2)
         ++ [EFetch (download_request "file-1" t)].
Proof.
  apply (proj1 load_after_list_or_save_is_sent mock_env
           (initial_World (GapiLoaded false)) []).
  reflexivity.
Defined.

(** *** What save can fail with *)

Section Throws.

Context {P : Thrown -> Prop}.




Lemma throws_read_gapi : throws read_gapi P.
Proof. intros w e w'. discriminate. Qed.

Lemma throws_write_accessToken t : throws (write_accessToken t) P.
Proof. intros w e w'. discriminate. Qed.



End Throws.










(** *** Initialization that fails *)

(** X11: a failed initialization is not remembered.  When gapi.client.init
    is rejected, loadGoogleDriveAPI rejects with the initialization error
    (for an Error with a message, that message), the drive client stays
    absent, and the next call initializes again. *)
Theorem failed_initialization_is_retried env env' w e :
  gapi w = GapiLoaded false ->
  gapi_client_init env = Rejected e ->
  (loadGoogleDriveAPI env w).1
  = Rejected (TError ("Google API initialization failed: " +:+ errorMessage e))
  /\ (forall m, e = TError m -> m <> "" -> errorMessage e = m)
  /\ gapi (loadGoogleDriveAPI env w).2 = GapiLoaded false
  /\ trace (loadGoogleDriveAPI env' (loadGoogleDriveAPI env w).2).2
     = trace w
       ++ [EGapiInit (VITE_APP_GOOGLE_API_KEY env)
             ["https://www.googleapis.com/discovery/v1/apis/drive/v3/rest"];
           EGapiInit (VITE_APP_GOOGLE_API_KEY env')
             ["https://www.googleapis.com/discovery/v1/apis/drive/v3/rest"]].
Proof.
  intros Hw Hinit.
  unfold loadGoogleDriveAPI, gapi_client_init_call, try_catch, bind, read_gapi,
    log, await, write_gapi, ret, throw. simpl.
  rewrite Hw, Hinit. simpl. rewrite Hw. simpl.
  split; [reflexivity |]. split; [| split; [reflexivity |]].
  - intros m -> Hm. unfold errorMessage. simpl.
    by destruct (String.eqb_spec m "").
  - destruct (gapi_client_init env') as [[] | e' |]; simpl; by rewrite <- app_assoc.
Qed.

(** X11, where the API key is refused, twice. *)
Lemma failed_initialization_is_retried_witness :
  (loadGoogleDriveAPI forbidden_env (initial_World (GapiLoaded false))).1
  = Rejected (TError ("Google API initialization failed: " +:+
       errorMessage (TObject [("error", JObj [("code", JNum "400");
                                              ("message", JStr "API key not valid.")])])))
  /\ gapi (loadGoogleDriveAPI forbidden_env (initial_World (GapiLoaded false))).2
     = GapiLoaded false
  /\ trace (loadGoogleDriveAPI forbidden_env
              (loadGoogleDriveAPI forbidden_env (initial_World (GapiLoaded false))).2).2
     = [] ++ [EGapiInit (Some "api-key")
                ["https://www.googleapis.com/discovery/v1/apis/drive/v3/rest"];
              EGapiInit (Some "api-key")
                ["https://www.googleapis.com/discovery/v1/apis/drive/v3/rest"]].
Proof.
  pose proof (failed_initialization_is_retried forbidden_env forbidden_env
                (initial_World (GapiLoaded false))
                (TObject [("error", JObj [("code", JNum "400");
                                          ("message", JStr "API key not valid.")])])
                eq_refl eq_refl) as (H1 & _ & H3 & H4).
  split; [exact H1 | split; [exact H3 | exact H4]].
Defined.

(** *** The name of the file *)

(** X12: the timestamp part of the file name has no colon and no dot, is
    as long as the clock text it is made from, and a text that has neither
    is left as it is (so applying the replacement twice changes nothing
    more). *)
Theorem timestamp_has_no_colon_or_dot iso :
  no_colon_or_dot (timestamp iso) = true
  /\ String.length (timestamp iso) = String.length iso
  /\ (no_colon_or_dot iso = true -> timestamp iso = iso)
  /\ timestamp (timestamp iso) = timestamp iso.
Proof.
  assert (forall s, no_colon_or_dot s = true -> timestamp s = s) as Hclean.
  { induction s as [| c s IH]; simpl; [reflexivity |].
    intros H. apply andb_true_iff in H as [Hc Hs]. apply negb_true_iff in Hc.
    rewrite Hc. f_equal. by apply IH. }
  assert (no_colon_or_dot (timestamp iso) = true) as Hno.
  { induction iso as [| c s IH]; simpl; [reflexivity |].
    rewrite IH, andb_true_r.
    destruct (Ascii.eqb c ":" || Ascii.eqb c ".")%bool eqn:Hc; [reflexivity |].
    by rewrite Hc. }
  split; [assumption |]. split; [apply timestamp_length |].
  split; [apply Hclean | by apply Hclean].
Qed.

(** X12, at a text without colon or dot. *)
Lemma timestamp_has_no_colon_or_dot_witness :
  timestamp "2025-01-02T03-04-05-678Z" = "2025-01-02T03-04-05-678Z".
Proof.
  apply (proj1 (proj2 (proj2 (timestamp_has_no_colon_or_dot "2025-01-02T03-04-05-678Z")))).
  reflexivity.
Defined.

(** *** Consent that does not give a token *)

(** X13: when the consent callback arrives with neither an error nor a
    usable access token (missing or empty), save reports, and list throws,
    "Google authentication failed or was cancelled.", and the token slot
    keeps what it held. *)
Theorem callback_without_token_is_a_failure env w response :
  client_ready env w = true ->
  google_oauth2 env = true ->
  token_flow env = Callback response ->
  falsy_opt (error response) = true ->
  falsy_opt (access_token response) = true ->
  (forall elements files,
     (saveToGoogleCloud env elements files w).1
     = Resolved {| success := false;
                   message := "Failed to save: "
                              +:+ "Google authentication failed or was cancelled.";
                   fileName := None |}
     /\ accessToken (saveToGoogleCloud env elements files w).2 = accessToken w)
  /\ (listFilesFromGoogleCloud env w).1
     = Rejected (TError ("Failed to list files: "
                         +:+ "Google authentication failed or was cancelled."))
  /\ accessToken (listFilesFromGoogleCloud env w).2 = accessToken w.
Proof.
  intros Hready Hgis Hflow Herr Htok.
  destruct (client_ready_loaded _ _ Hready) as [d Hd].
  destruct (loadGoogleDriveAPI_ready env w Hready) as (w1 & E1 & _ & T1 & _).
  assert (exists w2, authenticateGoogleUser env w1 = (Resolved (access_token response), w2)
                     /\ accessToken w2 = accessToken w1) as (w2 & E2 & T2).
  { unfold authenticateGoogleUser, bind, log, ret. rewrite Hgis, Hflow. simpl.
    rewrite Herr. simpl. eauto. }
  split; [| split].
  - intros elements files.
    assert (saveToGoogleCloud_try env elements files w
            = (Rejected (TError "Google authentication failed or was cancelled."), w2))
      as Hbody.
    { unfold saveToGoogleCloud_try.
      erewrite bind_resolved by reflexivity. rewrite Hd.
      erewrite bind_resolved by exact E1.
      erewrite bind_resolved by exact E2.
      by rewrite Htok. }
    unfold saveToGoogleCloud. rewrite (try_catch_rejected _ _ _ _ _ Hbody).
    split; [reflexivity | simpl; congruence].
  - assert (listFilesFromGoogleCloud_try env w
            = (Rejected (TError "Google authentication failed or was cancelled."), w2))
      as Hbody.
    { unfold listFilesFromGoogleCloud_try.
      erewrite bind_resolved by exact E1.
      erewrite bind_resolved by exact E2.
      by rewrite Htok. }
    unfold listFilesFromGoogleCloud.
    by rewrite (try_catch_rejected _ _ _ _ _ Hbody).
  - rewrite listFilesFromGoogleCloud_world. unfold listFilesFromGoogleCloud_try.
    erewrite bind_resolved by exact E1.
    erewrite bind_resolved by exact E2.
    rewrite Htok. simpl. congruence.
Qed.

(** X13, from a page that holds an older token. *)
Lemma callback_without_token_is_a_failure_witness :
  (forall elements files,
     (saveToGoogleCloud empty_token_env elements files
        {| accessToken := Some "ya29.old"; gapi := GapiLoaded true; trace := [] |}).1
     = Resolved {| success := false;
                   message := "Failed to save: "
                              +:+ "Google authentication failed or was cancelled.";
                   fileName := None |}
     /\ accessToken (saveToGoogleCloud empty_token_env elements files
                       {| accessToken := Some "ya29.old"; gapi := GapiLoaded true;
                          trace := [] |}).2
        = Some "ya29.old")
  /\ (listFilesFromGoogleCloud empty_token_env
        {| accessToken := Some "ya29.old"; gapi := GapiLoaded true; trace := [] |}).1
     = Rejected (TError ("Failed to list files: "
                         +:+ "Google authentication failed or was cancelled."))
  /\ accessToken (listFilesFromGoogleCloud empty_token_env
                    {| accessToken := Some "ya29.old"; gapi := GapiLoaded true;
                       trace := [] |}).2
     = Some "ya29.old".
Proof.
  apply (callback_without_token_is_a_failure empty_token_env
           {| accessToken := Some "ya29.old"; gapi := GapiLoaded true; trace := [] |}
           {| error := None; error_description := None; access_token := None |});
    reflexivity.
Defined.

(** X14: when the consent callback carries an error, save reports, and
    list throws, "Authentication failed: " followed by the error's
    description, or by the error code when there is no description; the
    token slot keeps what it held. *)
Theorem refused_consent_is_reported env w response :
  client_ready env w = true ->
  google_oauth2 env = true ->
  token_flow env = Callback response ->
  falsy_opt (error response) = false ->
  let reason := template_opt (if falsy_opt (error_description response)
                              then error response
                              else error_description response) in
  (forall elements files,
     (saveToGoogleCloud env elements files w).1
     = Resolved {| success := false;
                   message := "Failed to save: " +:+ ("Authentication failed: " +:+ reason);
                   fileName := None |}
     /\ accessToken (saveToGoogleCloud env elements files w).2 = accessToken w)
  /\ (listFilesFromGoogleCloud env w).1
     = Rejected (TError ("Failed to list files: " +:+ ("Authentication failed: " +:+ reason)))
  /\ accessToken (listFilesFromGoogleCloud env w).2 = accessToken w.
Proof.
  intros Hready Hgis Hflow Herr reason.
  destruct (client_ready_loaded _ _ Hready) as [d Hd].
  destruct (loadGoogleDriveAPI_ready env w Hready) as (w1 & E1 & _ & T1 & _).
  assert (exists w2, authenticateGoogleUser env w1
                     = (Rejected (TError ("Authentication failed: " +:+ reason)), w2)
                     /\ accessToken w2 = accessToken w1) as (w2 & E2 & T2).
  { unfold authenticateGoogleUser, bind, log, ret, throw. rewrite Hgis, Hflow. simpl.
    rewrite Herr. simpl. eauto. }
  assert (forall elements files,
            saveToGoogleCloud_try env elements files w
            = (Rejected (TError ("Authentication failed: " +:+ reason)), w2)) as Hsave.
  { intros elements files. unfold saveToGoogleCloud_try.
    erewrite bind_resolved by reflexivity. rewrite Hd.
    erewrite bind_resolved by exact E1.
    by erewrite bind_rejected by exact E2. }
  assert (listFilesFromGoogleCloud_try env w
          = (Rejected (TError ("Authentication failed: " +:+ reason)), w2)) as Hlist.
  { unfold listFilesFromGoogleCloud_try.
    erewrite bind_resolved by exact E1.
    by erewrite bind_rejected by exact E2. }
  assert (message_or_unknown (TError ("Authentication failed: " +:+ reason))
          = "Authentication failed: " +:+ reason) as Hmsg by reflexivity.
  split; [| split].
  - intros elements files. unfold saveToGoogleCloud.
    rewrite (try_catch_rejected _ _ _ _ _ (Hsave elements files)).
    split; [by rewrite <- Hmsg | simpl; congruence].
  - unfold listFilesFromGoogleCloud.
    rewrite (try_catch_rejected _ _ _ _ _ Hlist). by rewrite <- Hmsg.
  - rewrite listFilesFromGoogleCloud_world, Hlist. simpl. congruence.
Qed.

(** X14, where the user closes the consent window: there is no
    description, and the error code is reported. *)
Lemma refused_consent_is_reported_witness :
  (forall elements files,
     (saveToGoogleCloud denied_env elements files (initial_World (GapiLoaded true))).1
     = Resolved {| success := false;
                   message := "Failed to save: "
                              +:+ ("Authentication failed: " +:+ "access_denied");
                   fileName := None |}
     /\ accessToken (saveToGoogleCloud denied_env elements files
                       (initial_World (GapiLoaded true))).2
        = None)
  /\ (listFilesFromGoogleCloud denied_env (initial_World (GapiLoaded true))).1
     = Rejected (TError ("Failed to list files: "
                         +:+ ("Authentication failed: " +:+ "access_denied")))
  /\ accessToken (listFilesFromGoogleCloud denied_env (initial_World (GapiLoaded true))).2
     = None.
Proof.
  apply (refused_consent_is_reported denied_env (initial_World (GapiLoaded true))
           {| error := Some "access_denied"; error_description := None;
              access_token := None |}); reflexivity.
Defined.

(** *** Scripts that are not on the page *)

(** X15: when Google Identity Services is not on the page, save and list
    ask for no token and call the Drive service for nothing; once the
    client library is ready, save reports, and list throws, that the
    service is not loaded. *)
Theorem no_identity_services_no_request env w :
  google_oauth2 env = false ->
  (forall elements files,
     exists evs,
       trace (saveToGoogleCloud env elements files w).2 = trace w ++ evs
       /\ Forall (fun ev => (is_token_request ev || is_drive_call ev)%bool = false) evs)
  /\ (exists evs,
        trace (listFilesFromGoogleCloud env w).2 = trace w ++ evs
        /\ Forall (fun ev => (is_token_request ev || is_drive_call ev)%bool = false) evs)
  /\ (client_ready env w = true ->
      (forall elements files,
         (saveToGoogleCloud env elements files w).1
         = Resolved {| success := false;
                       message := "Failed to save: " +:+
                         "Google Identity Services not loaded. Please refresh the page.";
                       fileName := None |})
      /\ (listFilesFromGoogleCloud env w).1
         = Rejected (TError ("Failed to list files: " +:+
                       "Google Identity Services not loaded. Please refresh the page."))).
Proof.
  intros Hgis.
  set (quiet := fun ev => (is_token_request ev || is_drive_call ev)%bool = false).
  assert (preserves (appends quiet) (loadGoogleDriveAPI env))
    as F1 by (unfold loadGoogleDriveAPI, gapi_client_init_call, quiet; frame).
  assert (authenticateGoogleUser env
          = throw (TError "Google Identity Services not loaded. Please refresh the page."))
    as Hauth by (unfold authenticateGoogleUser; by rewrite Hgis).
  assert (preserves (appends quiet) (authenticateGoogleUser env))
    as F2 by (rewrite Hauth; frame).
  assert (returns (authenticateGoogleUser env) (fun token => falsy_opt token = true))
    as R2 by (rewrite Hauth; intros w0 token w0' Hrun; discriminate).
  split; [| split].
  - intros elements files.
    change (appends quiet w (saveToGoogleCloud env elements files w).2).
    revert w. change (preserves (appends quiet) (saveToGoogleCloud env elements files)).
    unfold saveToGoogleCloud, saveToGoogleCloud_try.
    apply preserves_try_catch; [typeclasses eauto | | frame].
    apply preserves_bind; [typeclasses eauto | frame | intros g].
    destruct g; [frame |].
    apply preserves_bind; [typeclasses eauto | exact F1 | intros _].
    apply (preserves_bind_returns _ _ _ _ R2); [exact F2 |].
    intros token ->. frame.
  - change (appends quiet w (listFilesFromGoogleCloud env w).2).
    revert w. change (preserves (appends quiet) (listFilesFromGoogleCloud env)).
    unfold listFilesFromGoogleCloud, listFilesFromGoogleCloud_try.
    apply preserves_try_catch; [typeclasses eauto | | frame].
    apply preserves_bind; [typeclasses eauto | exact F1 | intros _].
    apply (preserves_bind_returns _ _ _ _ R2); [exact F2 |].
    intros token ->. frame.
  - intros Hready.
    destruct (client_ready_loaded _ _ Hready) as [d Hd].
    destruct (loadGoogleDriveAPI_ready env w Hready) as (w1 & E1 & _).
    split.
    + intros elements files.
      assert (saveToGoogleCloud_try env elements files w
              = (Rejected (TError
                   "Google Identity Services not loaded. Please refresh the page."), w1))
        as Hbody.
      { unfold saveToGoogleCloud_try.
        erewrite bind_resolved by reflexivity. rewrite Hd.
        erewrite bind_resolved by exact E1.
        by rewrite Hauth. }
      unfold saveToGoogleCloud. by rewrite (try_catch_rejected _ _ _ _ _ Hbody).
    + assert (listFilesFromGoogleCloud_try env w
              = (Rejected (TError
                   "Google Identity Services not loaded. Please refresh the page."), w1))
        as Hbody.
      { unfold listFilesFromGoogleCloud_try.
        erewrite bind_resolved by exact E1.
        by rewrite Hauth. }
      unfold listFilesFromGoogleCloud. by rewrite (try_catch_rejected _ _ _ _ _ Hbody).
Qed.

(** X15, on a page where only the client library was loaded. *)
Lemma no_identity_services_no_request_witness :
  (forall elements files,
     (saveToGoogleCloud no_gis_env elements files (initial_World (GapiLoaded false))).1
     = Resolved {| success := false;
                   message := "Failed to save: " +:+
                     "Google Identity Services not loaded. Please refresh the page.";
                   fileName := None |})
  /\ (listFilesFromGoogleCloud no_gis_env (initial_World (GapiLoaded false))).1
     = Rejected (TError ("Failed to list files: " +:+
                   "Google Identity Services not loaded. Please refresh the page.")).
Proof.
  apply (no_identity_services_no_request no_gis_env (initial_World (GapiLoaded false)));
    reflexivity.
Defined.

(** X16: when the client library script is not on the page, save and list
    fail without any call and leave the page as it was: save by its own
    check, with "Google API not loaded. Please refresh the page.", list by
    the failure of the first step. *)
Theorem no_client_library_no_call env w :
  gapi w = GapiMissing ->
  (forall elements files,
     saveToGoogleCloud env elements files w
     = (Resolved {| success := false;
                    message := "Failed to save: " +:+
                      "Google API not loaded. Please refresh the page.";
                    fileName := None |}, w))
  /\ exists m,
       listFilesFromGoogleCloud env w
       = (Rejected (TError ("Failed to list files: " +:+ m)), w).
Proof.
  intros Hw. split.
  - intros elements files.
    unfold saveToGoogleCloud, saveToGoogleCloud_try, try_catch, bind, read_gapi, throw, ret.
    by rewrite Hw.
  - eexists.
    unfold listFilesFromGoogleCloud, listFilesFromGoogleCloud_try, loadGoogleDriveAPI,
      try_catch, bind, read_gapi, throw, ret.
    rewrite Hw. reflexivity.
Qed.

(** X16, on a page without either script. *)
Lemma no_client_library_no_call_witness :
  (forall elements files,
     saveToGoogleCloud bare_env elements files (initial_World GapiMissing)
     = (Resolved {| success := false;
                    message := "Failed to save: " +:+
                      "Google API not loaded. Please refresh the page.";
                    fileName := None |}, initial_World GapiMissing))
  /\ exists m,
       listFilesFromGoogleCloud bare_env (initial_World GapiMissing)
       = (Rejected (TError ("Failed to list files: " +:+ m)), initial_World GapiMissing).
Proof.
  apply (no_client_library_no_call bare_env (initial_World GapiMissing)). reflexivity.
Defined.

(** *** The component that lists and loads *)

Lemma listFilesFromGoogleCloud_rejects_named env w e w' :
  listFilesFromGoogleCloud env w = (Rejected e, w') ->
  exists m, e = TError ("Failed to list files: " +:+ m).
Proof.
  unfold listFilesFromGoogleCloud, try_catch.
  destruct (listFilesFromGoogleCloud_try env w) as [[fs | e0 |] w0];
    intros H; inversion H; subst. eauto.
Qed.

Lemma loadFromGoogleCloud_rejects_named env fileId w e w' :
  loadFromGoogleCloud env fileId w = (Rejected e, w') ->
  exists m, e = TError ("Failed to load file: " +:+ m).
Proof.
  unfold loadFromGoogleCloud, try_catch.
  destruct (loadFromGoogleCloud_try env fileId w) as [[data | e0 |] w0];
    intros H; inversion H; subst. eauto.
Qed.

Lemma handleListFiles_cases env props c w :
  (exists fs w',
     listFilesFromGoogleCloud env w = (Resolved fs, w')
     /\ handleListFiles env props c w
        = (Resolved tt,
           {| cloud_files := fs; isLoading := false; showFileList := true;
              calls := calls c |}, w'))
  \/ (exists m w',
        listFilesFromGoogleCloud env w
        = (Rejected (TError ("Failed to list files: " +:+ m)), w')
        /\ handleListFiles env props c w
           = (settled_by (onError props ("Failed to list files: " +:+ m)),
              {| cloud_files := cloud_files c; isLoading := false;
                 showFileList := showFileList c;
                 calls := calls c ++ [OnError ("Failed to list files: " +:+ m)] |}, w'))
  \/ (exists w',
        listFilesFromGoogleCloud env w = (Pending, w')
        /\ handleListFiles env props c w
           = (Pending,
              {| cloud_files := cloud_files c; isLoading := true;
                 showFileList := showFileList c; calls := calls c |}, w')).
Proof.
  unfold handleListFiles.
  destruct (listFilesFromGoogleCloud env w) as [[fs | e |] w'] eqn:E.
  - left. eauto.
  - right. left. destruct (listFilesFromGoogleCloud_rejects_named _ _ _ _ E) as [m ->].
    exists m, w'. split; reflexivity.
  - right. right. eauto.
Qed.

Lemma handleLoadFile_cases env props fileId c w :
  (exists data w',
     loadFromGoogleCloud env fileId w = (Resolved data, w')
     /\ onLoadFile props data = None
     /\ handleLoadFile env props fileId c w
        = (Resolved tt,
           {| cloud_files := cloud_files c; isLoading := false;
              showFileList := showFileList c;
              calls := calls c ++ [OnLoadFile data] |}, w'))
  \/ (exists data thrown w',
        loadFromGoogleCloud env fileId w = (Resolved data, w')
        /\ onLoadFile props data = Some thrown
        /\ handleLoadFile env props fileId c w
           = (settled_by (onError props (message_or thrown "Failed to load file")),
              {| cloud_files := cloud_files c; isLoading := false;
                 showFileList := showFileList c;
                 calls := calls c ++ [OnLoadFile data;
                                      OnError (message_or thrown "Failed to load file")] |},
              w'))
  \/ (exists m w',
        loadFromGoogleCloud env fileId w
        = (Rejected (TError ("Failed to load file: " +:+ m)), w')
        /\ handleLoadFile env props fileId c w
           = (settled_by (onError props ("Failed to load file: " +:+ m)),
              {| cloud_files := cloud_files c; isLoading := false;
                 showFileList := showFileList c;
                 calls := calls c ++ [OnError ("Failed to load file: " +:+ m)] |}, w'))
  \/ (exists w',
        loadFromGoogleCloud env fileId w = (Pending, w')
        /\ handleLoadFile env props fileId c w
           = (Pending,
              {| cloud_files := cloud_files c; isLoading := true;
                 showFileList := showFileList c; calls := calls c |}, w')).
Proof.
  unfold handleLoadFile.
  destruct (loadFromGoogleCloud env fileId w) as [[data | e |] w'] eqn:E.
  - destruct (onLoadFile props data) as [thrown |] eqn:Hcall.
    + right. left. exists data, thrown, w'. split; [reflexivity |].
      split; [assumption |]. unfold catch_finally, setIsLoading, call. simpl.
      by rewrite <- app_assoc.
    + left. exists data, w'. by repeat split.
  - right. right. left.
    destruct (loadFromGoogleCloud_rejects_named _ _ _ _ _ E) as [m ->].
    exists m, w'. split; reflexivity.
  - right. right. right. eauto.
Qed.



(** X18: handleLoadFile never changes the files, the view that is shown
    or the token, and it rejects only when the parent's onError throws, and
    then with what onError threw.  When the module's call settles the
    loading state is left, and: if load failed, onError is called once with
    the module's message (which starts with "Failed to load file: "); if
    load returned and onLoadFile returns, onLoadFile is the one callback
    called, with the data the module returned; if onLoadFile throws, onError
    is called after it, with the message of what was thrown, or with the
    fallback "Failed to load file" when that has no message. *)
Theorem handleLoadFile_outcome env props fileId c w o c' w' :
  handleLoadFile env props fileId c w = (o, c', w') ->
  w' = (loadFromGoogleCloud env fileId w).2
  /\ accessToken w' = accessToken w
  /\ cloud_files c' = cloud_files c
  /\ showFileList c' = showFileList c
  /\ ((exists data,
         (loadFromGoogleCloud env fileId w).1 = Resolved data
         /\ onLoadFile props data = None
         /\ o = Resolved tt
         /\ isLoading c' = false
         /\ calls c' = calls c ++ [OnLoadFile data])
      \/ (exists data thrown,
            (loadFromGoogleCloud env fileId w).1 = Resolved data
            /\ onLoadFile props data = Some thrown
            /\ o = settled_by (onError props (message_or thrown "Failed to load file"))
            /\ isLoading c' = false
            /\ calls c' = calls c ++ [OnLoadFile data;
                                      OnError (message_or thrown "Failed to load file")])
      \/ (exists m,
            (loadFromGoogleCloud env fileId w).1
            = Rejected (TError ("Failed to load file: " +:+ m))
            /\ o = settled_by (onError props ("Failed to load file: " +:+ m))
            /\ isLoading c' = false
            /\ calls c' = calls c ++ [OnError ("Failed to load file: " +:+ m)])
      \/ (o = Pending
          /\ (loadFromGoogleCloud env fileId w).1 = Pending
          /\ isLoading c' = true
          /\ calls c' = calls c)).
Proof.
  intros Hrun.
  pose proof (loadFromGoogleCloud_same_token env fileId w) as Htok.
  destruct (handleLoadFile_cases env props fileId c w)
    as [(data & w1 & E & Hcall & H) | [(data & thrown & w1 & E & Hcall & H)
       | [(m & w1 & E & H) | (w1 & E & H)]]];
    rewrite H in Hrun; inversion Hrun; subst; rewrite E in Htok |- *; simpl in *;
    (split; [reflexivity |]); (split; [assumption |]);
    (split; [reflexivity |]); (split; [reflexivity |]).
  - left. by exists data.
  - right. left. by exists data, thrown.
  - right. right. left. by exists m.
  - right. right. right. by repeat split.
Qed.

(** X18, where the download succeeds but the parent's onLoadFile throws an
    Error without a message and its onError throws too: both callbacks are
    called, onError with the fallback, and the handler rejects. *)
Lemma handleLoadFile_outcome_witness :
  exists c' w',
    handleLoadFile mock_env throwing_props "file-1" initial_LoadFromCloud
      {| accessToken := Some "ya29.token"; gapi := GapiLoaded true; trace := [] |}
    = (Rejected (TError "cannot show the error"), c', w')
    /\ accessToken w' = Some "ya29.token"
    /\ isLoading c' = false
    /\ length (calls c') = 2
    /\ last (calls c') = Some (OnError "Failed to load file").
Proof.
  eexists _, _. split; [reflexivity |].
  split; [| by repeat split].
  exact (proj1 (proj2 (handleLoadFile_outcome mock_env throwing_props "file-1"
                         initial_LoadFromCloud
                         {| accessToken := Some "ya29.token"; gapi := GapiLoaded true;
                            trace := [] |}
                         (Rejected (TError "cannot show the error")) _ _ eq_refl))).
Defined.

(** *** Sessions of the page *)

Lemma handleListFiles_keeps_token_for_files env props c w :
  (cloud_files c <> [] -> has_token w) ->
  cloud_files (handleListFiles env props c w).1.2 <> [] ->
  has_token (handleListFiles env props c w).2.
Proof.
  intros Hinv.
  destruct (handleListFiles_cases env props c w)
    as [(fs & w1 & E & H) | [(m & w1 & E & H) | (w1 & E & H)]];
    rewrite H; simpl; intros Hfiles.
  - by apply (listFilesFromGoogleCloud_resolved_has_token env w fs).
  - replace w1 with (run_op env List w) by (simpl; by rewrite E).
    by apply run_op_has_token, Hinv.
  - replace w1 with (run_op env List w) by (simpl; by rewrite E).
    by apply run_op_has_token, Hinv.
Qed.

Lemma handleLoadFile_keeps_token_for_files env props fileId c w :
  (cloud_files c <> [] -> has_token w) ->
  cloud_files (handleLoadFile env props fileId c w).1.2 <> [] ->
  has_token (handleLoadFile env props fileId c w).2.
Proof.
  intros Hinv.
  destruct (handleLoadFile_cases env props fileId c w)
    as [(data & w1 & E & Hcall & H) | [(data & thrown & w1 & E & Hcall & H)
       | [(m & w1 & E & H) | (w1 & E & H)]]];
    rewrite H; simpl; intros Hfiles;
    (replace w1 with (run_op env (Load fileId) w) by (simpl; by rewrite E));
    by apply run_op_has_token, Hinv.
Qed.

Lemma page_step_keeps_token_for_files env props s c w :
  (cloud_files c <> [] -> has_token w) ->
  cloud_files (page_step env props s c w).1 <> [] ->
  has_token (page_step env props s c w).2.
Proof.
  intros Hinv. destruct s as [k | op]; simpl.
  - unfold click. destruct k as [| index |]; destruct (render c) as [| items | [] label];
      simpl; try exact Hinv.
    + by apply handleListFiles_keeps_token_for_files.
    + destruct (items !! index) as [file |]; simpl; [| exact Hinv].
      by apply handleLoadFile_keeps_token_for_files.
  - intros Hfiles. by apply run_op_has_token, Hinv.
Qed.

Lemma run_page_keeps_token_for_files steps :
  forall c w,
    (cloud_files c <> [] -> has_token w) ->
    cloud_files (run_page steps c w).1 <> [] ->
    has_token (run_page steps c w).2.
Proof.
  induction steps as [| [[env props] s] rest IH]; intros c w Hinv; simpl;
    [exact Hinv |].
  apply IH. by apply page_step_keeps_token_for_files.
Qed.

Lemma loadFromGoogleCloud_sends env fileId w t :
  accessToken w = Some t -> t <> "" ->
  trace (loadFromGoogleCloud env fileId w).2
  = trace w ++ [EFetch (download_request fileId t)].
Proof.
  intros Ht Hne.
  unfold loadFromGoogleCloud, loadFromGoogleCloud_try, do_fetch, try_catch, bind,
    read_accessToken, log, await, ret, throw. simpl.
  rewrite Ht. simpl. destruct (String.eqb_spec t ""); [contradiction |]. simpl.
  destruct (fetch env (download_request fileId t)) as [response | e |]; simpl;
    [| reflexivity | reflexivity].
  destruct (ok response); simpl.
  - by destruct (json response).
  - by destruct (text response).
Qed.

(** X19: in every session of the page that starts with the component as
    mounted (clicks on the component and operations of the module started
    elsewhere, in any order, whether they fail or not and whatever the
    parent's callbacks do), a file the component shows can be loaded: the
    module holds a token, and a click on the item sends the download of
    that file's identifier with that token; it never fails for want of
    authentication. *)
Theorem shown_file_is_downloaded_with_token steps w0 c w items index file env props :
  run_page steps initial_LoadFromCloud w0 = (c, w) ->
  render c = FileList items ->
  items !! index = Some file ->
  exists t,
    accessToken w = Some t
    /\ trace (click env props (ClickFile index) c w).2
       = trace w ++ [EFetch (download_request (template_opt (id file)) t)].
Proof.
  intros Hrun Hrender Hitem.
  assert (cloud_files c <> []) as Hfiles.
  { unfold render in Hrender. destruct (showFileList c); [| discriminate].
    destruct (cloud_files c); [discriminate | done]. }
  pose proof (run_page_keeps_token_for_files steps initial_LoadFromCloud w0) as Hinv.
  rewrite Hrun in Hinv. simpl in Hinv.
  destruct (has_token_Some w (Hinv (fun H => False_ind _ (H eq_refl)) Hfiles))
    as (t & Ht & Hne).
  exists t. split; [assumption |].
  unfold click. rewrite Hrender, Hitem. simpl.
  destruct (handleLoadFile_cases env props (template_opt (id file)) c w)
    as [(data & w1 & E & Hcall & H) | [(data & thrown & w1 & E & Hcall & H)
       | [(m & w1 & E & H) | (w1 & E & H)]]];
    rewrite H; simpl;
    (replace w1 with (loadFromGoogleCloud env (template_opt (id file)) w).2
       by (by rewrite E));
    by apply loadFromGoogleCloud_sends.
Qed.

(** X19, after one click on the button and one on the first item, with a
    parent whose callbacks throw. *)
Lemma shown_file_is_downloaded_with_token_witness :
  exists t,
    accessToken (run_page [(fixed_listing_env, quiet_props, UserClick ClickLoadFromCloud);
                           (fixed_listing_env, throwing_props, UserClick (ClickFile 0))]
                   initial_LoadFromCloud (initial_World (GapiLoaded true))).2
    = Some t
    /\ trace (click fixed_listing_env throwing_props (ClickFile 1)
                (run_page [(fixed_listing_env, quiet_props, UserClick ClickLoadFromCloud);
                           (fixed_listing_env, throwing_props, UserClick (ClickFile 0))]
                   initial_LoadFromCloud (initial_World (GapiLoaded true))).1
                (run_page [(fixed_listing_env, quiet_props, UserClick ClickLoadFromCloud);
                           (fixed_listing_env, throwing_props, UserClick (ClickFile 0))]
                   initial_LoadFromCloud (initial_World (GapiLoaded true))).2).2
       = trace (run_page [(fixed_listing_env, quiet_props, UserClick ClickLoadFromCloud);
                          (fixed_listing_env, throwing_props, UserClick (ClickFile 0))]
                  initial_LoadFromCloud (initial_World (GapiLoaded true))).2
         ++ [EFetch (download_request "b" t)].
Proof.
  apply (shown_file_is_downloaded_with_token
           [(fixed_listing_env, quiet_props, UserClick ClickLoadFromCloud);
            (fixed_listing_env, throwing_props, UserClick (ClickFile 0))]
           (initial_World (GapiLoaded true)) _ _ two_entries 1
           {| id := Some "b"; name := Some "newer"; createdTime := Some 2%Z;
              modifiedTime := Some 2%Z |}
           fixed_listing_env throwing_props); reflexivity.
Defined.

(** The callbacks a step calls: none, one, or onLoadFile and then
    onError. *)
Lemma page_step_calls env props s c w :
  exists ks,
    calls (page_step env props s c w).1 = calls c ++ ks
    /\ length ks <= 2
    /\ ((forall data, onLoadFile props data = None) ->
        length ks <= 1 /\ Forall (fun k => names_the_operation k = true) ks).
Proof.
  assert (exists ks : list CallbackCall,
            calls c = calls c ++ ks /\ length ks <= 2
            /\ ((forall data, onLoadFile props data = None) ->
                length ks <= 1 /\ Forall (fun k => names_the_operation k = true) ks))
    as Hnone.
  { exists []. split; [by rewrite app_nil_r |]. simpl.
    split; [lia |]. intros _. split; [lia | constructor]. }
  destruct s as [k | op]; simpl; [| exact Hnone].
  unfold click. destruct k as [| index |]; destruct (render c) as [| items | [] label];
    simpl; try exact Hnone.
  - destruct (handleListFiles_cases env props c w)
      as [(fs & w1 & E & H) | [(m & w1 & E & H) | (w1 & E & H)]];
      rewrite H; simpl; [exact Hnone | | exact Hnone].
    eexists [_]. split; [reflexivity |]. simpl. split; [lia |].
    intros _. split; [lia |]. by repeat constructor.
  - destruct (items !! index) as [file |]; simpl; [| exact Hnone].
    destruct (handleLoadFile_cases env props (template_opt (id file)) c w)
      as [(data & w1 & E & Hcall & H) | [(data & thrown & w1 & E & Hcall & H)
         | [(m & w1 & E & H) | (w1 & E & H)]]];
      rewrite H; simpl; [| | | exact Hnone].
    + eexists [_]. split; [reflexivity |]. simpl. split; [lia |].
      intros _. split; [lia |]. by repeat constructor.
    + eexists [_; _]. split; [reflexivity |]. simpl. split; [lia |].
      intros Hquiet. rewrite Hquiet in Hcall. discriminate.
    + eexists [_]. split; [reflexivity |]. simpl. split; [lia |].
      intros _. split; [lia |]. by repeat constructor.
Qed.

Lemma run_page_calls steps :
  forall c w,
    Forall (fun step : Env * Props * PageStep =>
              forall data, onLoadFile step.1.2 data = None) steps ->
    Forall (fun k => names_the_operation k = true) (calls c) ->
    Forall (fun k => names_the_operation k = true) (calls (run_page steps c w).1).
Proof.
  induction steps as [| [[env props] s] rest IH]; intros c w Hsteps Hc; simpl;
    [assumption |].
  apply Forall_cons in Hsteps as [Hquiet Hrest]. simpl in Hquiet.
  apply IH; [assumption |].
  destruct (page_step_calls env props s c w) as (ks & -> & _ & Hks).
  apply Forall_app. split; [assumption | by apply Hks].
Qed.

(** X20: a step of the page makes the component call at most two
    callbacks, and at most one when the parent's onLoadFile does not throw.
    In a session in which onLoadFile never throws, every message the
    component has passed to onError starts with "Failed to list files: " or
    "Failed to load file: ": the fallback texts of the two handlers are not
    used. *)
Theorem page_callbacks_name_the_operation :
  (forall env props s c w,
     exists ks,
       calls (page_step env props s c w).1 = calls c ++ ks
       /\ length ks <= 2
       /\ ((forall data, onLoadFile props data = None) ->
           length ks <= 1 /\ Forall (fun k => names_the_operation k = true) ks))
  /\ (forall steps w0,
        Forall (fun step : Env * Props * PageStep =>
                  forall data, onLoadFile step.1.2 data = None) steps ->
        Forall (fun k => names_the_operation k = true)
          (calls (run_page steps initial_LoadFromCloud w0).1))
  /\ names_the_operation (OnError "Failed to list files") = false
  /\ names_the_operation (OnError "Failed to load file") = false.
Proof.
  split; [apply page_step_calls |]. split; [| split; reflexivity].
  intros steps w0 Hsteps. apply run_page_calls; [assumption | constructor].
Qed.

(** X20, over a session with a failing download: one callback, and its
    message names the operation. *)
Lemma page_callbacks_name_the_operation_witness :
  Forall (fun k => names_the_operation k = true)
    (calls (run_page [(fixed_listing_env, quiet_props, UserClick ClickLoadFromCloud);
                      (fixed_listing_env, quiet_props, UserClick (ClickFile 0))]
              initial_LoadFromCloud (initial_World (GapiLoaded true))).1)
  /\ calls (run_page [(fixed_listing_env, quiet_props, UserClick ClickLoadFromCloud);
                      (fixed_listing_env, quiet_props, UserClick (ClickFile 0))]
              initial_LoadFromCloud (initial_World (GapiLoaded true))).1
     = [OnError "Failed to load file: Failed to download file: Not Found"].
Proof.
  split; [| reflexivity].
  apply (proj1 (proj2 page_callbacks_name_the_operation)).
  repeat constructor.
Defined.
